(** * deneme-webapp: the finance dashboard's core, embedded in Rocq

    A shallow embedding of [src/App.tsx] and [src/types.ts]: the entity
    types, the balance calculator [getBalance], the aggregates computed in
    [App] (total remaining debt, recent activity, highest debt, accounts
    without recent payments), the mutations ([addTransaction],
    [deleteAccount]) and the persistence adapter ([loadFromStorage],
    [saveToStorage]).

    Conventions of the embedding.
    - A JavaScript [number] is an IEEE 754 binary64 value: Rocq's primitive
      [float].  [+], [-], [>] and [>=] are the primitive operations;
      [Math.max] follows ECMAScript (NaN is contagious, [+0] is larger
      than [-0]).
    - [Array.prototype.filter], [reduce], [map] and [some] are [filter],
      [fold_left], [map] and [existsb] on lists.
    - A time value is an integer number of milliseconds since the epoch.
      The ISO string held by [Transaction.date] is kept as the time value
      that [new Date(date)] denotes, [None] for a string that [Date] cannot
      parse (an Invalid Date, whose time value is NaN).  The methods of
      [Date] follow ECMAScript's abstract operations; the time zone of the
      host is a parameter.
    - Code that may throw runs in a small state-and-exception monad over
      the browser's [localStorage] and the console.  Where the browser
      denies access to storage, reading [localStorage] itself throws.
    - [JSON.stringify] and [JSON.parse] are functions of the platform on
      JSON values.  The entities have their JSON values, and what is read
      from storage is of the declared type only where its JSON value has
      that shape: the casts of TypeScript check nothing at run time. *)

From stdpp Require Import base option gmap strings list.
From Stdlib Require Import ZArith List Bool Lia String DecimalString Permutation Floats.
From Stdlib Require Uint63.
Import ListNotations.

Set Warnings "-inexact-float".
Local Open Scope Z_scope.

(** ** JavaScript numbers *)

Abbreviation number := float.

Definition isNaN (x : number) : bool :=
  match PrimFloat.classify x with NaN => true | _ => false end.

Definition isFinite (x : number) : bool :=
  match PrimFloat.classify x with NaN | PInf | NInf => false | _ => true end.

Definition isPositiveZero (x : number) : bool :=
  match PrimFloat.classify x with PZero => true | _ => false end.

Definition isNegativeZero (x : number) : bool :=
  match PrimFloat.classify x with NZero => true | _ => false end.

(** [x > y] and [x >= y] of JavaScript: false as soon as one side is NaN. *)
Definition gt (x y : number) : bool := PrimFloat.ltb y x.
Definition ge (x y : number) : bool := PrimFloat.leb y x.

(** One step of the loop of ECMAScript's [Math.max]: [highest] is the
    running maximum, [n] the next argument (NaN was ruled out before). *)
Definition mathMaxStep (highest n : number) : number :=
  if isPositiveZero n && isNegativeZero highest then n
  else if gt n highest then n
  else highest.

(** [Math.max(x, y)]. *)
Definition mathMax (x y : number) : number :=
  if isNaN x || isNaN y then PrimFloat.nan
  else mathMaxStep (mathMaxStep PrimFloat.neg_infinity x) y.

(** ** Entity types ([types.ts]) *)

Inductive AccountType := CREDIT_CARD | LOAN | OVERDRAFT.

Inductive TransactionDirection := POSITIVE | NEGATIVE.

Inductive Currency := TRY.

Definition direction_eqb (d1 d2 : TransactionDirection) : bool :=
  match d1, d2 with
  | POSITIVE, POSITIVE | NEGATIVE, NEGATIVE => true
  | _, _ => false
  end.

Module Account.
Record t := make {
  id : string;
  name : string;
  type : AccountType;
  bankName : string;
  currency : Currency;
  startingDebt : number;
  createdAt : string;
  notes : string }.
End Account.
Abbreviation Account := Account.t.

Module Transaction.
Record t := make {
  id : string;
  accountId : string;
  date : option Z;
  amount : number;
  direction : TransactionDirection;
  category : string;
  description : string }.
End Transaction.
Abbreviation Transaction := Transaction.t.

(** ** The balance calculator *)

Definition getBalance (account : Account) (transactions : list Transaction) : number :=
  fold_left
    (fun total transaction =>
       if direction_eqb (Transaction.direction transaction) NEGATIVE
       then (total + Transaction.amount transaction)%float
       else (total - Transaction.amount transaction)%float)
    (filter (fun transaction =>
               String.eqb (Transaction.accountId transaction) (Account.id account))
            transactions)
    (Account.startingDebt account).

(** ** The browser: [localStorage], [JSON] and the console *)

(** A [Storage] object.  [blocked] stands for a browser that denies the
    page access to storage (by a setting of the user or by policy): reading
    the global [localStorage] throws a SecurityError there, and so does
    every use of it; [quota] bounds the length of a value that [setItem]
    accepts. *)
Record Storage := mkStorage {
  items : gmap string string;
  blocked : bool;
  quota : N }.

(** The part of the browser the adapter talks to: [localStorage] is [None]
    where [typeof localStorage === 'undefined'], and [console] collects the
    lines written by [console.warn], most recent first. *)
Record World := mkWorld {
  localStorage : option Storage;
  console : list string }.

Inductive completion (A : Type) :=
| Normal (value : A)
| Throw (error : string).
Arguments Normal {A} value.
Arguments Throw {A} error.

Definition JS (A : Type) : Type := World -> completion A * World.

Definition ret {A} (a : A) : JS A := fun w => (Normal a, w).

Definition throw {A} (error : string) : JS A := fun w => (Throw error, w).

Definition bind {A B} (c : JS A) (k : A -> JS B) : JS B :=
  fun w =>
    match c w with
    | (Normal a, w') => k a w'
    | (Throw e, w') => (Throw e, w')
    end.

Definition tryCatch {A} (body : JS A) (handler : string -> JS A) : JS A :=
  fun w =>
    match body w with
    | (Normal a, w') => (Normal a, w')
    | (Throw e, w') => handler e w'
    end.

Notation "x <- c1 ;; c2" := (bind c1 (fun x => c2))
  (at level 100, c1 at next level, right associativity).
Notation "c1 ;;; c2" := (bind c1 (fun _ => c2))
  (at level 100, right associativity).

Definition lift {A} (c : completion A) : JS A := fun w => (c, w).

(** [typeof localStorage === 'undefined'].  [typeof] of a name that is not
    bound is ['undefined'], without an error; of a bound name it reads the
    value, and the getter of [localStorage] throws where access to storage
    is denied. *)
Definition typeofLocalStorageUndefined : JS bool :=
  fun w =>
    match localStorage w with
    | None => (Normal true, w)
    | Some store =>
        if blocked store then (Throw "SecurityError", w) else (Normal false, w)
    end.

Definition getItem (key : string) : JS (option string) :=
  fun w =>
    match localStorage w with
    | None => (Throw "ReferenceError", w)
    | Some store =>
        if blocked store then (Throw "SecurityError", w)
        else (Normal (items store !! key), w)
    end.

Definition setItem (key value : string) : JS unit :=
  fun w =>
    match localStorage w with
    | None => (Throw "ReferenceError", w)
    | Some store =>
        if blocked store then (Throw "SecurityError", w)
        else if (quota store <? N.of_nat (String.length value))%N then (Throw "QuotaExceededError", w)
        else (Normal tt,
              {| localStorage := Some {| items := <[key := value]> (items store);
                                         blocked := blocked store;
                                         quota := quota store |};
                 console := console w |})
    end.

Definition consoleWarn (message error : string) : JS unit :=
  fun w => (Normal tt,
            {| localStorage := localStorage w;
               console := (message ++ " " ++ error)%string :: console w |}).

(** [JSON.stringify] and [JSON.parse] at the type [T] the caller asks for:
    [JSON_parse] is [None] where [JSON.parse] throws a SyntaxError. *)
Class JSON (T : Type) := {
  JSON_stringify : T -> string;
  JSON_parse : string -> option T }.

Definition parseJSON {T} `{JSON T} (text : string) : JS T :=
  match JSON_parse text with
  | Some value => ret value
  | None => throw "SyntaxError"
  end.

(** A string is truthy unless it is empty. *)
Definition truthy (s : string) : bool :=
  match s with EmptyString => false | String _ _ => true end.

(** ** The persistence adapter *)

Inductive StorageKey := accountsKey | transactionsKey | themeKey.

Definition storageKeys (key : StorageKey) : string :=
  match key with
  | accountsKey => "deneme-webapp.accounts"
  | transactionsKey => "deneme-webapp.transactions"
  | themeKey => "deneme-webapp.theme"
  end.

Definition loadFromStorage {T} `{JSON T} (key : StorageKey) (fallback : T) : JS T :=
  undefined <- typeofLocalStorageUndefined ;;
  if (undefined : bool) then ret fallback
  else
    tryCatch
      (saved <- getItem (storageKeys key) ;;
       match saved with
       | Some text => if truthy text then parseJSON text else ret fallback
       | None => ret fallback
       end)
      (fun error =>
         consoleWarn ("Failed to read " ++ storageKeys key ++ " from storage") error ;;;
         ret fallback).

Definition saveToStorage {T} `{JSON T} (key : StorageKey) (value : T) : JS unit :=
  undefined <- typeofLocalStorageUndefined ;;
  if (undefined : bool) then ret tt
  else
    tryCatch
      (setItem (storageKeys key) (JSON_stringify value))
      (fun error =>
         consoleWarn ("Failed to save " ++ storageKeys key ++ " to storage") error).

(** ** The aggregates of [App] *)

Module Summary.
Record t := make {
  account : Account;
  balance : number }.
End Summary.
Abbreviation Summary := Summary.t.

Module Highest.
Record t := make {
  account : Account;
  debt : number }.
End Highest.
Abbreviation Highest := Highest.t.

Definition accountSummaries (accounts : list Account) (transactions : list Transaction)
  : list Summary :=
  map (fun account => Summary.make account (getBalance account transactions)) accounts.

Definition totalRemainingDebt (summaries : list Summary) : number :=
  fold_left (fun sum entry => (sum + mathMax (Summary.balance entry) 0)%float)
            summaries 0%float.

(** The earlier variant of [App] sums the raw balances instead. *)
Definition totalBalance (accounts : list Account) (transactions : list Transaction)
  : number :=
  fold_left (fun sum account => (sum + getBalance account transactions)%float)
            accounts 0%float.

(** ** Dates

    The time arithmetic of ECMAScript's [Date] objects on time values
    (milliseconds since the epoch, as integers): the abstract operations of
    the language specification under their own names.  The host's time zone
    enters through [LocalTZA]: the offset of local time from UTC, in
    milliseconds, at a time value given in UTC ([true]) or in local time
    ([false]). *)

Class TimeZone := { LocalTZA : Z -> bool -> Z }.

Definition msPerDay : Z := 86400000.

Definition Day (t : Z) : Z := t / msPerDay.

Definition TimeWithinDay (t : Z) : Z := t mod msPerDay.

Definition DaysInYear (y : Z) : Z :=
  if negb (y mod 4 =? 0) then 365
  else if negb (y mod 100 =? 0) then 366
  else if negb (y mod 400 =? 0) then 365
  else 366.

Definition DayFromYear (y : Z) : Z :=
  365 * (y - 1970) + (y - 1969) / 4 - (y - 1901) / 100 + (y - 1601) / 400.

Definition TimeFromYear (y : Z) : Z := msPerDay * DayFromYear y.

(** The largest [y] with [TimeFromYear y <= t] ([YearFromTime_spec] and
    [YearFromTime_largest] below), computed from the days since
    1 January 1601 by periods of 400, 100, 4 and 1 years. *)
Definition YearFromTime (t : Z) : Z :=
  let days := Day t - DayFromYear 1601 in
  let centuries := Z.min (days mod 146097 / 36524) 3 in
  let inCentury := days mod 146097 - 36524 * centuries in
  let years := Z.min (inCentury mod 1461 / 365) 3 in
  1601 + 400 * (days / 146097) + 100 * centuries + 4 * (inCentury / 1461) + years.

Definition InLeapYear (t : Z) : Z :=
  if DaysInYear (YearFromTime t) =? 366 then 1 else 0.

Definition DayWithinYear (t : Z) : Z := Day t - DayFromYear (YearFromTime t).

Definition MonthFromTime (t : Z) : Z :=
  let day := DayWithinYear t in
  let leap := InLeapYear t in
  if day <? 31 then 0
  else if day <? 59 + leap then 1
  else if day <? 90 + leap then 2
  else if day <? 120 + leap then 3
  else if day <? 151 + leap then 4
  else if day <? 181 + leap then 5
  else if day <? 212 + leap then 6
  else if day <? 243 + leap then 7
  else if day <? 273 + leap then 8
  else if day <? 304 + leap then 9
  else if day <? 334 + leap then 10
  else 11.

Definition DateFromTime (t : Z) : Z :=
  let day := DayWithinYear t in
  let leap := InLeapYear t in
  match MonthFromTime t with
  | 0 => day + 1
  | 1 => day - 30
  | 2 => day - 58 - leap
  | 3 => day - 89 - leap
  | 4 => day - 119 - leap
  | 5 => day - 150 - leap
  | 6 => day - 180 - leap
  | 7 => day - 211 - leap
  | 8 => day - 242 - leap
  | 9 => day - 272 - leap
  | 10 => day - 303 - leap
  | _ => day - 333 - leap
  end.

Definition LocalTime `{TimeZone} (t : Z) : Z := t + LocalTZA t true.

Definition UTC `{TimeZone} (t : Z) : Z := t - LocalTZA t false.

(** The day of the year on which month [month] (0 to 11) begins. *)
Definition monthStart (month leap : Z) : Z :=
  match month with
  | 0 => 0
  | 1 => 31
  | 2 => 59 + leap
  | 3 => 90 + leap
  | 4 => 120 + leap
  | 5 => 151 + leap
  | 6 => 181 + leap
  | 7 => 212 + leap
  | 8 => 243 + leap
  | 9 => 273 + leap
  | 10 => 304 + leap
  | _ => 334 + leap
  end.

(** [MakeDay]: the day number of the first day of the month, moved by
    [date - 1] days. *)
Definition MakeDay (year month date : Z) : Z :=
  let ym := year + month / 12 in
  let mn := month mod 12 in
  DayFromYear ym + monthStart mn (if DaysInYear ym =? 366 then 1 else 0) + date - 1.

Definition MakeDate (day time : Z) : Z := day * msPerDay + time.

(** [TimeClip]: [None] is the NaN time value of an Invalid Date. *)
Definition TimeClip (time : Z) : option Z :=
  if 8640000000000000 <? Z.abs time then None else Some time.

(** [Date.prototype.getDate] and [Date.prototype.setDate] on a date whose
    time value is [t]; [Date_setDate] yields the new time value. *)
Definition Date_getDate `{TimeZone} (t : Z) : Z := DateFromTime (LocalTime t).

Definition Date_setDate `{TimeZone} (date : Z) (t : Z) : option Z :=
  let t := LocalTime t in
  let newDate :=
    MakeDate (MakeDay (YearFromTime t) (MonthFromTime t) date) (TimeWithinDay t) in
  TimeClip (UTC newDate).

(** ** Recent activity *)

(** [const windowStart = new Date(); windowStart.setDate(windowStart.getDate() - 30)],
    where [now] is the time value of [new Date()]. *)
Definition windowStart `{TimeZone} (now : Z) : option Z :=
  Date_setDate (Date_getDate now - 30) now.

(** [new Date(transaction.date) >= windowStart]: a comparison of two time
    values, false when one of them is NaN. *)
Definition recentTransactions `{TimeZone} (now : Z) (transactions : list Transaction)
  : list Transaction :=
  filter (fun transaction =>
            match Transaction.date transaction, windowStart now with
            | Some time, Some start => start <=? time
            | _, _ => false
            end)
         transactions.

Definition highestDebtAccount (summaries : list Summary) : option Highest :=
  fold_left
    (fun current entry =>
       let debt := mathMax (Summary.balance entry) 0%float in
       match current with
       | None => Some (Highest.make (Summary.account entry) debt)
       | Some best =>
           if gt debt (Highest.debt best)
           then Some (Highest.make (Summary.account entry) debt)
           else current
       end)
    summaries None.

Definition accountsWithoutRecentPayments
  (summaries : list Summary) (recent : list Transaction) : list Summary :=
  filter (fun entry =>
            negb (existsb
                    (fun transaction =>
                       String.eqb (Transaction.accountId transaction)
                                  (Account.id (Summary.account entry))
                       && direction_eqb (Transaction.direction transaction) POSITIVE)
                    recent))
         summaries.

(** ** The mutations of [App] *)

Module App.
Record state := make {
  accounts : list Account;
  transactions : list Transaction }.
End App.

Definition setAccounts (update : list Account -> list Account) (s : App.state)
  : App.state :=
  App.make (update (App.accounts s)) (App.transactions s).

Definition setTransactions (update : list Transaction -> list Transaction) (s : App.state)
  : App.state :=
  App.make (App.accounts s) (update (App.transactions s)).

Definition addAccount (account : Account) : App.state -> App.state :=
  setAccounts (fun prev => account :: prev).

Definition addTransaction (transaction : Transaction) : App.state -> App.state :=
  setTransactions (fun prev => transaction :: prev).

Definition deleteAccount (accountId : string) (s : App.state) : App.state :=
  setTransactions
    (fun prev =>
       filter (fun transaction =>
                 negb (String.eqb (Transaction.accountId transaction) accountId))
              prev)
    (setAccounts
       (fun prev =>
          filter (fun account => negb (String.eqb (Account.id account) accountId)) prev)
       s).

Definition deleteTransaction (transactionId : string) : App.state -> App.state :=
  setTransactions
    (fun prev =>
       filter (fun transaction =>
                 negb (String.eqb (Transaction.id transaction) transactionId))
              prev).

(** ** Platform functions of strings, numbers and dates *)

(** [String.prototype.trim], [Number(text)] and the time value of
    [new Date(text)] ([None] for an Invalid Date).  [dateText] gives the
    text that a [date] field holds for a time value: the embedding keeps
    the time value only, so that texts which [Date] reads alike are one
    date.  [x || d] is [orString] on strings and [orNumber] on numbers ([0],
    [-0] and NaN are falsy). *)
Class Platform := {
  trim : string -> string;
  toNumber : string -> number;
  parseDate : string -> option Z;
  dateText : option Z -> string }.

Definition orString (s fallback : string) : string :=
  if truthy s then s else fallback.

Definition truthyNumber (x : number) : bool :=
  negb (isNaN x || isPositiveZero x || isNegativeZero x).

Definition orNumber (x fallback : number) : number :=
  if truthyNumber x then x else fallback.

(** ** Legacy import and seed data *)

(** A value produced by [JSON.parse] when nothing is known of its shape;
    the members of an object carry distinct keys. *)
#[warning="-register-all"]
Inductive JSONValue :=
| JNull
| JBool (b : bool)
| JNumber (n : number)
| JString (s : string)
| JArray (elements : list JSONValue)
| JObject (members : list (string * JSONValue)).

Definition getMember (key : string) (members : list (string * JSONValue))
  : option JSONValue :=
  match find (fun member => String.eqb (fst member) key) members with
  | Some member => Some (snd member)
  | None => None
  end.

(** [item?.text] when [typeof item?.text === 'string']. *)
Definition textOf (item : JSONValue) : option string :=
  match item with
  | JObject members =>
      match getMember "text" members with
      | Some (JString text) => Some text
      | _ => None
      end
  | _ => None
  end.

Definition legacyKeys_todos : string := "deneme-webapp.todos".

Definition legacyKeys_notes : string := "deneme-webapp.notes".

(** The body of [parsed.forEach] in [collectLegacyNotes]. *)
Definition pushLegacyItem `{Platform} (savedItems : list string) (item : JSONValue)
  : list string :=
  match textOf item with
  | Some text => if truthy (trim text) then savedItems ++ [trim text] else savedItems
  | None => savedItems
  end.

(** The body of [legacyLists.forEach]: one legacy key, read under its own
    [try]. *)
Definition collectLegacyKey `{Platform} `{JSON JSONValue}
  (key : string) (savedItems : list string) : JS (list string) :=
  tryCatch
    (raw <- getItem key ;;
     match raw with
     | Some text =>
         if truthy text
         then
           parsed <- parseJSON text ;;
           match parsed with
           | JArray elements => ret (fold_left pushLegacyItem elements savedItems)
           | _ => ret savedItems
           end
         else ret savedItems
     | None => ret savedItems
     end)
    (fun error =>
       consoleWarn ("Failed to read legacy data from " ++ key) error ;;;
       ret savedItems).

Definition collectLegacyNotes `{Platform} `{JSON JSONValue} : JS (list string) :=
  undefined <- typeofLocalStorageUndefined ;;
  if (undefined : bool) then ret []
  else
    savedItems <- collectLegacyKey legacyKeys_todos [] ;;
    collectLegacyKey legacyKeys_notes savedItems.

Definition newline : string := String (Ascii.ascii_of_nat 10) EmptyString.

(** [createDefaultAccounts]; the two identifiers of [crypto.randomUUID()]
    and the text of [new Date().toISOString()] are arguments. *)
Definition createDefaultAccounts (uuid1 uuid2 now : string) (legacyNotes : list string)
  : list Account :=
  let compiledNotes :=
    match legacyNotes with
    | [] => "Track your debt and repayments here."%string
    | _ :: _ =>
        ("Imported notes from previous version:" ++ newline ++ "- "
         ++ String.concat (newline ++ "- ") legacyNotes)%string
    end in
  [ Account.make uuid1 "Everyday Card" CREDIT_CARD "Deneme Bank" TRY 12000 now
                 compiledNotes;
    Account.make uuid2 "Education Loan" LOAN "Campus Finance" TRY 54000 now
                 "Make steady payments to reduce interest." ].

(** [primary?.id ?? ''] and [secondary?.id ?? ''] of
    [const [primary, secondary] = accounts]. *)
Definition primaryId (accounts : list Account) : string :=
  match accounts with
  | primary :: _ => Account.id primary
  | [] => ""
  end.

Definition secondaryId (accounts : list Account) : string :=
  match accounts with
  | _ :: secondary :: _ => Account.id secondary
  | _ => ""
  end.

(** [createDefaultTransactions]; the identifiers and the time of
    [new Date()] are arguments. *)
Definition createDefaultTransactions
  (uuid1 uuid2 uuid3 : string) (now : Z) (accounts : list Account) : list Transaction :=
  [ Transaction.make uuid1 (primaryId accounts) (Some now) 2500 NEGATIVE
                     "Groceries" "Weekly essentials";
    Transaction.make uuid2 (primaryId accounts) (Some now) 1500 POSITIVE
                     "Payment" "Monthly payment";
    Transaction.make uuid3 (secondaryId accounts) (Some now) 5000 POSITIVE
                     "Scholarship" "Extra payment" ].

(** ** The entities as JSON values *)

(** What [JSON.stringify] writes for a number and [JSON.parse] reads back:
    [null] for NaN and the infinities, and [0] for [-0]. *)
Definition numberToJSON (x : number) : JSONValue :=
  if isFinite x then JNumber (if isNegativeZero x then 0%float else x) else JNull.

Definition accountTypeName (type : AccountType) : string :=
  match type with
  | CREDIT_CARD => "CREDIT_CARD"
  | LOAN => "LOAN"
  | OVERDRAFT => "OVERDRAFT"
  end.

Definition directionName (direction : TransactionDirection) : string :=
  match direction with
  | POSITIVE => "POSITIVE"
  | NEGATIVE => "NEGATIVE"
  end.

Definition stringMember (key : string) (members : list (string * JSONValue))
  : option string :=
  match getMember key members with
  | Some (JString text) => Some text
  | _ => None
  end.

Definition numberMember (key : string) (members : list (string * JSONValue))
  : option number :=
  match getMember key members with
  | Some (JNumber x) => Some x
  | _ => None
  end.

Definition accountTypeOfName (name : string) : option AccountType :=
  if String.eqb name "CREDIT_CARD" then Some CREDIT_CARD
  else if String.eqb name "LOAN" then Some LOAN
  else if String.eqb name "OVERDRAFT" then Some OVERDRAFT
  else None.

Definition directionOfName (name : string) : option TransactionDirection :=
  if String.eqb name "POSITIVE" then Some POSITIVE
  else if String.eqb name "NEGATIVE" then Some NEGATIVE
  else None.

Definition currencyOfName (name : string) : option Currency :=
  if String.eqb name "TRY" then Some TRY else None.

(** A type of the program with the JSON values of its members: [toJSON]
    is the value that [JSON.stringify] writes (the members of an object in
    the order of the object literals of the code), [ofJSON] reads a JSON
    value of that shape ([None] for any other value; members that the
    interface does not name are not looked at). *)
Class JSONShape (T : Type) := {
  toJSON : T -> JSONValue;
  ofJSON : JSONValue -> option T }.

Definition accountToJSON (account : Account) : JSONValue :=
  JObject [ ("id", JString (Account.id account));
            ("name", JString (Account.name account));
            ("type", JString (accountTypeName (Account.type account)));
            ("bankName", JString (Account.bankName account));
            ("currency", JString "TRY");
            ("startingDebt", numberToJSON (Account.startingDebt account));
            ("createdAt", JString (Account.createdAt account));
            ("notes", JString (Account.notes account)) ].

Definition accountOfJSON (value : JSONValue) : option Account :=
  match value with
  | JObject members =>
      id ← stringMember "id" members;
      name ← stringMember "name" members;
      type ← stringMember "type" members ≫= accountTypeOfName;
      bankName ← stringMember "bankName" members;
      currency ← stringMember "currency" members ≫= currencyOfName;
      startingDebt ← numberMember "startingDebt" members;
      createdAt ← stringMember "createdAt" members;
      notes ← stringMember "notes" members;
      Some (Account.make id name type bankName currency startingDebt createdAt notes)
  | _ => None
  end.

#[global] Instance Account_shape : JSONShape Account :=
  {| toJSON := accountToJSON; ofJSON := accountOfJSON |}.

Definition transactionToJSON `{Platform} (transaction : Transaction) : JSONValue :=
  JObject [ ("id", JString (Transaction.id transaction));
            ("accountId", JString (Transaction.accountId transaction));
            ("date", JString (dateText (Transaction.date transaction)));
            ("amount", numberToJSON (Transaction.amount transaction));
            ("direction", JString (directionName (Transaction.direction transaction)));
            ("category", JString (Transaction.category transaction));
            ("description", JString (Transaction.description transaction)) ].

Definition transactionOfJSON `{Platform} (value : JSONValue) : option Transaction :=
  match value with
  | JObject members =>
      id ← stringMember "id" members;
      accountId ← stringMember "accountId" members;
      date ← stringMember "date" members;
      amount ← numberMember "amount" members;
      direction ← stringMember "direction" members ≫= directionOfName;
      category ← stringMember "category" members;
      description ← stringMember "description" members;
      Some (Transaction.make id accountId (parseDate date) amount direction category
                             description)
  | _ => None
  end.

#[global] Instance Transaction_shape `{Platform} : JSONShape Transaction :=
  {| toJSON := transactionToJSON; ofJSON := transactionOfJSON |}.

Fixpoint elementsOfJSON {T} (read : JSONValue -> option T) (elements : list JSONValue)
  : option (list T) :=
  match elements with
  | [] => Some []
  | element :: rest =>
      match read element, elementsOfJSON read rest with
      | Some x, Some l => Some (x :: l)
      | _, _ => None
      end
  end.

#[global] Instance list_shape {T} `{JSONShape T} : JSONShape (list T) :=
  {| toJSON := fun l => JArray (map toJSON l);
     ofJSON := fun value =>
                 match value with
                 | JArray elements => elementsOfJSON ofJSON elements
                 | _ => None
                 end |}.

(** What a variable of type [T] holds after [JSON.parse(saved) as T]: the
    cast checks nothing at run time, so that the value is of the shape of
    [T], or any other JSON value. *)
Inductive Loaded (T : Type) : Type :=
| Typed (value : T)
| Untyped (value : JSONValue).
Arguments Typed {T} value.
Arguments Untyped {T} value.

Definition asLoaded {T} `{JSONShape T} (value : JSONValue) : Loaded T :=
  match ofJSON value with
  | Some x => Typed x
  | None => Untyped value
  end.

Definition jsonOf {T} `{JSONShape T} (x : Loaded T) : JSONValue :=
  match x with
  | Typed value => toJSON value
  | Untyped value => value
  end.

(** [JSON.stringify] and [JSON.parse] at a type of the program, from the
    platform's functions on JSON values. *)
#[global] Instance Loaded_JSON {T} `{JSONShape T} `{JSON JSONValue} : JSON (Loaded T) :=
  {| JSON_stringify := fun x => JSON_stringify (jsonOf x);
     JSON_parse := fun text => option_map asLoaded (JSON_parse text) |}.

(** Whether a JSON value is truthy. *)
Definition truthyJSON (value : JSONValue) : bool :=
  match value with
  | JNull => false
  | JBool b => b
  | JNumber x => truthyNumber x
  | JString text => truthy text
  | JArray _ | JObject _ => true
  end.

(** [stored.length], read as a condition: the length of an array or of a
    string, the member [length] of an object, [undefined] on a number or a
    boolean, and a TypeError on [null]. *)
Definition hasLength {T} (stored : Loaded (list T)) : completion bool :=
  match stored with
  | Typed l => Normal (negb (List.length l =? 0)%nat)
  | Untyped JNull => Throw "TypeError"
  | Untyped (JArray elements) => Normal (negb (List.length elements =? 0)%nat)
  | Untyped (JString text) => Normal (truthy text)
  | Untyped (JObject members) =>
      Normal (match getMember "length" members with
              | Some value => truthyJSON value
              | None => false
              end)
  | Untyped (JNumber _) | Untyped (JBool _) => Normal false
  end.

(** ** The initial state of [App] and its write-through *)

(** The initializer of [useState<Account[]>]. *)
Definition initialAccounts
  `{Platform} `{JSON JSONValue} (uuid1 uuid2 now : string) : JS (Loaded (list Account)) :=
  legacyNotes <- collectLegacyNotes ;;
  stored <- loadFromStorage accountsKey (Typed []) ;;
  nonEmpty <- lift (hasLength stored) ;;
  ret (if (nonEmpty : bool)
       then stored
       else Typed (createDefaultAccounts uuid1 uuid2 now legacyNotes)).

(** The initializer of [useState<Transaction[]>], for an account collection
    of the declared shape. *)
Definition initialTransactions
  `{Platform} `{JSON JSONValue} (uuid1 uuid2 uuid3 : string) (now : Z)
  (accounts : list Account) : JS (Loaded (list Transaction)) :=
  stored <- loadFromStorage transactionsKey (Typed []) ;;
  nonEmpty <- lift (hasLength stored) ;;
  ret (if (nonEmpty : bool)
       then stored
       else Typed (createDefaultTransactions uuid1 uuid2 uuid3 now accounts)).

(** The two [useEffect]s that save the collections after a change. *)
Definition persistCollections
  `{Platform} `{JSON JSONValue} (s : App.state) : JS unit :=
  saveToStorage accountsKey (Typed (App.accounts s)) ;;;
  saveToStorage transactionsKey (Typed (App.transactions s)).

(** ** Theme *)

Definition toggleTheme (prev : string) : string :=
  if String.eqb prev "dark" then "light" else "dark".

Definition themeClass (theme : string) : string :=
  if String.eqb theme "dark" then "dark" else "light".

(** ** Further aggregates of [App] *)

#[global] Instance AccountType_eq_dec : EqDecision AccountType.
Proof. solve_decision. Defined.

#[global] Instance AccountType_countable : Countable AccountType.
Proof.
  refine (inj_countable'
            (fun t => match t with CREDIT_CARD => 0%nat | LOAN => 1%nat | OVERDRAFT => 2%nat end)
            (fun n => match n with 0%nat => CREDIT_CARD | 1%nat => LOAN | _ => OVERDRAFT end)
            _).
  intros []; reflexivity.
Defined.

Definition accountType_eqb (t1 t2 : AccountType) : bool :=
  match t1, t2 with
  | CREDIT_CARD, CREDIT_CARD | LOAN, LOAN | OVERDRAFT, OVERDRAFT => true
  | _, _ => false
  end.

(** [breakdownByType]: the object [Record<AccountType, number>] is a finite
    map, the spread with a computed key an insertion, [??] a default. *)
Definition breakdownByType (summaries : list Summary) : gmap AccountType number :=
  fold_left
    (fun totals entry =>
       <[ Account.type (Summary.account entry) :=
            (default 0%float (totals !! Account.type (Summary.account entry))
             + mathMax (Summary.balance entry) 0)%float ]> totals)
    summaries
    (<[CREDIT_CARD := 0%float]> (<[LOAN := 0%float]> (<[OVERDRAFT := 0%float]> ∅))).

Definition totalRecentPayments (recent : list Transaction) : number :=
  fold_left (fun sum transaction => (sum + Transaction.amount transaction)%float)
            (filter (fun transaction =>
                       direction_eqb (Transaction.direction transaction) POSITIVE)
                    recent)
            0%float.

Definition totalRecentCharges (recent : list Transaction) : number :=
  fold_left (fun sum transaction => (sum + Transaction.amount transaction)%float)
            (filter (fun transaction =>
                       direction_eqb (Transaction.direction transaction) NEGATIVE)
                    recent)
            0%float.

(** ** The account form of [AccountsSection] *)

Module AccountForm.
Record t := make {
  name : string;
  type : AccountType;
  bankName : string;
  startingDebt : string;
  notes : string }.
End AccountForm.
Abbreviation AccountForm := AccountForm.t.

(** The component state: the form and the error line under it. *)
Module AccountsSection.
Record state := make {
  form : AccountForm;
  error : string }.
End AccountsSection.

Definition emptyAccountForm : AccountForm :=
  AccountForm.make "" CREDIT_CARD "" "0" "".

(** [handleSubmit] of [AccountsSection]: the new component state and the
    new state of [App] ([onAddAccount] is [addAccount]); [uuid] and [now]
    are the values of [crypto.randomUUID()] and [new Date().toISOString()]. *)
Definition AccountsSection_handleSubmit `{Platform}
  (uuid now : string) (ui : AccountsSection.state) (s : App.state)
  : AccountsSection.state * App.state :=
  let form := AccountsSection.form ui in
  let trimmedName := trim (AccountForm.name form) in
  if negb (truthy trimmedName)
  then (AccountsSection.make form "Lütfen hesap adı girin.", s)
  else
    let startingDebtValue := toNumber (AccountForm.startingDebt form) in
    if isNaN startingDebtValue
    then (AccountsSection.make form "Başlangıç borcunu sayısal olarak girin.", s)
    else if PrimFloat.ltb startingDebtValue 0
    then (AccountsSection.make form "Başlangıç borcu negatif olamaz.", s)
    else
      let newAccount :=
        Account.make uuid trimmedName (AccountForm.type form)
                     (orString (trim (AccountForm.bankName form)) "Unnamed Bank")
                     TRY
                     (orNumber (mathMax 0 (toNumber (AccountForm.startingDebt form))) 0)
                     now
                     (orString (trim (AccountForm.notes form)) "No notes yet.") in
      (AccountsSection.make emptyAccountForm "", addAccount newAccount s).

(** [handleSubmit] of the earlier variant: no message, no check of the
    number. *)
Definition AccountsSection_handleSubmit_earlier `{Platform}
  (uuid now : string) (form : AccountForm) (s : App.state) : AccountForm * App.state :=
  let trimmedName := trim (AccountForm.name form) in
  if negb (truthy trimmedName) then (form, s)
  else
    let newAccount :=
      Account.make uuid trimmedName (AccountForm.type form)
                   (orString (trim (AccountForm.bankName form)) "Unnamed Bank")
                   TRY
                   (orNumber (toNumber (AccountForm.startingDebt form)) 0)
                   now
                   (orString (trim (AccountForm.notes form)) "No notes yet.") in
    (emptyAccountForm, addAccount newAccount s).

(** ** The transaction form and the filters of [TransactionsSection] *)

Module TransactionForm.
Record t := make {
  accountId : string;
  date : string;
  amount : string;
  direction : TransactionDirection;
  category : string;
  description : string }.
End TransactionForm.
Abbreviation TransactionForm := TransactionForm.t.

Module TransactionsSection.
Record state := make {
  form : TransactionForm;
  error : string }.
End TransactionsSection.

(** [setForm((prev) => ({ ...prev, amount: '0', description: '' }))]. *)
Definition resetTransactionForm (prev : TransactionForm) : TransactionForm :=
  TransactionForm.make (TransactionForm.accountId prev) (TransactionForm.date prev) "0"
                       (TransactionForm.direction prev) (TransactionForm.category prev) "".

(** [new Date(text).toISOString()], which throws a RangeError on an
    Invalid Date; the result is kept as its time value. *)
Definition toISOString `{Platform} (text : string) : completion (option Z) :=
  match parseDate text with
  | Some time => Normal (Some time)
  | None => Throw "RangeError"
  end.

(** [handleSubmit] of [TransactionsSection] ([onAddTransaction] is
    [addTransaction]); a [Throw] leaves both states as they were. *)
Definition TransactionsSection_handleSubmit `{Platform}
  (uuid : string) (ui : TransactionsSection.state) (s : App.state)
  : completion (TransactionsSection.state * App.state) :=
  let form := TransactionsSection.form ui in
  if negb (truthy (TransactionForm.accountId form))
  then Normal (TransactionsSection.make form "İşlem eklemek için bir hesap seçin.", s)
  else
    let amountValue := PrimFloat.abs (toNumber (TransactionForm.amount form)) in
    if isNaN amountValue
    then Normal (TransactionsSection.make form "Lütfen geçerli bir tutar girin.", s)
    else if PrimFloat.leb amountValue 0
    then Normal (TransactionsSection.make form "Tutar 0'dan büyük olmalıdır.", s)
    else
      match toISOString (TransactionForm.date form) with
      | Throw error => Throw error
      | Normal date =>
          let newTransaction :=
            Transaction.make uuid (TransactionForm.accountId form) date
                             (orNumber amountValue 0)
                             (TransactionForm.direction form)
                             (orString (trim (TransactionForm.category form)) "General")
                             (orString (trim (TransactionForm.description form))
                                       "No description") in
          Normal (TransactionsSection.make (resetTransactionForm form) "",
                  addTransaction newTransaction s)
      end.

(** [handleSubmit] of the earlier variant: only the account is checked. *)
Definition TransactionsSection_handleSubmit_earlier `{Platform}
  (uuid : string) (form : TransactionForm) (s : App.state)
  : completion (TransactionForm * App.state) :=
  if negb (truthy (TransactionForm.accountId form)) then Normal (form, s)
  else
    match toISOString (TransactionForm.date form) with
    | Throw error => Throw error
    | Normal date =>
        let newTransaction :=
          Transaction.make uuid (TransactionForm.accountId form) date
                           (orNumber (PrimFloat.abs (toNumber (TransactionForm.amount form))) 0)
                           (TransactionForm.direction form)
                           (orString (trim (TransactionForm.category form)) "General")
                           (orString (trim (TransactionForm.description form))
                                     "No description") in
        Normal (resetTransactionForm form, addTransaction newTransaction s)
    end.

(** The direction filter: ['ALL'] or one direction. *)
Inductive DirectionFilter :=
| ALL_DIRECTIONS
| ONLY (direction : TransactionDirection).

Module Filters.
Record t := make {
  accountId : string;
  direction : DirectionFilter }.
End Filters.
Abbreviation Filters := Filters.t.

Definition filteredTransactions (filters : Filters) (transactions : list Transaction)
  : list Transaction :=
  filter
    (fun transaction =>
       let matchesAccount :=
         String.eqb (Filters.accountId filters) "ALL"
         || String.eqb (Transaction.accountId transaction) (Filters.accountId filters) in
       let matchesDirection :=
         match Filters.direction filters with
         | ALL_DIRECTIONS => true
         | ONLY direction => direction_eqb (Transaction.direction transaction) direction
         end in
       matchesAccount && matchesDirection)
    transactions.

(** The effect that drops an account filter whose account is gone. *)
Definition resetStaleFilter (accounts : list Account) (filters : Filters) : Filters :=
  if negb (String.eqb (Filters.accountId filters) "ALL")
     && negb (existsb (fun account => String.eqb (Account.id account)
                                                 (Filters.accountId filters))
                      accounts)
  then Filters.make "ALL" (Filters.direction filters)
  else filters.

(** [accounts.find(...)?.name || 'Unknown account'], the name shown on a
    transaction row. *)
Definition accountNameOf (accounts : list Account) (transaction : Transaction) : string :=
  match find (fun account => String.eqb (Account.id account)
                                        (Transaction.accountId transaction))
             accounts with
  | Some account => orString (Account.name account) "Unknown account"
  | None => "Unknown account"
  end.

(** ** Derived notions used to state the properties *)

(** [A] is shown among the accounts without a recent payment. *)
Definition lacksRecentPayment `{TimeZone}
  (now : Z) (accounts : list Account) (transactions : list Transaction) (A : Account)
  : Prop :=
  exists entry,
    In entry (accountsWithoutRecentPayments
                (accountSummaries accounts transactions)
                (recentTransactions now transactions))
    /\ Summary.account entry = A.

(** The platform's [JSON] carries [X]: the text it writes for [X] is not
    empty and reads back as [X]. *)
Definition roundTrips {T} `{JSON T} (X : T) : Prop :=
  truthy (JSON_stringify X) = true /\ JSON_parse (JSON_stringify X) = Some X.

(** A number that a JSON text holds as it is: finite, and not [-0]. *)
Definition storableNumber (x : number) : Prop :=
  isFinite x = true /\ isNegativeZero x = false.

(** Account and transaction collections whose numbers a JSON text holds as
    they are, and whose dates are read back from their text. *)
Definition storableAccounts (accounts : list Account) : Prop :=
  Forall (fun account => storableNumber (Account.startingDebt account)) accounts.

Definition storableTransactions `{Platform} (transactions : list Transaction) : Prop :=
  Forall (fun transaction =>
            storableNumber (Transaction.amount transaction)
            /\ parseDate (dateText (Transaction.date transaction))
               = Transaction.date transaction)
         transactions.

Definition emptyStore : Storage :=
  {| items := ∅; blocked := false; quota := 5000000 |}.

(** Every transaction refers to an account of the collection. *)
Definition referentialIntegrity (s : App.state) : Prop :=
  forall transaction, In transaction (App.transactions s) ->
    exists account, In account (App.accounts s)
                    /\ Account.id account = Transaction.accountId transaction.

(** The identifiers of the transactions are pairwise distinct. *)
Definition uniqueTransactionIds (s : App.state) : Prop :=
  NoDup (map Transaction.id (App.transactions s)).

(** The store accepts [text] under a key: it is not blocked and the text
    fits the quota. *)
Definition accepts (store : Storage) (text : string) : Prop :=
  blocked store = false /\ (N.of_nat (String.length text) <= quota store)%N.

(** What one legacy key contributes to [collectLegacyNotes]. *)
Definition legacyTexts `{Platform} `{JSON JSONValue} (store : Storage) (key : string)
  : list string :=
  match items store !! key with
  | Some text =>
      if truthy text
      then match JSON_parse text with
           | Some (JArray elements) => fold_left pushLegacyItem elements []
           | _ => []
           end
      else []
  | None => []
  end.

(** ** Number predicates used to state the properties *)

(** The specification-level shapes of a number with a given sign bit. *)
Inductive sf_signed (s : bool) : spec_float -> Prop :=
| signed_zero : sf_signed s (S754_zero s)
| signed_infinity : sf_signed s (S754_infinity s)
| signed_finite m e : sf_signed s (S754_finite s m e).

Definition nonNaN (x : number) : Prop := Prim2SF x <> S754_nan.

(** [+0], a positive finite number or [+Infinity]. *)
Definition nonneg (x : number) : Prop := sf_signed false (Prim2SF x).

(** The binary64 number of the integer [n], as a specification-level
    value and as a number. *)
Definition integerSF (n : Z) : spec_float := binary_normalize prec emax n 0 false.

Definition fromZ (n : Z) : number := PrimFloat.of_uint63 (Uint63.of_Z n).

(** The mantissa of the integer [n] once scaled to 53 bits. *)
Definition canonMantissa (n : Z) : positive := Z.to_pos (n * 2 ^ (52 - Z.log2 n)).

(** The integer part of a number that is positive and finite, 0 otherwise. *)
Definition integerPart (x : number) : Z :=
  match Prim2SF x with
  | S754_finite false m e => Z.shiftl (Z.pos m) e
  | _ => 0
  end.

(** [x] is a whole, non-negative number below 2^53 (a safe integer of
    JavaScript): it is the number of its own integer part. *)
Definition wholeNumber (x : number) : Prop :=
  x = fromZ (integerPart x) /\ integerPart x < 2 ^ 53.

(** [x] is exactly the integer [n], of magnitude below 2^53. *)
Definition represents (x : number) (n : Z) : Prop :=
  Prim2SF x = integerSF n /\ Z.abs n < 2 ^ 53.

(** Every stored number is finite: neither NaN nor an infinity (the
    numbers that the forms produce and that JSON can carry). *)
Definition finiteNumbers (accounts : list Account) (transactions : list Transaction)
  : Prop :=
  Forall (fun account => isFinite (Account.startingDebt account) = true) accounts
  /\ Forall (fun transaction => isFinite (Transaction.amount transaction) = true)
            transactions.

(** No balance of the collection is NaN. *)
Definition balancesAreNumbers (accounts : list Account) (transactions : list Transaction)
  : Prop :=
  Forall (fun account => isNaN (getBalance account transactions) = false) accounts.

(** The sum of a list of numbers, added from left to right starting at 0. *)
Definition sumNumbers (l : list number) : number :=
  fold_left (fun sum x => (sum + x)%float) l 0%float.

(** The balance of an account clamped at zero. *)
Definition clampedDebt (transactions : list Transaction) (account : Account) : number :=
  mathMax (getBalance account transactions) 0%float.

(** The sum of the amounts of a collection, as an integer. *)
Definition amountsTotal (transactions : list Transaction) : Z :=
  fold_right (fun transaction total => integerPart (Transaction.amount transaction) + total)
             0 transactions.

(** What a transaction adds to the debt, as an integer. *)
Definition signedAmount (transaction : Transaction) : Z :=
  if direction_eqb (Transaction.direction transaction) NEGATIVE
  then integerPart (Transaction.amount transaction)
  else - integerPart (Transaction.amount transaction).

Definition signedTotal (transactions : list Transaction) : Z :=
  fold_right (fun transaction total => signedAmount transaction + total) 0 transactions.

(** The starting debt and every amount are whole numbers, and together
    they stay below 2^53, so that no partial sum of the balance is rounded. *)
Definition wholeAmounts (account : Account) (transactions : list Transaction) : Prop :=
  wholeNumber (Account.startingDebt account)
  /\ Forall (fun transaction => wholeNumber (Transaction.amount transaction)) transactions
  /\ integerPart (Account.startingDebt account) + amountsTotal transactions < 2 ^ 53.

(** ** Sample data *)

(** The seed entities of [createDefaultAccounts] and
    [createDefaultTransactions], with fixed identifiers and dates. *)

Definition everydayCard : Account :=
  Account.make "a1" "Everyday Card" CREDIT_CARD "Deneme Bank" TRY 12000
               "2024-01-01T00:00:00.000Z" "Track your debt and repayments here.".

Definition educationLoan : Account :=
  Account.make "a2" "Education Loan" LOAN "Campus Finance" TRY 54000
               "2024-01-01T00:00:00.000Z" "Make steady payments to reduce interest.".

Definition groceries : Transaction :=
  Transaction.make "t1" "a1" (Some 1704067200000) 2500 NEGATIVE
                   "Groceries" "Weekly essentials".

Definition monthlyPayment : Transaction :=
  Transaction.make "t2" "a1" (Some 1704067200000) 1500 POSITIVE
                   "Payment" "Monthly payment".

Definition scholarship : Transaction :=
  Transaction.make "t3" "a2" (Some 1704067200000) 5000 POSITIVE
                   "Scholarship" "Extra payment".

(** Payments that bring an account to credit or to zero. *)
Definition overpayment : Transaction :=
  Transaction.make "t6" "a2" (Some 1704067200000) 60000 POSITIVE
                   "Payment" "Early settlement".

Definition settlement : Transaction :=
  Transaction.make "t7" "a1" (Some 1704067200000) 12000 POSITIVE
                   "Payment" "Full settlement".

(** An account and two transactions with amounts in lira and kurus. *)
Definition storeCard : Account :=
  Account.make "a3" "Store Card" CREDIT_CARD "Deneme Bank" TRY 1000.1
               "2024-01-01T00:00:00.000Z" "".

Definition coffee : Transaction :=
  Transaction.make "t8" "a3" (Some 1704067200000) 45.3 NEGATIVE "Food" "Coffee beans".

Definition refund : Transaction :=
  Transaction.make "t9" "a3" (Some 1704067200000) 50.25 POSITIVE "Refund" "Returned item".

(** An evaluation time (2024-02-01T00:00:00Z) and a charge dated one day
    after it. *)
Definition evaluationTime : Z := 1706745600000.

Definition futureCharge : Transaction :=
  Transaction.make "t4" "a1" (Some (evaluationTime + msPerDay)) 100 NEGATIVE
                   "General" "Scheduled charge".

Definition paymentToday : Transaction :=
  Transaction.make "t5" "a2" (Some evaluationTime) 750 POSITIVE
                   "Payment" "Instalment".

(** A payment dated one day after the evaluation time. *)
Definition paymentTomorrow : Transaction :=
  Transaction.make "t10" "a2" (Some (evaluationTime + msPerDay)) 750 POSITIVE
                   "Payment" "Scheduled instalment".

(** ** Sample time zones *)

(** A host on UTC. *)
Definition utc : TimeZone := {| LocalTZA := fun _ _ => 0 |}.

(** A host one hour ahead of UTC until 31 March 2024, 01:00 UTC, and two
    hours ahead from then on; the local hour that the change skips is read
    with the earlier offset. *)
Definition summerTimeStart : Z := 1711846800000.

Definition centralEurope : TimeZone :=
  {| LocalTZA := fun t isUTC =>
       if isUTC : bool
       then if t <? summerTimeStart then 3600000 else 7200000
       else if t <? summerTimeStart + 7200000 then 3600000 else 7200000 |}.

(** 15 April 2024, 12:00 UTC, and a charge dated thirty days less half an
    hour before it. *)
Definition springEvaluationTime : Z := 1713182400000.

Definition marchCharge : Transaction :=
  Transaction.make "t11" "a1" (Some (springEvaluationTime - 30 * msPerDay + 1800000)) 100
                   NEGATIVE "General" "Charge in March".

(** ** Sample platform *)

(** Whitespace among the ASCII characters: space, tab, line feed, vertical
    tab, form feed, carriage return. *)
Definition isWhiteSpace (c : Ascii.ascii) : bool :=
  let n := Ascii.nat_of_ascii c in
  (n =? 32)%nat || ((9 <=? n)%nat && (n <=? 13)%nat).

Fixpoint trimStartASCII (s : string) : string :=
  match s with
  | String c rest => if isWhiteSpace c then trimStartASCII rest else s
  | EmptyString => EmptyString
  end.

Definition reverseString (s : string) : string :=
  string_of_list_ascii (rev (list_ascii_of_string s)).

Definition trimASCII (s : string) : string :=
  reverseString (trimStartASCII (reverseString (trimStartASCII s))).

(** The value of a string of decimal digits. *)
Fixpoint digitsValue (s : string) (acc : Z) : option Z :=
  match s with
  | EmptyString => Some acc
  | String c rest =>
      let n := Ascii.nat_of_ascii c in
      if ((48 <=? n)%nat && (n <=? 57)%nat)
      then digitsValue rest (10 * acc + Z.of_nat (n - 48))
      else None
  end.

(** [Number] on decimal digits with an optional minus sign in front (NaN
    on other text). *)
Definition decimalNumber (text : string) : number :=
  match text with
  | String c (String d rest) =>
      if (Ascii.nat_of_ascii c =? 45)%nat
      then match digitsValue (String d rest) 0 with
           | Some n => (- fromZ n)%float
           | None => PrimFloat.nan
           end
      else match digitsValue text 0 with
           | Some n => fromZ n
           | None => PrimFloat.nan
           end
  | _ =>
      match digitsValue text 0 with
      | Some n => fromZ n
      | None => PrimFloat.nan
      end
  end.

(** [trim] on ASCII text, [Number] on decimal integers, and a calendar that
    knows the first days of January and February 2024. *)
Definition samplePlatform : Platform :=
  {| trim := trimASCII;
     toNumber := decimalNumber;
     parseDate := fun text =>
                    if String.eqb text "2024-02-01" then Some 1706745600000
                    else if String.eqb text "2024-02-01T00:00:00.000Z" then Some 1706745600000
                    else if String.eqb text "2024-01-01T00:00:00.000Z" then Some 1704067200000
                    else None;
     dateText := fun date =>
                   match date with
                   | Some 1706745600000 => "2024-02-01T00:00:00.000Z"
                   | Some 1704067200000 => "2024-01-01T00:00:00.000Z"
                   | _ => "Invalid Date"
                   end |}.

(** An account whose starting debt is infinite: the number that
    [JSON.parse] reads from [1e999], and that passes the checks of
    [handleSubmit]. *)
Definition boundlessLoan : Account :=
  Account.make "a4" "Boundless Loan" LOAN "Campus Finance" TRY infinity
               "2024-01-01T00:00:00.000Z" "No notes yet.".

(** A writer of compact JSON text for values whose numbers are whole and
    whose strings need no escape, and a reader that knows the texts of the
    values listed in [known]. *)
Definition doubleQuote : string := String (Ascii.ascii_of_nat 34) EmptyString.

Definition quoted (text : string) : string := (doubleQuote ++ text ++ doubleQuote)%string.

Fixpoint writeJSON (value : JSONValue) : string :=
  match value with
  | JNull => "null"
  | JBool true => "true"
  | JBool false => "false"
  | JNumber x => NilZero.string_of_uint (N.to_uint (Z.to_N (integerPart x)))
  | JString text => quoted text
  | JArray elements => ("[" ++ String.concat "," (map writeJSON elements) ++ "]")%string
  | JObject members =>
      ("{" ++ String.concat ","
                (map (fun member =>
                        (quoted (fst member) ++ ":" ++ writeJSON (snd member))%string)
                     members)
           ++ "}")%string
  end.

Definition sampleJSON (known : list JSONValue) : JSON JSONValue :=
  {| JSON_stringify := writeJSON;
     JSON_parse := fun text => find (fun value => String.eqb (writeJSON value) text) known |}.

(** The reader that knows the texts of the sample collections, and
    [JSON] at the types of the two collections with it. *)
Definition sampleTexts : JSON JSONValue :=
  sampleJSON [ toJSON [everydayCard; educationLoan];
               toJSON [boundlessLoan];
               @toJSON _ (@list_shape _ (@Transaction_shape samplePlatform))
                       [groceries; monthlyPayment; scholarship];
               JArray [];
               JNull ].

Definition sampleAccountsJSON : JSON (Loaded (list Account)) :=
  @Loaded_JSON _ _ sampleTexts.

Definition sampleTransactionsJSON : JSON (Loaded (list Transaction)) :=
  @Loaded_JSON _ (@list_shape _ (@Transaction_shape samplePlatform)) sampleTexts.

(** A payment of the whole of an infinite debt. *)
Definition boundlessPayment : Transaction :=
  Transaction.make "t12" "a4" (Some 1704067200000) infinity POSITIVE
                   "Payment" "Settlement".

(** A store to which the browser denies access. *)
Definition deniedStore : Storage :=
  {| items := ∅; blocked := true; quota := 5000000 |}.

(** A codec that knows the text of one list of legacy todos. *)
Definition sampleLegacyJSON : JSON JSONValue :=
  {| JSON_stringify := fun _ => "[todos]"%string;
     JSON_parse := fun text =>
                     if String.eqb text "[todos]"
                     then Some (JArray [ JObject [("id", JString "1");
                                                  ("text", JString "  buy milk ")];
                                         JObject [("id", JString "2");
                                                  ("text", JString "   ")];
                                         JString "stray" ])
                     else None |}.

Definition legacyStore : Storage :=
  {| items := <[legacyKeys_todos := "[todos]"%string]>
                (<[legacyKeys_notes := "not json"%string]> ∅);
     blocked := false;
     quota := 5000000 |}.

(** ** Proof automation *)

Ltac order_cases :=
  change (Pos.compare_cont Eq) with Pos.compare in *;
  repeat match goal with
         | H : context [(?a ?= ?b)%Z] |- _ => destruct (Z.compare_spec a b)
         | |- context [(?a ?= ?b)%Z] => destruct (Z.compare_spec a b)
         | H : context [(?a ?= ?b)%positive] |- _ => destruct (Pos.compare_spec a b)
         | |- context [(?a ?= ?b)%positive] => destruct (Pos.compare_spec a b)
         end;
  subst; try reflexivity; try discriminate; try lia.

(** * Properties *)

(** ** Numbers: signs and NaN under the binary64 operations *)

Lemma iter_pos_invariant {A} (P : A -> Prop) (f : A -> A) :
  (forall x, P x -> P (f x)) -> forall n x, P x -> P (iter_pos f n x).
Proof.
  intros Hf. induction n as [n IH|n IH|]; intros x Hx; simpl; auto.
Qed.

Lemma shr_1_nonneg mrs : 0 <= shr_m mrs -> 0 <= shr_m (shr_1 mrs).
Proof.
  destruct mrs as [m r s]. destruct m as [|[p|p|]|p]; simpl; lia.
Qed.

Lemma shr_nonneg mrs e n : 0 <= shr_m mrs -> 0 <= shr_m (fst (shr mrs e n)).
Proof.
  intros H. destruct n; simpl; auto.
  apply (iter_pos_invariant (fun x => 0 <= shr_m x)); auto using shr_1_nonneg.
Qed.

Lemma shr_record_of_loc_m m l : shr_m (shr_record_of_loc m l) = m.
Proof. destruct l as [|[]]; reflexivity. Qed.

Lemma shr_fexp_nonneg prec emax m e l :
  0 <= m -> 0 <= shr_m (fst (shr_fexp prec emax m e l)).
Proof.
  intros H. unfold shr_fexp. apply shr_nonneg. now rewrite shr_record_of_loc_m.
Qed.

Lemma round_nearest_even_nonneg m l : 0 <= m -> 0 <= round_nearest_even m l.
Proof.
  intros H. destruct l as [|[]]; simpl; try lia. destruct (Z.even m); lia.
Qed.

Lemma binary_round_aux_signed prec emax s m e l :
  0 <= m -> sf_signed s (binary_round_aux prec emax s m e l).
Proof.
  intros H. unfold binary_round_aux.
  pose proof (shr_fexp_nonneg prec emax m e l H) as H1.
  destruct (shr_fexp prec emax m e l) as [mrs' e']. simpl in H1.
  pose proof (shr_fexp_nonneg prec emax _ e' loc_Exact
                (round_nearest_even_nonneg _ (loc_of_shr_record mrs') H1)) as H2.
  destruct (shr_fexp prec emax (round_nearest_even _ _) e' loc_Exact) as [mrs'' e''].
  simpl in H2.
  destruct (shr_m mrs'') as [|p|p]; try lia.
  - constructor.
  - destruct (e'' <=? emax - prec); constructor.
Qed.

Lemma binary_round_signed prec emax s m e :
  sf_signed s (binary_round prec emax s m e).
Proof.
  unfold binary_round. destruct (shl_align _ _ _) as [mz ez].
  apply binary_round_aux_signed. lia.
Qed.

Lemma SFclassify_cases (s : spec_float) :
  match s with
  | S754_nan => SFclassify prec s = NaN
  | S754_infinity false => SFclassify prec s = PInf
  | S754_infinity true => SFclassify prec s = NInf
  | S754_zero false => SFclassify prec s = PZero
  | S754_zero true => SFclassify prec s = NZero
  | S754_finite false _ _ => SFclassify prec s = PNormal \/ SFclassify prec s = PSubn
  | S754_finite true _ _ => SFclassify prec s = NNormal \/ SFclassify prec s = NSubn
  end.
Proof.
  destruct s as [[]|[]| |[] m e]; simpl; auto;
    match goal with |- context [if ?c then _ else _] => destruct c end; auto.
Qed.

Lemma isNaN_false (x : number) : isNaN x = false <-> nonNaN x.
Proof.
  unfold isNaN, nonNaN. pose proof (classify_spec x) as Hc. unfold SF64classify in Hc.
  pose proof (SFclassify_cases (Prim2SF x)) as Hcc.
  destruct (Prim2SF x) as [[]|[]| |[] m e]; rewrite Hc;
    try destruct Hcc as [Hcc|Hcc]; rewrite Hcc; split; intros; congruence.
Qed.

Lemma isFinite_true (x : number) :
  isFinite x = true <->
  match Prim2SF x with S754_zero _ | S754_finite _ _ _ => True | _ => False end.
Proof.
  unfold isFinite. pose proof (classify_spec x) as Hc. unfold SF64classify in Hc.
  pose proof (SFclassify_cases (Prim2SF x)) as Hcc.
  destruct (Prim2SF x) as [[]|[]| |[] m e]; rewrite Hc;
    try destruct Hcc as [Hcc|Hcc]; rewrite Hcc; split; intros; try congruence; auto;
    contradiction.
Qed.

Lemma isFinite_nonNaN (x : number) : isFinite x = true -> nonNaN x.
Proof.
  rewrite isFinite_true. unfold nonNaN. destruct (Prim2SF x); try contradiction; congruence.
Qed.

Lemma binary_normalize_nonNaN m e :
  binary_normalize prec emax m e false <> S754_nan.
Proof.
  destruct m as [|p|p]; simpl; [discriminate| |].
  - pose proof (binary_round_signed prec emax false p e) as H. inversion H; congruence.
  - pose proof (binary_round_signed prec emax true p e) as H. inversion H; congruence.
Qed.

Lemma add_nonNaN (x y : number) :
  nonNaN x -> isFinite y = true -> nonNaN (x + y)%float.
Proof.
  unfold nonNaN. rewrite isFinite_true, add_spec. unfold SF64add.
  destruct (Prim2SF x) as [sx|sx| |sx mx ex]; destruct (Prim2SF y) as [sy|sy| |sy my ey];
    simpl; try congruence; try contradiction; intros _ _.
  - destruct sx, sy; discriminate.
  - apply binary_normalize_nonNaN.
Qed.

Lemma sub_nonNaN (x y : number) :
  nonNaN x -> isFinite y = true -> nonNaN (x - y)%float.
Proof.
  unfold nonNaN. rewrite isFinite_true, sub_spec. unfold SF64sub.
  destruct (Prim2SF x) as [sx|sx| |sx mx ex]; destruct (Prim2SF y) as [sy|sy| |sy my ey];
    simpl; try congruence; try contradiction; intros _ _.
  - destruct sx, sy; discriminate.
  - apply binary_normalize_nonNaN.
Qed.

Lemma add_nonneg (x y : number) : nonneg x -> nonneg y -> nonneg (x + y)%float.
Proof.
  unfold nonneg. rewrite add_spec. unfold SF64add.
  intros Hx Hy. inversion Hx as [Ex|Ex|mx ex Ex]; inversion Hy as [Ey|Ey|my ey Ey]; simpl;
    try constructor.
  unfold shl_align.
  destruct (Z.min ex ey - ex); destruct (Z.min ex ey - ey); simpl;
    apply binary_round_signed.
Qed.

Lemma nonneg_nonNaN (x : number) : nonneg x -> nonNaN x.
Proof. unfold nonneg, nonNaN. intros H. inversion H; congruence. Qed.

Lemma zero_nonneg : nonneg 0%float.
Proof. unfold nonneg. vm_compute. constructor. Qed.

Lemma nonneg_ge_zero (x : number) : nonneg x -> ge x 0%float = true.
Proof.
  unfold nonneg, ge. rewrite leb_spec. intros H.
  change (Prim2SF 0%float) with (S754_zero false).
  inversion H; reflexivity.
Qed.

Lemma add_zero_r (x : number) : nonneg x -> (x + 0)%float = x.
Proof.
  unfold nonneg. intros H. apply Prim2SF_inj. rewrite add_spec. unfold SF64add.
  change (Prim2SF 0%float) with (S754_zero false).
  inversion H; reflexivity.
Qed.

Lemma mathMaxStep_neg_infinity (x : number) :
  nonNaN x -> mathMaxStep neg_infinity x = x.
Proof.
  unfold nonNaN, mathMaxStep, gt. intros Hx.
  replace (isNegativeZero neg_infinity) with false by reflexivity.
  rewrite andb_false_r, ltb_spec.
  change (Prim2SF neg_infinity) with (S754_infinity true).
  destruct (Prim2SF x) as [sx|sx| |sx mx ex] eqn:Hs; try congruence; try reflexivity.
  destruct sx; [|reflexivity]. simpl.
  apply Prim2SF_inj. now rewrite Hs.
Qed.

Lemma mathMax_zero_cases (b : number) :
  nonNaN b ->
  mathMax b 0 = (if isNegativeZero b then 0 else if gt 0 b then 0 else b)%float.
Proof.
  intros Hb. unfold mathMax.
  rewrite (proj2 (isNaN_false b) Hb). simpl.
  rewrite mathMaxStep_neg_infinity by exact Hb.
  unfold mathMaxStep. reflexivity.
Qed.

Lemma mathMax_zero_nonneg (b : number) : nonNaN b -> nonneg (mathMax b 0).
Proof.
  intros Hb. rewrite mathMax_zero_cases by exact Hb.
  unfold isNegativeZero, gt. rewrite ltb_spec.
  change (Prim2SF 0%float) with (S754_zero false).
  pose proof (classify_spec b) as Hc. unfold SF64classify in Hc.
  pose proof (SFclassify_cases (Prim2SF b)) as Hcc.
  unfold nonNaN in Hb. unfold nonneg.
  destruct (Prim2SF b) as [[]|[]| |[] m e] eqn:Hs; rewrite Hc;
    try destruct Hcc as [Hcc|Hcc]; rewrite Hcc; simpl;
    try (change (Prim2SF 0%float) with (S754_zero false); constructor);
    try rewrite Hs; try constructor; congruence.
Qed.

Lemma mathMax_negative (b : number) : PrimFloat.ltb b 0 = true -> mathMax b 0 = 0%float.
Proof.
  intros Hlt.
  assert (Hb : nonNaN b).
  { unfold nonNaN. rewrite ltb_spec in Hlt. intros E. rewrite E in Hlt. discriminate. }
  rewrite mathMax_zero_cases by exact Hb. unfold gt. rewrite Hlt.
  now destruct (isNegativeZero b).
Qed.

Lemma mathMax_nonpositive (b : number) :
  PrimFloat.leb b 0 = true -> mathMax b 0 = 0%float.
Proof.
  intros Hle.
  assert (Hb : nonNaN b).
  { unfold nonNaN. rewrite leb_spec in Hle. intros E. rewrite E in Hle. discriminate. }
  rewrite mathMax_zero_cases by exact Hb.
  unfold isNegativeZero, gt. rewrite ltb_spec. rewrite leb_spec in Hle.
  change (Prim2SF 0%float) with (S754_zero false) in *.
  pose proof (classify_spec b) as Hc. unfold SF64classify in Hc.
  pose proof (SFclassify_cases (Prim2SF b)) as Hcc.
  destruct (Prim2SF b) as [[]|[]| |[] m e] eqn:Hs; rewrite Hc;
    try destruct Hcc as [Hcc|Hcc]; rewrite Hcc; simpl; try reflexivity;
    try discriminate.
  apply Prim2SF_inj. now rewrite Hs.
Qed.

(** ** Numbers: the order of the non-negative ones *)

Lemma SF_not_lt_le (s1 s2 : spec_float) :
  sf_signed false s1 -> sf_signed false s2 -> SFltb s2 s1 = false -> SFleb s1 s2 = true.
Proof.
  intros H1 H2. destruct H1, H2; unfold SFltb, SFleb; simpl;
    try reflexivity; try discriminate.
  order_cases.
Qed.

Lemma SF_lt_le (s1 s2 : spec_float) : SFltb s1 s2 = true -> SFleb s1 s2 = true.
Proof.
  unfold SFltb, SFleb. destruct (SFcompare s1 s2) as [[]|]; congruence.
Qed.

Lemma SF_le_refl (s : spec_float) : sf_signed false s -> SFleb s s = true.
Proof.
  intros H. destruct H; unfold SFleb; simpl; try reflexivity. order_cases.
Qed.

Lemma SF_lt_irrefl (s : spec_float) : sf_signed false s -> SFltb s s = false.
Proof.
  intros H. destruct H; unfold SFltb; simpl; try reflexivity. order_cases.
Qed.

Lemma SF_lt_trans (s1 s2 s3 : spec_float) :
  sf_signed false s1 -> sf_signed false s2 -> sf_signed false s3 ->
  SFltb s1 s2 = true -> SFltb s2 s3 = true -> SFltb s1 s3 = true.
Proof.
  intros H1 H2 H3. destruct H1, H2, H3; unfold SFltb; simpl;
    try reflexivity; try discriminate.
  order_cases.
Qed.

Lemma SF_le_lt_trans (s1 s2 s3 : spec_float) :
  sf_signed false s1 -> sf_signed false s2 -> sf_signed false s3 ->
  SFleb s1 s2 = true -> SFltb s2 s3 = true -> SFltb s1 s3 = true.
Proof.
  intros H1 H2 H3. destruct H1, H2, H3; unfold SFltb, SFleb; simpl;
    try reflexivity; try discriminate.
  order_cases.
Qed.

Lemma gt_false_ge (x y : number) :
  nonneg x -> nonneg y -> gt x y = false -> ge y x = true.
Proof. unfold gt, ge. rewrite ltb_spec, leb_spec. apply SF_not_lt_le. Qed.

Lemma gt_ge (x y : number) : gt x y = true -> ge x y = true.
Proof. unfold gt, ge. rewrite ltb_spec, leb_spec. apply SF_lt_le. Qed.

Lemma ge_refl (x : number) : nonneg x -> ge x x = true.
Proof. unfold ge. rewrite leb_spec. apply SF_le_refl. Qed.

Lemma gt_irrefl (x : number) : nonneg x -> gt x x = false.
Proof. unfold gt. rewrite ltb_spec. apply SF_lt_irrefl. Qed.

Lemma gt_trans (x y z : number) :
  nonneg x -> nonneg y -> nonneg z -> gt z y = true -> gt y x = true -> gt z x = true.
Proof.
  unfold gt. rewrite !ltb_spec. intros Hx Hy Hz Hzy Hyx.
  now apply (SF_lt_trans _ (Prim2SF y)).
Qed.

Lemma ge_gt_trans (x y z : number) :
  nonneg x -> nonneg y -> nonneg z -> ge y x = true -> gt z y = true -> gt z x = true.
Proof.
  unfold gt, ge. rewrite !ltb_spec, leb_spec. intros Hx Hy Hz Hyx Hzy.
  now apply (SF_le_lt_trans _ (Prim2SF y)).
Qed.

(** ** Numbers: whole numbers are added and subtracted without rounding *)

Lemma Zdigits2_log2 (z : Z) : 0 < z -> Zdigits2 z = Z.log2 z + 1.
Proof.
  destruct z as [|p|p]; try lia. intros _. simpl.
  assert (H : forall q, Z.pos (digits2_pos q) = Z.pos (Pos.size q)).
  { induction q; simpl; try rewrite !Pos2Z.inj_succ; try rewrite IHq; reflexivity. }
  destruct p; simpl; rewrite ?Pos2Z.inj_succ, ?H; lia.
Qed.

Lemma shr_1_even (z : Z) :
  0 < z ->
  shr_1 {| shr_m := 2 * z; shr_r := false; shr_s := false |}
  = {| shr_m := z; shr_r := false; shr_s := false |}.
Proof. destruct z; try lia. reflexivity. Qed.

Lemma iter_shr_1_exact (r : positive) :
  forall (n i : Z), 0 < n -> 0 <= i ->
    iter_pos shr_1 r {| shr_m := n * 2 ^ (Z.pos r + i); shr_r := false; shr_s := false |}
    = {| shr_m := n * 2 ^ i; shr_r := false; shr_s := false |}.
Proof.
  assert (Hstep : forall n i, 0 < n -> 0 <= i ->
            shr_1 {| shr_m := n * 2 ^ (1 + i); shr_r := false; shr_s := false |}
            = {| shr_m := n * 2 ^ i; shr_r := false; shr_s := false |}).
  { intros n i Hn Hi. rewrite Z.pow_add_r by lia.
    replace (n * (2 ^ 1 * 2 ^ i)) with (2 * (n * 2 ^ i)) by ring.
    apply shr_1_even. apply Z.mul_pos_pos; [lia|]. apply Z.pow_pos_nonneg; lia. }
  induction r as [r IH|r IH|]; intros n i Hn Hi; cbn [iter_pos].
  - replace (Z.pos r~1 + i) with (1 + (Z.pos r + (Z.pos r + i))) by lia.
    rewrite Hstep by lia. rewrite IH by lia. apply IH; lia.
  - replace (Z.pos r~0 + i) with (Z.pos r + (Z.pos r + i)) by lia.
    rewrite IH by lia. apply IH; lia.
  - apply Hstep; lia.
Qed.

Lemma fexp_small (d : Z) : 1 <= d -> fexp prec emax d = d - 53.
Proof. intros H. unfold fexp, emin, prec, emax. lia. Qed.

Lemma canonMantissa_pos (n : Z) :
  0 < n -> Z.log2 n <= 52 -> Z.pos (canonMantissa n) = n * 2 ^ (52 - Z.log2 n).
Proof.
  intros Hn Hl. unfold canonMantissa. rewrite Z2Pos.id; [reflexivity|].
  apply Z.mul_pos_pos; [lia|]. apply Z.pow_pos_nonneg; lia.
Qed.

Lemma binary_round_aux_exact (s : bool) (n j : Z) :
  0 < n -> Z.log2 n <= 52 -> 52 - Z.log2 n <= j ->
  binary_round_aux prec emax s (n * 2 ^ j) (- j) loc_Exact
  = S754_finite s (canonMantissa n) (Z.log2 n - 52).
Proof.
  intros Hn Hl Hj.
  pose proof (Z.log2_nonneg n) as Hl0.
  assert (Hpos : forall i, 0 <= i -> 0 < n * 2 ^ i).
  { intros i Hi. apply Z.mul_pos_pos; [lia|]. apply Z.pow_pos_nonneg; lia. }
  assert (Hdig : forall i, 0 <= i -> Zdigits2 (n * 2 ^ i) = Z.log2 n + 1 + i).
  { intros i Hi. rewrite Zdigits2_log2 by (apply Hpos; lia).
    rewrite Z.log2_mul_pow2 by lia. lia. }
  assert (Hshr : shr_fexp prec emax (n * 2 ^ j) (- j) loc_Exact
                 = ({| shr_m := n * 2 ^ (52 - Z.log2 n); shr_r := false; shr_s := false |},
                    Z.log2 n - 52)).
  { unfold shr_fexp. rewrite Hdig by lia.
    rewrite fexp_small by lia. unfold shr. cbn [shr_record_of_loc].
    destruct (Z.log2 n + 1 + j + - j - 53 - - j) as [|r|r] eqn:Hr.
    - assert (j = 52 - Z.log2 n) by lia. subst j. f_equal. lia.
    - replace j with (Z.pos r + (52 - Z.log2 n)) at 1 by lia.
      rewrite iter_shr_1_exact by lia. f_equal. lia.
    - lia. }
  unfold binary_round_aux. rewrite Hshr.
  cbn [loc_of_shr_record round_nearest_even shr_m].
  unfold shr_fexp. rewrite Hdig by lia. rewrite fexp_small by lia.
  replace (Z.log2 n + 1 + (52 - Z.log2 n) + (Z.log2 n - 52) - 53 - (Z.log2 n - 52))
    with 0 by lia.
  cbn [shr shr_record_of_loc shr_m].
  rewrite <- canonMantissa_pos by lia.
  replace (Z.log2 n - 52 <=? emax - prec) with true; [reflexivity|].
  symmetry. apply Z.leb_le. unfold emax, prec. lia.
Qed.

Lemma Pos_iter_xO_pow (m d : positive) :
  Z.pos (Pos.iter xO m d) = Z.pos m * 2 ^ Z.pos d.
Proof.
  induction d as [|d IH] using Pos.peano_ind.
  - simpl. lia.
  - rewrite Pos.iter_succ, Pos2Z.inj_xO, IH, Pos2Z.inj_succ, Z.pow_succ_r by lia. ring.
Qed.

Lemma binary_round_exact (s : bool) (m : positive) (n j : Z) :
  0 < n -> Z.log2 n <= 52 -> 0 <= j -> Z.pos m = n * 2 ^ j ->
  binary_round prec emax s m (- j) = S754_finite s (canonMantissa n) (Z.log2 n - 52).
Proof.
  intros Hn Hl Hj Hm.
  pose proof (Z.log2_nonneg n) as Hl0.
  unfold binary_round.
  change (Z.pos (digits2_pos m)) with (Zdigits2 (Z.pos m)).
  rewrite Hm, Zdigits2_log2 by (rewrite <- Hm; lia).
  rewrite Z.log2_mul_pow2 by lia.
  rewrite fexp_small by lia.
  unfold shl_align.
  destruct (j + Z.log2 n + 1 + - j - 53 - - j) as [|d|d] eqn:Hd.
  - rewrite Hm. apply binary_round_aux_exact; lia.
  - rewrite Hm. apply binary_round_aux_exact; lia.
  - rewrite Pos_iter_xO_pow, Hm, <- Z.mul_assoc, <- Z.pow_add_r by lia.
    replace (j + Z.pos d) with (52 - Z.log2 n) by lia.
    replace (j + Z.log2 n + 1 + - j - 53) with (- (52 - Z.log2 n)) by lia.
    apply binary_round_aux_exact; lia.
Qed.

Lemma log2_safe (n : Z) : 0 < n -> n < 2 ^ 53 -> Z.log2 n <= 52.
Proof.
  intros Hn Hlt. apply Z.lt_succ_r. now apply Z.log2_lt_pow2.
Qed.

Lemma integerSF_pos (n : Z) :
  0 < n -> n < 2 ^ 53 ->
  integerSF n = S754_finite false (canonMantissa n) (Z.log2 n - 52).
Proof.
  intros Hn Hlt. unfold integerSF. destruct n as [|p|p]; try lia.
  cbn [binary_normalize]. change 0 with (- 0) at 1.
  apply binary_round_exact; first [lia | now apply log2_safe | (simpl; lia)].
Qed.

Lemma integerSF_neg (n : Z) :
  0 < n -> n < 2 ^ 53 ->
  integerSF (- n) = S754_finite true (canonMantissa n) (Z.log2 n - 52).
Proof.
  intros Hn Hlt. unfold integerSF. destruct n as [|p|p]; try lia.
  cbn [binary_normalize Z.opp]. change 0 with (- 0) at 1.
  apply binary_round_exact; first [lia | now apply log2_safe | (simpl; lia)].
Qed.

Lemma binary_normalize_exact (n j : Z) :
  Z.abs n < 2 ^ 53 -> 0 <= j ->
  binary_normalize prec emax (n * 2 ^ j) (- j) false = integerSF n.
Proof.
  intros Hn Hj.
  assert (Hp : 0 < 2 ^ j) by (apply Z.pow_pos_nonneg; lia).
  destruct (Z.lt_trichotomy n 0) as [Hneg|[->|Hpos]].
  - replace n with (- (- n)) at 2 by lia. rewrite integerSF_neg by lia.
    destruct (n * 2 ^ j) as [|m|m] eqn:Hm; try nia.
    cbn [binary_normalize].
    apply binary_round_exact; first [lia | (apply log2_safe; lia) | nia].
  - reflexivity.
  - rewrite integerSF_pos by lia.
    destruct (n * 2 ^ j) as [|m|m] eqn:Hm; try nia.
    cbn [binary_normalize].
    apply binary_round_exact; first [lia | (apply log2_safe; lia) | nia].
Qed.

Lemma binary_normalize_exact_neg (n e : Z) :
  Z.abs n < 2 ^ 53 -> e <= 0 ->
  binary_normalize prec emax (n * 2 ^ (- e)) e false = integerSF n.
Proof.
  intros Hn He. replace e with (- - e) at 2 by lia.
  apply binary_normalize_exact; lia.
Qed.

Lemma integerSF_nonzero (a : Z) :
  a <> 0 -> Z.abs a < 2 ^ 53 ->
  integerSF a
  = S754_finite (a <? 0) (canonMantissa (Z.abs a)) (Z.log2 (Z.abs a) - 52).
Proof.
  intros Ha Hlt. destruct (Z.ltb_spec a 0) as [Hneg|Hpos].
  - replace a with (- Z.abs a) at 1 by lia. apply integerSF_neg; lia.
  - replace a with (Z.abs a) at 1 by lia. apply integerSF_pos; lia.
Qed.

Lemma shl_align_fst (m : positive) (e e' : Z) :
  e' <= e -> Z.pos (fst (shl_align m e e')) = Z.pos m * 2 ^ (e - e').
Proof.
  intros Hle. unfold shl_align. destruct (e' - e) as [|d|d] eqn:Hd; cbn [fst].
  - replace (e - e') with 0 by lia. lia.
  - lia.
  - rewrite Pos_iter_xO_pow. f_equal. f_equal. lia.
Qed.

Lemma aligned_value (a ez : Z) :
  a <> 0 -> Z.abs a < 2 ^ 53 -> ez <= Z.log2 (Z.abs a) - 52 ->
  cond_Zopp (a <? 0)
    (Z.pos (fst (shl_align (canonMantissa (Z.abs a)) (Z.log2 (Z.abs a) - 52) ez)))
  = a * 2 ^ (- ez).
Proof.
  intros Ha Hlt Hez.
  assert (Hl : Z.log2 (Z.abs a) <= 52) by (apply log2_safe; lia).
  pose proof (Z.log2_nonneg (Z.abs a)) as Hl0.
  rewrite shl_align_fst by exact Hez.
  rewrite canonMantissa_pos by lia.
  rewrite <- Z.mul_assoc, <- Z.pow_add_r by lia.
  replace (52 - Z.log2 (Z.abs a) + (Z.log2 (Z.abs a) - 52 - ez)) with (- ez) by lia.
  unfold cond_Zopp. destruct (Z.ltb_spec a 0); [|f_equal; lia].
  rewrite <- Z.mul_opp_l. f_equal. lia.
Qed.

Lemma SFadd_exact (a b : Z) :
  Z.abs a < 2 ^ 53 -> Z.abs b < 2 ^ 53 -> Z.abs (a + b) < 2 ^ 53 ->
  SFadd prec emax (integerSF a) (integerSF b) = integerSF (a + b).
Proof.
  intros Ha Hb Hab.
  destruct (Z.eq_dec a 0) as [->|Ha0].
  { change (integerSF 0) with (S754_zero false). rewrite Z.add_0_l.
    destruct (Z.eq_dec b 0) as [->|Hb0]; [reflexivity|].
    now rewrite integerSF_nonzero. }
  destruct (Z.eq_dec b 0) as [->|Hb0].
  { change (integerSF 0) with (S754_zero false). rewrite Z.add_0_r.
    now rewrite integerSF_nonzero. }
  rewrite (integerSF_nonzero a), (integerSF_nonzero b) by assumption.
  cbn [SFadd].
  set (ea := Z.log2 (Z.abs a) - 52). set (eb := Z.log2 (Z.abs b) - 52).
  assert (Hea : ea <= 0) by (subst ea; assert (Z.log2 (Z.abs a) <= 52) by (apply log2_safe; lia); lia).
  rewrite !aligned_value by (fold ea eb; lia).
  rewrite <- Z.mul_add_distr_r.
  apply binary_normalize_exact_neg; lia.
Qed.

Lemma SFsub_exact (a b : Z) :
  Z.abs a < 2 ^ 53 -> Z.abs b < 2 ^ 53 -> Z.abs (a - b) < 2 ^ 53 ->
  SFsub prec emax (integerSF a) (integerSF b) = integerSF (a - b).
Proof.
  intros Ha Hb Hab.
  destruct (Z.eq_dec b 0) as [->|Hb0].
  { change (integerSF 0) with (S754_zero false). rewrite Z.sub_0_r.
    destruct (Z.eq_dec a 0) as [->|Ha0]; [reflexivity|].
    now rewrite integerSF_nonzero. }
  destruct (Z.eq_dec a 0) as [->|Ha0].
  { change (integerSF 0) with (S754_zero false). rewrite Z.sub_0_l.
    rewrite (integerSF_nonzero b), (integerSF_nonzero (- b)) by lia.
    cbn [SFsub]. rewrite Z.abs_opp. f_equal.
    destruct (Z.ltb_spec b 0), (Z.ltb_spec (- b) 0); try reflexivity; lia. }
  rewrite (integerSF_nonzero a), (integerSF_nonzero b) by assumption.
  cbn [SFsub].
  set (ea := Z.log2 (Z.abs a) - 52). set (eb := Z.log2 (Z.abs b) - 52).
  assert (Hea : ea <= 0) by (subst ea; assert (Z.log2 (Z.abs a) <= 52) by (apply log2_safe; lia); lia).
  rewrite !aligned_value by (fold ea eb; lia).
  rewrite <- Z.mul_sub_distr_r.
  apply binary_normalize_exact_neg; lia.
Qed.

Lemma integerPart_nonneg (x : number) : 0 <= integerPart x.
Proof.
  unfold integerPart. destruct (Prim2SF x) as [| | |[] m e]; try lia.
  apply Z.shiftl_nonneg. lia.
Qed.

Lemma fromZ_spec (n : Z) : 0 <= n < 2 ^ 53 -> Prim2SF (fromZ n) = integerSF n.
Proof.
  intros Hn. unfold fromZ, integerSF. rewrite of_uint63_spec, Uint63.of_Z_spec.
  rewrite Z.mod_small; [reflexivity|].
  unfold Uint63.wB, Uint63.size. change (2 ^ Z.of_nat 63) with (2 ^ 63).
  assert (2 ^ 53 < 2 ^ 63) by (apply Z.pow_lt_mono_r; lia). lia.
Qed.

Lemma wholeNumber_represents (x : number) :
  wholeNumber x -> represents x (integerPart x).
Proof.
  intros [Hx Hlt]. pose proof (integerPart_nonneg x) as H0. split; [|lia].
  rewrite Hx at 1. apply fromZ_spec. lia.
Qed.

Lemma add_represents (x y : number) (a b : Z) :
  represents x a -> represents y b -> Z.abs (a + b) < 2 ^ 53 ->
  represents (x + y)%float (a + b).
Proof.
  intros [Hx Ha] [Hy Hb] Hab. split; [|exact Hab].
  rewrite add_spec, Hx, Hy. now apply SFadd_exact.
Qed.

Lemma sub_represents (x y : number) (a b : Z) :
  represents x a -> represents y b -> Z.abs (a - b) < 2 ^ 53 ->
  represents (x - y)%float (a - b).
Proof.
  intros [Hx Ha] [Hy Hb] Hab. split; [|exact Hab].
  rewrite sub_spec, Hx, Hy. now apply SFsub_exact.
Qed.

(** ** The balance calculator *)

Lemma filter_none {A} (f : A -> bool) (l : list A) :
  (forall x, In x l -> f x = false) -> filter f l = [].
Proof.
  induction l as [|x l IH]; intros Hall; simpl; [reflexivity|].
  rewrite (Hall x (or_introl eq_refl)).
  apply IH. intros y Hy. apply Hall. now right.
Qed.

(** C7: with no transaction of the account in the collection (the empty
    collection in particular) [getBalance] returns the account's
    [startingDebt]; being a total function, it has no error outcome. *)
Theorem getBalance_no_transactions (account : Account) :
  getBalance account [] = Account.startingDebt account
  /\ forall transactions : list Transaction,
      (forall transaction, In transaction transactions ->
         Transaction.accountId transaction <> Account.id account) ->
      getBalance account transactions = Account.startingDebt account.
Proof.
  split; [reflexivity|].
  intros transactions Hnone. unfold getBalance.
  rewrite filter_none; [reflexivity|].
  intros t Ht. apply String.eqb_neq. now apply Hnone.
Qed.

Lemma getBalance_no_transactions_witness :
  getBalance everydayCard [scholarship] = 12000%float.
Proof.
  apply (proj2 (getBalance_no_transactions everydayCard) [scholarship]).
  intros t [<-|[]]. simpl. discriminate.
Defined.

(** C6: appending a transaction of the account adds its amount to the
    balance when it is NEGATIVE and subtracts it when it is POSITIVE. *)
Theorem getBalance_append
  (account : Account) (transactions : list Transaction) (t : Transaction) :
  Transaction.accountId t = Account.id account ->
  (Transaction.direction t = NEGATIVE ->
   getBalance account (transactions ++ [t])
   = (getBalance account transactions + Transaction.amount t)%float)
  /\ (Transaction.direction t = POSITIVE ->
      getBalance account (transactions ++ [t])
      = (getBalance account transactions - Transaction.amount t)%float).
Proof.
  intros Hid. unfold getBalance.
  rewrite filter_app, fold_left_app. simpl.
  apply String.eqb_eq in Hid. rewrite Hid. simpl.
  split; intros Hdir; rewrite Hdir; reflexivity.
Qed.

Lemma getBalance_append_witness :
  getBalance everydayCard ([groceries] ++ [monthlyPayment])
  = (getBalance everydayCard [groceries] - 1500)%float.
Proof.
  apply (proj2 (getBalance_append everydayCard [groceries] monthlyPayment eq_refl)).
  reflexivity.
Defined.

(** The seeded card: 12000 + 2500 - 1500. *)
Example getBalance_everydayCard :
  getBalance everydayCard [groceries; monthlyPayment; scholarship] = 13000%float.
Proof. reflexivity. Qed.

Lemma balance_fold_nonNaN (l : list Transaction) (start : number) :
  nonNaN start ->
  Forall (fun transaction => isFinite (Transaction.amount transaction) = true) l ->
  nonNaN (fold_left
            (fun total transaction =>
               if direction_eqb (Transaction.direction transaction) NEGATIVE
               then (total + Transaction.amount transaction)%float
               else (total - Transaction.amount transaction)%float)
            l start).
Proof.
  revert start. induction l as [|t l IH]; intros start Hstart Hall; simpl; [exact Hstart|].
  inversion Hall as [|? ? Ht Hl]; subst.
  apply IH; [|exact Hl].
  destruct (direction_eqb _ _); [now apply add_nonNaN|now apply sub_nonNaN].
Qed.

Lemma getBalance_nonNaN (account : Account) (transactions : list Transaction) :
  isFinite (Account.startingDebt account) = true ->
  Forall (fun transaction => isFinite (Transaction.amount transaction) = true)
         transactions ->
  nonNaN (getBalance account transactions).
Proof.
  intros Hstart Hall. unfold getBalance. apply balance_fold_nonNaN.
  - now apply isFinite_nonNaN.
  - apply Forall_forall. intros t Ht. apply filter_In in Ht as [Ht _].
    revert t Ht. now apply Forall_forall.
Qed.

(** ** The balance and the order of the transactions *)

(** C1, as stated, fails: with amounts that are not whole numbers the
    balance depends on the order in which a charge and a payment are met. *)
Lemma getBalance_depends_on_order :
  Permutation [coffee; refund] [refund; coffee]
  /\ getBalance storeCard [coffee; refund] = 995.1500000000001%float
  /\ getBalance storeCard [refund; coffee] = 995.15%float
  /\ getBalance storeCard [coffee; refund] <> getBalance storeCard [refund; coffee].
Proof.
  split; [apply perm_swap|]. split; [reflexivity|]. split; [reflexivity|].
  vm_compute. discriminate.
Qed.

Lemma amountsTotal_nonneg (l : list Transaction) : 0 <= amountsTotal l.
Proof.
  induction l as [|t l IH]; simpl; [lia|].
  pose proof (integerPart_nonneg (Transaction.amount t)). lia.
Qed.

Lemma balance_fold_represents (l : list Transaction) :
  forall (start : number) (s : Z),
    represents start s ->
    Forall (fun transaction => wholeNumber (Transaction.amount transaction)) l ->
    Z.abs s + amountsTotal l < 2 ^ 53 ->
    represents
      (fold_left
         (fun total transaction =>
            if direction_eqb (Transaction.direction transaction) NEGATIVE
            then (total + Transaction.amount transaction)%float
            else (total - Transaction.amount transaction)%float)
         l start)
      (s + signedTotal l).
Proof.
  induction l as [|t l IH]; intros start s Hstart Hall Hbound.
  - simpl. now rewrite Z.add_0_r.
  - inversion Hall as [|? ? Ht Hl]; subst.
    pose proof (amountsTotal_nonneg l) as Hl0.
    pose proof (integerPart_nonneg (Transaction.amount t)) as Ht0.
    pose proof (wholeNumber_represents _ Ht) as Hrep.
    cbn [fold_left amountsTotal signedTotal fold_right] in *.
    fold (amountsTotal l) in Hbound. fold (signedTotal l).
    unfold signedAmount.
    destruct (direction_eqb (Transaction.direction t) NEGATIVE).
    + replace (s + (integerPart (Transaction.amount t) + signedTotal l))
        with (s + integerPart (Transaction.amount t) + signedTotal l) by lia.
      apply IH; [|exact Hl|lia].
      apply add_represents; [exact Hstart|exact Hrep|lia].
    + replace (s + (- integerPart (Transaction.amount t) + signedTotal l))
        with (s - integerPart (Transaction.amount t) + signedTotal l) by lia.
      apply IH; [|exact Hl|lia].
      apply sub_represents; [exact Hstart|exact Hrep|lia].
Qed.

Lemma amountsTotal_filter (f : Transaction -> bool) (l : list Transaction) :
  amountsTotal (filter f l) <= amountsTotal l.
Proof.
  induction l as [|t l IH]; simpl; [lia|].
  pose proof (integerPart_nonneg (Transaction.amount t)).
  destruct (f t); simpl; lia.
Qed.

Lemma getBalance_represents (account : Account) (transactions : list Transaction) :
  wholeAmounts account transactions ->
  represents
    (getBalance account transactions)
    (integerPart (Account.startingDebt account)
     + signedTotal (filter (fun transaction =>
                              String.eqb (Transaction.accountId transaction)
                                         (Account.id account))
                           transactions)).
Proof.
  intros (Hstart & Hall & Hbound). unfold getBalance.
  pose proof (integerPart_nonneg (Account.startingDebt account)) as H0.
  apply balance_fold_represents.
  - now apply wholeNumber_represents.
  - apply Forall_forall. intros t Ht. apply filter_In in Ht as [Ht _].
    revert t Ht. now apply Forall_forall.
  - pose proof (amountsTotal_filter
                  (fun transaction =>
                     String.eqb (Transaction.accountId transaction) (Account.id account))
                  transactions).
    lia.
Qed.

Lemma Permutation_filter_bool {A} (f : A -> bool) (l l' : list A) :
  Permutation l l' -> Permutation (filter f l) (filter f l').
Proof.
  induction 1 as [|x l l' _ IH|x y l|l l' l'' _ IH1 _ IH2]; simpl.
  - constructor.
  - destruct (f x); [now constructor|exact IH].
  - destruct (f x), (f y); try reflexivity. apply perm_swap.
  - now transitivity (filter f l').
Qed.

Lemma signedTotal_Permutation (l l' : list Transaction) :
  Permutation l l' -> signedTotal l = signedTotal l'.
Proof.
  induction 1 as [|x l l' _ IH|x y l|l l' l'' _ IH1 _ IH2]; simpl; lia.
Qed.

Lemma amountsTotal_Permutation (l l' : list Transaction) :
  Permutation l l' -> amountsTotal l = amountsTotal l'.
Proof.
  induction 1 as [|x l l' _ IH|x y l|l l' l'' _ IH1 _ IH2]; simpl; lia.
Qed.

Lemma wholeAmounts_Permutation (account : Account) (l l' : list Transaction) :
  Permutation l l' -> wholeAmounts account l -> wholeAmounts account l'.
Proof.
  intros Hperm (Hstart & Hall & Hbound). split; [exact Hstart|]. split.
  - apply Forall_forall. intros t Ht.
    apply (Permutation_in _ (Permutation_sym Hperm)) in Ht.
    revert t Ht. now apply Forall_forall.
  - now rewrite <- (amountsTotal_Permutation l l').
Qed.

(** C1, amended: when the starting debt and the amounts are whole numbers
    that together stay below 2^53, the balance is the same for every
    reordering of the transaction collection. *)
Theorem getBalance_order_independent
  (account : Account) (transactions transactions' : list Transaction) :
  Permutation transactions transactions' ->
  wholeAmounts account transactions ->
  getBalance account transactions = getBalance account transactions'.
Proof.
  intros Hperm Hwhole.
  destruct (getBalance_represents account transactions Hwhole) as [H1 _].
  destruct (getBalance_represents account transactions'
              (wholeAmounts_Permutation account _ _ Hperm Hwhole)) as [H2 _].
  apply Prim2SF_inj. rewrite H1, H2. do 2 f_equal.
  apply signedTotal_Permutation, Permutation_filter_bool, Hperm.
Qed.

Lemma getBalance_order_independent_witness :
  getBalance everydayCard [groceries; scholarship; monthlyPayment]
  = getBalance everydayCard [monthlyPayment; groceries; scholarship].
Proof.
  apply getBalance_order_independent.
  - apply Permutation_sym. apply (Permutation_cons_app [groceries; scholarship] []).
    reflexivity.
  - split; [split; vm_compute; reflexivity|]. split.
    + repeat constructor; vm_compute; reflexivity.
    + vm_compute. reflexivity.
Defined.

(** ** Total remaining debt *)

Lemma finiteNumbers_balances (accounts : list Account) (transactions : list Transaction) :
  finiteNumbers accounts transactions -> balancesAreNumbers accounts transactions.
Proof.
  intros [Hacc Htx]. unfold balancesAreNumbers.
  eapply Forall_impl; [|exact Hacc]. intros account Hfinite.
  now apply isNaN_false, getBalance_nonNaN.
Qed.

Lemma clampedDebt_nonneg
  (accounts : list Account) (transactions : list Transaction) (account : Account) :
  balancesAreNumbers accounts transactions -> In account accounts ->
  nonneg (clampedDebt transactions account).
Proof.
  intros Hall Hin. apply mathMax_zero_nonneg, isNaN_false.
  revert account Hin. now apply Forall_forall.
Qed.

Lemma totalRemainingDebt_fold (transactions : list Transaction) (accounts : list Account)
  (start : number) :
  fold_left (fun sum entry => (sum + mathMax (Summary.balance entry) 0)%float)
            (accountSummaries accounts transactions) start
  = fold_left (fun sum x => (sum + x)%float)
              (map (clampedDebt transactions) accounts) start.
Proof.
  revert start. induction accounts as [|a l IH]; intros start; simpl; [reflexivity|].
  apply IH.
Qed.

Lemma sum_fold_nonneg (l : list number) (start : number) :
  nonneg start -> Forall nonneg l ->
  nonneg (fold_left (fun sum x => (sum + x)%float) l start).
Proof.
  revert start. induction l as [|x l IH]; intros start Hstart Hall; simpl; [exact Hstart|].
  inversion Hall; subst. apply IH; [now apply add_nonneg|assumption].
Qed.

Lemma clampedDebts_nonneg (accounts : list Account) (transactions : list Transaction) :
  balancesAreNumbers accounts transactions ->
  Forall nonneg (map (clampedDebt transactions) accounts).
Proof.
  intros Hfin. apply Forall_forall. intros x Hx.
  apply in_map_iff in Hx as (a & <- & Ha).
  now apply (clampedDebt_nonneg accounts).
Qed.

(** NaN is contagious: in a sum, and in the clamp. *)
Lemma isNaN_true (x : number) : isNaN x = true <-> Prim2SF x = S754_nan.
Proof.
  pose proof (isNaN_false x) as Hfalse. unfold nonNaN in Hfalse.
  destruct (isNaN x); split; intros Hx; try reflexivity; try discriminate.
  - destruct (Prim2SF x); try reflexivity;
      exfalso; assert (true = false) by (apply Hfalse; discriminate); discriminate.
  - exfalso. now apply (proj1 Hfalse).
Qed.

Lemma add_NaN (x y : number) :
  isNaN x = true \/ isNaN y = true -> isNaN (x + y)%float = true.
Proof.
  rewrite !isNaN_true, add_spec. unfold SF64add.
  intros [-> | ->]; [reflexivity|]. now destruct (Prim2SF x).
Qed.

Lemma clamp_NaN (b : number) : isNaN b = true -> isNaN (mathMax b 0) = true.
Proof. intros Hb. unfold mathMax. now rewrite Hb. Qed.

Lemma sum_fold_NaN (l : list number) (start : number) :
  isNaN start = true \/ Exists (fun x => isNaN x = true) l ->
  isNaN (fold_left (fun sum x => (sum + x)%float) l start) = true.
Proof.
  revert start. induction l as [|x l IH]; intros start [Hstart | Hex]; cbn [fold_left].
  - exact Hstart.
  - inversion Hex.
  - apply IH. left. apply add_NaN. now left.
  - apply IH. inversion Hex; subst; [left; apply add_NaN; now right|now right].
Qed.

(** C2, as stated, fails.  In [App.tsx] the total is NaN, and so not at
    least zero, once a balance is NaN: a starting debt of [Infinity] with a
    payment of [Infinity].  In the earlier variant the total shown is
    [totalBalance], which is not clamped: an account in credit makes it
    negative. *)
Lemma total_debt_is_not_always_nonnegative :
  isNaN (totalRemainingDebt (accountSummaries [boundlessLoan] [boundlessPayment])) = true
  /\ ge (totalRemainingDebt (accountSummaries [boundlessLoan] [boundlessPayment])) 0 = false
  /\ totalBalance [educationLoan] [overpayment] = (-6000)%float
  /\ ge (totalBalance [educationLoan] [overpayment]) 0 = false.
Proof. repeat split; reflexivity. Qed.

(** C2, amended: in [App.tsx] the total remaining debt is the sum, over the
    accounts in order, of the balances clamped at zero, and an account with
    a negative balance enters that sum as exactly zero.  When no balance is
    NaN (as when every stored number is finite) the total is at least zero
    and is the same with and without an account in credit; when some
    balance is NaN the total is NaN.  The total of the earlier variant is
    the sum of the balances as they are. *)
Theorem totalRemainingDebt_clamped
  (accounts : list Account) (transactions : list Transaction) :
  totalRemainingDebt (accountSummaries accounts transactions)
  = sumNumbers (map (fun account => mathMax (getBalance account transactions) 0%float)
                    accounts)
  /\ (forall A,
        PrimFloat.ltb (getBalance A transactions) 0%float = true ->
        mathMax (getBalance A transactions) 0%float = 0%float)
  /\ (balancesAreNumbers accounts transactions ->
      ge (totalRemainingDebt (accountSummaries accounts transactions)) 0%float = true
      /\ forall pre A post,
          accounts = pre ++ A :: post ->
          PrimFloat.ltb (getBalance A transactions) 0%float = true ->
          totalRemainingDebt (accountSummaries accounts transactions)
          = totalRemainingDebt (accountSummaries (pre ++ post) transactions))
  /\ (finiteNumbers accounts transactions -> balancesAreNumbers accounts transactions)
  /\ (~ balancesAreNumbers accounts transactions ->
      isNaN (totalRemainingDebt (accountSummaries accounts transactions)) = true)
  /\ totalBalance accounts transactions
     = sumNumbers (map (fun account => getBalance account transactions) accounts).
Proof.
  split; [apply totalRemainingDebt_fold|].
  split; [intros A; apply mathMax_negative|].
  split; [|split; [apply finiteNumbers_balances|split]].
  - intros Hfin. split.
    + apply nonneg_ge_zero. unfold totalRemainingDebt. rewrite totalRemainingDebt_fold.
      apply sum_fold_nonneg; [apply zero_nonneg|now apply clampedDebts_nonneg].
    + intros pre A post -> Hneg.
      pose proof (mathMax_negative _ Hneg) as Hzero.
      unfold totalRemainingDebt. rewrite !totalRemainingDebt_fold.
      rewrite !map_app, !fold_left_app. simpl.
      change (clampedDebt transactions A)
        with (mathMax (getBalance A transactions) 0%float).
      rewrite Hzero.
      rewrite add_zero_r; [reflexivity|].
      apply sum_fold_nonneg; [apply zero_nonneg|].
      apply clampedDebts_nonneg. unfold balancesAreNumbers in *.
      now apply Forall_app in Hfin as [Hpre _].
  - intros Hnot. unfold totalRemainingDebt. rewrite totalRemainingDebt_fold.
    apply sum_fold_NaN. right. apply Exists_exists.
    unfold balancesAreNumbers in Hnot.
    rewrite <- Exists_Forall_neg in Hnot
      by (intros account; destruct (isNaN (getBalance account transactions)); auto).
    apply Exists_exists in Hnot as (A & HA & HNaN).
    exists (clampedDebt transactions A). split; [apply in_map_iff; now exists A|].
    apply clamp_NaN. now destruct (isNaN (getBalance A transactions)).
  - unfold totalBalance, sumNumbers. generalize 0%float as start.
    induction accounts as [|a l IH]; intros start; [reflexivity|]. cbn [fold_left map].
    apply IH.
Qed.

Lemma totalRemainingDebt_clamped_witness :
  ge (totalRemainingDebt
        (accountSummaries [everydayCard; educationLoan] [groceries; overpayment]))
     0%float = true
  /\ totalRemainingDebt
       (accountSummaries [everydayCard; educationLoan] [groceries; overpayment])
     = totalRemainingDebt (accountSummaries [everydayCard] [groceries; overpayment])
  /\ isNaN (totalRemainingDebt
              (accountSummaries [everydayCard; boundlessLoan] [boundlessPayment])) = true.
Proof.
  pose proof (totalRemainingDebt_clamped [everydayCard; educationLoan]
                [groceries; overpayment]) as (_ & _ & Hnumbers & Hfinite & _).
  destruct Hnumbers as [Hge Hzero].
  - apply Hfinite. split; repeat constructor.
  - split; [exact Hge|]. split.
    + apply (Hzero [everydayCard] educationLoan []); reflexivity.
    + apply (totalRemainingDebt_clamped [everydayCard; boundlessLoan] [boundlessPayment]).
      intros Hall. inversion Hall as [|? ? _ Hrest]; subst.
      inversion Hrest as [|? ? HNaN _]; subst. discriminate HNaN.
Defined.

(** ** Dates *)

Lemma DaysInYear_step (y : Z) : DayFromYear (y + 1) = DayFromYear y + DaysInYear y.
Proof.
  unfold DayFromYear, DaysInYear.
  replace (y + 1 - 1969) with (y - 1968) by lia.
  replace (y + 1 - 1901) with (y - 1900) by lia.
  replace (y + 1 - 1601) with (y - 1600) by lia.
  assert (H4 : (y - 1968) / 4 = (y - 1969) / 4 + (if y mod 4 =? 0 then 1 else 0)).
  { destruct (Z.eqb_spec (y mod 4) 0); Z.div_mod_to_equations; lia. }
  assert (H100 : (y - 1900) / 100 = (y - 1901) / 100 + (if y mod 100 =? 0 then 1 else 0)).
  { destruct (Z.eqb_spec (y mod 100) 0); Z.div_mod_to_equations; lia. }
  assert (H400 : (y - 1600) / 400 = (y - 1601) / 400 + (if y mod 400 =? 0 then 1 else 0)).
  { destruct (Z.eqb_spec (y mod 400) 0); Z.div_mod_to_equations; lia. }
  rewrite H4, H100, H400.
  assert (D4 : y mod 4 = (y mod 100) mod 4)
    by (symmetry; apply Z.mod_mod_divide; now exists 25).
  assert (D100 : y mod 100 = (y mod 400) mod 100)
    by (symmetry; apply Z.mod_mod_divide; now exists 4).
  destruct (Z.eqb_spec (y mod 4) 0) as [E4|E4], (Z.eqb_spec (y mod 100) 0) as [E100|E100],
    (Z.eqb_spec (y mod 400) 0) as [E400|E400]; cbn [negb]; try lia; exfalso;
    try (rewrite E400, Z.mod_0_l in D100 by lia; lia);
    try (rewrite E100, Z.mod_0_l in D4 by lia; lia).
Qed.

Lemma DaysInYear_range (y : Z) : 365 <= DaysInYear y <= 366.
Proof.
  unfold DaysInYear.
  destruct (y mod 4 =? 0), (y mod 100 =? 0), (y mod 400 =? 0); cbn; lia.
Qed.

Lemma DayFromYear_mono (y y' : Z) : y <= y' -> DayFromYear y <= DayFromYear y'.
Proof.
  intros Hle. replace y' with (y + (y' - y)) by lia.
  assert (Hk : 0 <= y' - y) by lia. revert Hk.
  generalize (y' - y) as k. intros k Hk. pattern k.
  apply natlike_ind; [now rewrite Z.add_0_r| |exact Hk].
  intros x Hx IH. replace (y + Z.succ x) with (y + x + 1) by lia.
  rewrite DaysInYear_step. pose proof (DaysInYear_range (y + x)). lia.
Qed.

(** The years from 1601 on, counted by periods of 400, 100, 4 and 1. *)
Lemma DayFromYear_split (e c q a : Z) :
  0 <= c <= 3 -> 0 <= q <= 24 -> 0 <= a <= 3 ->
  DayFromYear (1601 + 400 * e + 100 * c + 4 * q + a)
  = 146097 * e + 36524 * c + 1461 * q + 365 * a - 134774.
Proof.
  intros Hc Hq Ha. unfold DayFromYear.
  replace ((1601 + 400 * e + 100 * c + 4 * q + a - 1969) / 4)
    with (100 * e + 25 * c + q - 92)
    by (apply Z.div_unique with (r := a); lia).
  replace ((1601 + 400 * e + 100 * c + 4 * q + a - 1901) / 100)
    with (4 * e + c - 3)
    by (apply Z.div_unique with (r := 4 * q + a); lia).
  replace ((1601 + 400 * e + 100 * c + 4 * q + a - 1601) / 400)
    with e
    by (apply Z.div_unique with (r := 100 * c + 4 * q + a); lia).
  lia.
Qed.

Lemma DaysInYear_split (e c q a : Z) :
  0 <= c <= 3 -> 0 <= q <= 24 -> 0 <= a <= 3 ->
  DaysInYear (1601 + 400 * e + 100 * c + 4 * q + a)
  = if (a =? 3) && (negb (q =? 24) || (c =? 3)) then 366 else 365.
Proof.
  intros Hc Hq Ha. unfold DaysInYear.
  set (y := 1601 + 400 * e + 100 * c + 4 * q + a).
  assert (M4 : y mod 4 = (1 + a) mod 4).
  { unfold y. replace (1601 + 400 * e + 100 * c + 4 * q + a)
      with (1 + a + (400 + 100 * e + 25 * c + q) * 4) by lia.
    apply Z.mod_add. lia. }
  assert (M100 : y mod 100 = (1 + 4 * q + a) mod 100).
  { unfold y. replace (1601 + 400 * e + 100 * c + 4 * q + a)
      with (1 + 4 * q + a + (16 + 4 * e + c) * 100) by lia.
    apply Z.mod_add. lia. }
  assert (M400 : y mod 400 = (1 + 100 * c + 4 * q + a) mod 400).
  { unfold y. replace (1601 + 400 * e + 100 * c + 4 * q + a)
      with (1 + 100 * c + 4 * q + a + (4 + e) * 400) by lia.
    apply Z.mod_add. lia. }
  rewrite M4, M100, M400.
  destruct (Z.eqb_spec a 3) as [-> | Na]; cbn [andb].
  - change ((1 + 3) mod 4) with 0. cbn [Z.eqb negb].
    destruct (Z.eqb_spec q 24) as [-> | Nq]; cbn [negb orb].
    + change ((1 + 4 * 24 + 3) mod 100) with 0. cbn [Z.eqb negb].
      destruct (Z.eqb_spec c 3) as [-> | Nc].
      * reflexivity.
      * assert (c = 0 \/ c = 1 \/ c = 2) as [-> | [-> | ->]] by lia; reflexivity.
    + assert ((1 + 4 * q + 3) mod 100 <> 0).
      { rewrite Z.mod_small by lia. lia. }
      destruct (Z.eqb_spec ((1 + 4 * q + 3) mod 100) 0); [contradiction | reflexivity].
  - assert ((1 + a) mod 4 <> 0).
    { rewrite Z.mod_small by lia. lia. }
    destruct (Z.eqb_spec ((1 + a) mod 4) 0); [contradiction | reflexivity].
Qed.

Lemma YearFromTime_days (t : Z) :
  DayFromYear (YearFromTime t) <= Day t
  < DayFromYear (YearFromTime t) + DaysInYear (YearFromTime t).
Proof.
  unfold YearFromTime. change (DayFromYear 1601) with (-134774).
  set (n := Day t - -134774).
  set (r := n mod 146097).
  set (c := Z.min (r / 36524) 3).
  set (r2 := r - 36524 * c).
  set (q := r2 / 1461).
  set (r3 := r2 mod 1461).
  set (a := Z.min (r3 / 365) 3).
  assert (Hr : 0 <= r < 146097) by (apply Z.mod_pos_bound; lia).
  assert (Hn : n = 146097 * (n / 146097) + r) by (apply Z.div_mod; lia).
  assert (Hc : 0 <= c <= 3).
  { unfold c. pose proof (Z.div_pos r 36524). lia. }
  assert (Hr2 : 0 <= r2 <= 36524 /\ (c < 3 -> r2 < 36524)).
  { unfold r2, c.
    pose proof (Z.div_mod r 36524 ltac:(lia)).
    pose proof (Z.mod_pos_bound r 36524 ltac:(lia)).
    destruct (Z.min_spec (r / 36524) 3) as [[? ->] | [? ->]]; lia. }
  assert (Hq : 0 <= q <= 24).
  { unfold q. split; [apply Z.div_pos; lia|].
    enough (r2 / 1461 < 25) by lia. apply Z.div_lt_upper_bound; lia. }
  assert (Hr3 : 0 <= r3 < 1461) by (apply Z.mod_pos_bound; lia).
  assert (Hr2' : r2 = 1461 * q + r3) by (apply Z.div_mod; lia).
  assert (Ha : 0 <= a <= 3).
  { unfold a. pose proof (Z.div_pos r3 365). lia. }
  rewrite DayFromYear_split, DaysInYear_split by assumption.
  assert (Hrem : 0 <= r3 - 365 * a /\ (a < 3 -> r3 - 365 * a < 365)
                 /\ r3 - 365 * a <= 365).
  { unfold a.
    pose proof (Z.div_mod r3 365 ltac:(lia)).
    pose proof (Z.mod_pos_bound r3 365 ltac:(lia)).
    destruct (Z.min_spec (r3 / 365) 3) as [[? ->] | [? ->]]; lia. }
  assert (Hd : Day t = n - 134774) by (unfold n; lia).
  assert (Er2 : r2 = r - 36524 * c) by reflexivity.
  clearbody n r c r2 q r3 a.
  destruct (Z.eqb_spec a 3) as [Ea | Na]; cbn [andb].
  - destruct (Z.eqb_spec q 24) as [Eq | Nq]; cbn [negb orb].
    + destruct (Z.eqb_spec c 3) as [Ec | Nc]; lia.
    + lia.
  - lia.
Qed.

(** [YearFromTime] is what ECMAScript asks for: the largest year that
    begins at or before [t]. *)
Lemma YearFromTime_spec (t : Z) :
  TimeFromYear (YearFromTime t) <= t < TimeFromYear (YearFromTime t + 1).
Proof.
  unfold TimeFromYear. rewrite DaysInYear_step.
  pose proof (YearFromTime_days t) as H. unfold Day in H.
  pose proof (Z.div_mod t msPerDay ltac:(unfold msPerDay; lia)).
  pose proof (Z.mod_pos_bound t msPerDay ltac:(unfold msPerDay; lia)).
  unfold msPerDay in *. nia.
Qed.

Lemma YearFromTime_largest (t y : Z) : TimeFromYear y <= t -> y <= YearFromTime t.
Proof.
  intros Hy. destruct (Z_le_gt_dec y (YearFromTime t)) as [Hle | Hgt]; [exact Hle|].
  exfalso. pose proof (YearFromTime_spec t) as [_ Hlt].
  pose proof (DayFromYear_mono (YearFromTime t + 1) y ltac:(lia)).
  unfold TimeFromYear, msPerDay in *. lia.
Qed.

Lemma MonthFromTime_range (t : Z) : 0 <= MonthFromTime t <= 11.
Proof.
  unfold MonthFromTime.
  repeat match goal with |- context [if ?b then _ else _] => destruct b end; lia.
Qed.

(** Moving the day of the month by [k] moves the day number by [k],
    across the ends of months and years. *)
Lemma MakeDay_shift (t k : Z) :
  MakeDay (YearFromTime t) (MonthFromTime t) (DateFromTime t + k) = Day t + k.
Proof.
  pose proof (MonthFromTime_range t) as Hm.
  unfold MakeDay.
  rewrite Z.div_small, Z.mod_small, Z.add_0_r by lia.
  fold (InLeapYear t).
  unfold DateFromTime, DayWithinYear.
  assert (Hcases : MonthFromTime t = 0 \/ MonthFromTime t = 1 \/ MonthFromTime t = 2
                   \/ MonthFromTime t = 3 \/ MonthFromTime t = 4 \/ MonthFromTime t = 5
                   \/ MonthFromTime t = 6 \/ MonthFromTime t = 7 \/ MonthFromTime t = 8
                   \/ MonthFromTime t = 9 \/ MonthFromTime t = 10 \/ MonthFromTime t = 11)
    by lia.
  repeat (destruct Hcases as [-> | Hcases]; [cbn [monthStart]; lia|]).
  rewrite Hcases. cbn [monthStart]. lia.
Qed.

(** ** Recent activity *)

(** The start of the window is the same local clock time thirty calendar
    days earlier. *)
Lemma windowStart_local `{TimeZone} (now : Z) :
  windowStart now = TimeClip (UTC (LocalTime now - 30 * msPerDay)).
Proof.
  unfold windowStart, Date_setDate, Date_getDate.
  replace (DateFromTime (LocalTime now) - 30) with (DateFromTime (LocalTime now) + -30) by lia.
  rewrite MakeDay_shift. unfold MakeDate, Day, TimeWithinDay. f_equal. f_equal.
  pose proof (Z.div_mod (LocalTime now) msPerDay ltac:(unfold msPerDay; lia)). lia.
Qed.

(** On a host whose offset from UTC never changes, and away from the ends
    of the range of time values, the window starts [30 * msPerDay]
    milliseconds before [now]. *)
Lemma windowStart_fixed_offset `{TimeZone} (offset now : Z) :
  (forall t isUTC, LocalTZA t isUTC = offset) ->
  Z.abs (now - 30 * msPerDay) <= 8640000000000000 ->
  windowStart now = Some (now - 30 * msPerDay).
Proof.
  intros Hfixed Hrange. rewrite windowStart_local. unfold UTC, LocalTime, TimeClip.
  rewrite !Hfixed.
  replace (now + offset - 30 * msPerDay - offset) with (now - 30 * msPerDay) by lia.
  destruct (Z.ltb_spec 8640000000000000 (Z.abs (now - 30 * msPerDay))); [lia|reflexivity].
Qed.

Lemma recentTransactions_In `{TimeZone}
  (now : Z) (transactions : list Transaction) (t : Transaction) :
  In t (recentTransactions now transactions)
  <-> In t transactions
      /\ exists time start,
           Transaction.date t = Some time /\ windowStart now = Some start /\ start <= time.
Proof.
  unfold recentTransactions. rewrite filter_In.
  split; intros [Hin H']; (split; [exact Hin|]).
  - destruct (Transaction.date t) as [time|]; [|discriminate].
    destruct (windowStart now) as [start|]; [|discriminate].
    exists time, start. split; [reflexivity|]. split; [reflexivity|]. now apply Z.leb_le.
  - destruct H' as (time & start & -> & -> & Hle). now apply Z.leb_le.
Qed.

(** The code moves the calendar date, not the clock: where the offset from
    UTC changed inside the window, its start is not [30 * msPerDay]
    milliseconds before [now].  On 15 April 2024 in central Europe a charge
    dated thirty days less half an hour earlier is not recent. *)
Lemma windowStart_follows_the_calendar :
  @windowStart centralEurope springEvaluationTime
  = Some (springEvaluationTime - 30 * msPerDay + 3600000)
  /\ @recentTransactions centralEurope springEvaluationTime [marchCharge] = []
  /\ @recentTransactions utc springEvaluationTime [marchCharge] = [marchCharge].
Proof. repeat split; vm_compute; reflexivity. Qed.

(** C4: a transaction dated one day after the evaluation time is in the
    recent set, although it lies outside the thirty days that end at the
    evaluation time: the code tests the start of the window only. *)
Theorem recent_set_admits_future_dates :
  In futureCharge (@recentTransactions utc evaluationTime [futureCharge])
  /\ Transaction.date futureCharge = Some (evaluationTime + msPerDay)
  /\ @windowStart utc evaluationTime = Some (evaluationTime - 30 * msPerDay)
  /\ ~ (evaluationTime - 30 * msPerDay <= evaluationTime + msPerDay <= evaluationTime).
Proof.
  split; [|split; [|split]].
  - vm_compute. now left.
  - reflexivity.
  - vm_compute. reflexivity.
  - unfold evaluationTime, msPerDay. lia.
Qed.

(** The recent set as the code computes it: the transactions whose date is
    a valid time at or after the start of the window; nothing bounds the
    date from above, so that every transaction dated after the start of the
    window is recent, also one dated after [now]. *)
Lemma recentTransactions_window `{TimeZone}
  (now : Z) (transactions : list Transaction) (t : Transaction) :
  (In t (recentTransactions now transactions)
   <-> In t transactions
       /\ exists time start,
            Transaction.date t = Some time
            /\ TimeClip (UTC (LocalTime now - 30 * msPerDay)) = Some start
            /\ start <= time)
  /\ (forall start, windowStart now = Some start -> start <= now ->
      In t transactions ->
      (exists time, Transaction.date t = Some time /\ now < time) ->
      In t (recentTransactions now transactions)).
Proof.
  split.
  - rewrite <- windowStart_local. apply recentTransactions_In.
  - intros start Hstart Hle Hin (time & Hdate & Hlt). apply recentTransactions_In.
    split; [exact Hin|]. exists time, start. repeat split; [assumption..|lia].
Qed.

Lemma lacksRecentPayment_iff `{TimeZone}
  (now : Z) (accounts : list Account) (transactions : list Transaction) (A : Account) :
  lacksRecentPayment now accounts transactions A
  <-> In A accounts
      /\ ~ exists t, In t (recentTransactions now transactions)
                     /\ Transaction.direction t = POSITIVE
                     /\ Transaction.accountId t = Account.id A.
Proof.
  unfold lacksRecentPayment, accountsWithoutRecentPayments, accountSummaries.
  split.
  - intros (entry & Hin & Hacc). apply filter_In in Hin as [Hin Hnone].
    apply in_map_iff in Hin as (a & <- & Ha). simpl in *. subst a.
    split; [exact Ha|].
    intros (t & Ht & Hdir & Hid).
    apply negb_true_iff in Hnone.
    assert (Hex : existsb
                    (fun transaction =>
                       String.eqb (Transaction.accountId transaction) (Account.id A)
                       && direction_eqb (Transaction.direction transaction) POSITIVE)
                    (recentTransactions now transactions) = true).
    { apply existsb_exists. exists t. split; [exact Ht|].
      rewrite Hdir. apply andb_true_iff. split; [now apply String.eqb_eq|reflexivity]. }
    congruence.
  - intros [Ha Hnone].
    exists (Summary.make A (getBalance A transactions)). split; [|reflexivity].
    apply filter_In. split.
    + apply in_map_iff. now exists A.
    + simpl. apply negb_true_iff.
      destruct (existsb _ _) eqn:Hex; [|reflexivity].
      exfalso. apply Hnone.
      apply existsb_exists in Hex as (t & Ht & Hb).
      apply andb_true_iff in Hb as [Hid Hdir].
      exists t. split; [exact Ht|]. split.
      * destruct (Transaction.direction t); [reflexivity|discriminate].
      * now apply String.eqb_eq.
Qed.

(** The list of accounts without a recent payment, as the code computes
    it: an account is listed exactly when no POSITIVE transaction of the
    account has a valid date at or after the start of the window; an account
    without any transaction is listed, and once a POSITIVE transaction of
    the account dated at the evaluation time is added it is listed no more
    (the window starts before [now]). *)
Lemma accountsWithoutRecentPayments_spec `{TimeZone}
  (now : Z) (s : App.state) (A : Account) :
  (lacksRecentPayment now (App.accounts s) (App.transactions s) A
   <-> In A (App.accounts s)
       /\ ~ exists t time start,
              In t (App.transactions s)
              /\ Transaction.direction t = POSITIVE
              /\ Transaction.accountId t = Account.id A
              /\ Transaction.date t = Some time
              /\ windowStart now = Some start
              /\ start <= time)
  /\ (In A (App.accounts s) ->
      (forall t, In t (App.transactions s) -> Transaction.accountId t <> Account.id A) ->
      lacksRecentPayment now (App.accounts s) (App.transactions s) A)
  /\ (forall payment start,
        windowStart now = Some start -> start <= now ->
        Transaction.direction payment = POSITIVE ->
        Transaction.accountId payment = Account.id A ->
        Transaction.date payment = Some now ->
        ~ lacksRecentPayment now (App.accounts (addTransaction payment s))
                             (App.transactions (addTransaction payment s)) A).
Proof.
  split; [|split].
  - rewrite lacksRecentPayment_iff. split; intros [Ha Hnone]; (split; [exact Ha|]).
    + intros (t & time & start & Ht & Hdir & Hid & Hdate & Hstart & Hle).
      apply Hnone. exists t. split; [|split; assumption].
      apply recentTransactions_In. split; [exact Ht|]. now exists time, start.
    + intros (t & Ht & Hdir & Hid).
      apply recentTransactions_In in Ht as (Ht & time & start & Hdate & Hstart & Hle).
      apply Hnone. now exists t, time, start.
  - intros Ha Hnone. apply lacksRecentPayment_iff. split; [exact Ha|].
    intros (t & Ht & _ & Hid). apply recentTransactions_In in Ht as [Ht _].
    exact (Hnone t Ht Hid).
  - intros payment start Hstart Hle Hdir Hid Hdate Hlacks.
    apply lacksRecentPayment_iff in Hlacks as [_ Hnone]. apply Hnone.
    exists payment. split; [|split; assumption].
    apply recentTransactions_In. split.
    + simpl. now left.
    + now exists now, start.
Qed.

(** C5: an account whose only payment is dated one day after the evaluation
    time has no payment in the thirty days that end at the evaluation time,
    and yet it is not listed among the accounts without a recent payment;
    without that payment it is listed. *)
Theorem future_payment_counts_as_recent :
  @accountsWithoutRecentPayments
    (accountSummaries [educationLoan] [paymentTomorrow])
    (@recentTransactions utc evaluationTime [paymentTomorrow]) = []
  /\ Transaction.date paymentTomorrow = Some (evaluationTime + msPerDay)
  /\ ~ (evaluationTime - 30 * msPerDay <= evaluationTime + msPerDay <= evaluationTime)
  /\ @accountsWithoutRecentPayments
       (accountSummaries [educationLoan] [])
       (@recentTransactions utc evaluationTime [])
     = [Summary.make educationLoan 54000].
Proof.
  split; [|split; [|split]].
  - vm_compute. reflexivity.
  - reflexivity.
  - unfold evaluationTime, msPerDay. lia.
  - vm_compute. reflexivity.
Qed.

(** ** Highest debt *)

Lemma highestDebtAccount_snoc
  (accounts : list Account) (e : Account) (transactions : list Transaction) :
  highestDebtAccount (accountSummaries (accounts ++ [e]) transactions)
  = match highestDebtAccount (accountSummaries accounts transactions) with
    | None => Some (Highest.make e (clampedDebt transactions e))
    | Some best =>
        if gt (clampedDebt transactions e) (Highest.debt best)
        then Some (Highest.make e (clampedDebt transactions e))
        else Some best
    end.
Proof.
  unfold highestDebtAccount, accountSummaries.
  rewrite map_app, fold_left_app. simpl.
  destruct (fold_left _ _ None); reflexivity.
Qed.

Lemma highestDebtAccount_invariant
  (accounts : list Account) (transactions : list Transaction) :
  balancesAreNumbers accounts transactions ->
  accounts <> [] ->
  exists pre A post,
    accounts = pre ++ A :: post
    /\ highestDebtAccount (accountSummaries accounts transactions)
       = Some (Highest.make A (clampedDebt transactions A))
    /\ (forall x, In x pre ->
          gt (clampedDebt transactions A) (clampedDebt transactions x) = true)
    /\ (forall x, In x post ->
          ge (clampedDebt transactions A) (clampedDebt transactions x) = true).
Proof.
  induction accounts as [|e l IH] using rev_ind; intros Hfin Hne; [congruence|].
  assert (Hd : forall x, In x (l ++ [e]) -> nonneg (clampedDebt transactions x)).
  { intros x Hx. now apply (clampedDebt_nonneg (l ++ [e])). }
  rewrite highestDebtAccount_snoc.
  destruct l as [|a l'].
  - exists [], e, []. simpl. repeat split; intros x [].
  - assert (Hfin' : balancesAreNumbers (a :: l') transactions).
    { unfold balancesAreNumbers in *. now apply Forall_app in Hfin as [Hacc _]. }
    destruct (IH Hfin' ltac:(discriminate)) as (pre & A & post & Heq & Hres & Hpre & Hpost).
    rewrite Hres. simpl Highest.debt.
    assert (HA : In A (a :: l')) by (rewrite Heq; apply in_elt).
    assert (Hin : forall x, In x (a :: l') -> In x ((a :: l') ++ [e])).
    { intros x Hx. apply in_or_app. now left. }
    assert (He : In e ((a :: l') ++ [e])) by (apply in_or_app; right; now left).
    destruct (gt (clampedDebt transactions e) (clampedDebt transactions A)) eqn:Hgt.
    + exists (a :: l'), e, []. repeat split; [|intros x []].
      intros x Hx. rewrite Heq in Hx. apply in_app_or in Hx as [Hx|[<-|Hx]].
      * apply (gt_trans _ (clampedDebt transactions A)); auto;
          apply Hd, Hin; try exact HA; rewrite Heq; apply in_or_app; simpl; tauto.
      * exact Hgt.
      * apply (ge_gt_trans _ (clampedDebt transactions A)); auto;
          apply Hd, Hin; try exact HA; rewrite Heq; apply in_or_app; simpl; tauto.
    + exists pre, A, (post ++ [e]). repeat split.
      * rewrite Heq. now rewrite <- app_assoc.
      * exact Hpre.
      * intros x Hx. apply in_app_or in Hx as [Hx|[<-|[]]]; [now apply Hpost|].
        apply gt_false_ge; auto.
Qed.

Lemma highestDebtAccount_some
  (accounts : list Account) (transactions : list Transaction) :
  accounts <> [] ->
  exists A,
    In A accounts
    /\ highestDebtAccount (accountSummaries accounts transactions)
       = Some (Highest.make A (mathMax (getBalance A transactions) 0%float)).
Proof.
  induction accounts as [|e l IH] using rev_ind; intros Hne; [congruence|].
  rewrite highestDebtAccount_snoc.
  destruct l as [|a l'].
  - exists e. split; [now left|reflexivity].
  - destruct (IH ltac:(discriminate)) as (A & HA & Hres). rewrite Hres.
    cbn [Highest.debt].
    destruct (gt (clampedDebt transactions e) _).
    + exists e. split; [apply in_or_app; right; now left|reflexivity].
    + exists A. split; [apply in_or_app; now left|reflexivity].
Qed.

Lemma highestDebtAccount_settled
  (first : Account) (rest : list Account) (transactions : list Transaction) :
  (forall x, In x (first :: rest) ->
     PrimFloat.leb (getBalance x transactions) 0%float = true) ->
  highestDebtAccount (accountSummaries (first :: rest) transactions)
  = Some (Highest.make first 0%float).
Proof.
  intros Hall. unfold highestDebtAccount, accountSummaries. cbn [map fold_left Summary.balance
    Summary.account].
  rewrite (mathMax_nonpositive _ (Hall first (or_introl eq_refl))).
  assert (Hrest : forall x, In x rest ->
                    mathMax (getBalance x transactions) 0%float = 0%float).
  { intros x Hx. apply mathMax_nonpositive, Hall. now right. }
  clear Hall. induction rest as [|x rest IH]; [reflexivity|].
  cbn [map fold_left Summary.balance Summary.account Highest.debt].
  rewrite (Hrest x (or_introl eq_refl)).
  change (gt 0%float 0%float) with false. cbn iota.
  apply IH. intros y Hy. apply Hrest. now right.
Qed.

(** C10, as stated, fails: when a balance is NaN the account returned
    need not be one whose clamped balance is the largest, and which account
    is returned depends on the order of the collection in a way that the
    balances do not explain.  With a starting debt of [Infinity] paid by
    [Infinity] the first account is returned with the debt NaN, although
    the second owes 54000; in the other order the loan of 54000 is
    returned. *)
Lemma highest_debt_with_a_NaN_balance :
  highestDebtAccount (accountSummaries [boundlessLoan; educationLoan] [boundlessPayment])
  = Some (Highest.make boundlessLoan nan)
  /\ mathMax (getBalance educationLoan [boundlessPayment]) 0 = 54000%float
  /\ ge nan 54000 = false
  /\ highestDebtAccount (accountSummaries [educationLoan; boundlessLoan] [boundlessPayment])
     = Some (Highest.make educationLoan 54000).
Proof. repeat split; reflexivity. Qed.

(** C10, amended: for a non-empty account collection the highest-debt
    aggregate is some account of the collection, reported with its balance
    clamped at zero; when no balance is NaN (as when every stored number is
    finite) it is the first one, in collection order, whose clamped balance
    is the largest; and when no balance is above zero it is the first
    account of the collection, with debt 0. *)
Theorem highestDebtAccount_first_maximum
  (accounts : list Account) (transactions : list Transaction) :
  accounts <> [] ->
  (exists A,
      In A accounts
      /\ highestDebtAccount (accountSummaries accounts transactions)
         = Some (Highest.make A (mathMax (getBalance A transactions) 0%float)))
  /\ (balancesAreNumbers accounts transactions ->
      exists pre A post,
        accounts = pre ++ A :: post
        /\ highestDebtAccount (accountSummaries accounts transactions)
           = Some (Highest.make A (mathMax (getBalance A transactions) 0%float))
        /\ (forall x, In x accounts ->
              ge (mathMax (getBalance A transactions) 0%float)
                 (mathMax (getBalance x transactions) 0%float) = true)
        /\ (forall x, In x pre ->
              gt (mathMax (getBalance A transactions) 0%float)
                 (mathMax (getBalance x transactions) 0%float) = true))
  /\ (finiteNumbers accounts transactions -> balancesAreNumbers accounts transactions)
  /\ ((forall x, In x accounts ->
         PrimFloat.leb (getBalance x transactions) 0%float = true) ->
      exists first rest,
        accounts = first :: rest
        /\ highestDebtAccount (accountSummaries accounts transactions)
           = Some (Highest.make first 0%float)).
Proof.
  intros Hne. split; [now apply highestDebtAccount_some|]. split; [|split].
  - intros Hfin.
    destruct (highestDebtAccount_invariant accounts transactions Hfin Hne)
      as (pre & A & post & Heq & Hres & Hpre & Hpost).
    exists pre, A, post. split; [exact Heq|]. split; [exact Hres|].
    assert (HA : In A accounts) by (rewrite Heq; apply in_elt).
    split; [|exact Hpre].
    intros x Hx. rewrite Heq in Hx. apply in_app_or in Hx as [Hx|[<-|Hx]].
    + now apply gt_ge, Hpre.
    + apply ge_refl. now apply (clampedDebt_nonneg accounts transactions).
    + now apply Hpost.
  - apply finiteNumbers_balances.
  - intros Hall. destruct accounts as [|first rest]; [congruence|].
    exists first, rest. split; [reflexivity|].
    now apply highestDebtAccount_settled.
Qed.

Lemma highestDebtAccount_first_maximum_witness :
  (exists pre A post,
      [everydayCard; educationLoan] = pre ++ A :: post
      /\ highestDebtAccount
           (accountSummaries [everydayCard; educationLoan] [groceries; overpayment])
         = Some (Highest.make A (mathMax (getBalance A [groceries; overpayment]) 0%float)))
  /\ highestDebtAccount
       (accountSummaries [educationLoan; everydayCard] [overpayment; settlement])
     = Some (Highest.make educationLoan 0%float).
Proof.
  split.
  - destruct (highestDebtAccount_first_maximum [everydayCard; educationLoan]
                [groceries; overpayment] ltac:(discriminate))
      as (_ & Hmax & Hfinite & _).
    destruct Hmax as (pre & A & post & Heq & Hres & _);
      [apply Hfinite; split; repeat constructor|].
    exists pre, A, post. split; assumption.
  - destruct (highestDebtAccount_first_maximum [educationLoan; everydayCard]
                [overpayment; settlement] ltac:(discriminate))
      as (_ & _ & _ & Hsettled).
    destruct Hsettled as (first & rest & Heq & Hres).
    + intros x [<-|[<-|[]]]; reflexivity.
    + injection Heq as <- <-. exact Hres.
Defined.

Example highestDebtAccount_sample :
  highestDebtAccount
    (accountSummaries [everydayCard; educationLoan] [groceries; overpayment])
  = Some (Highest.make everydayCard 14500%float).
Proof. reflexivity. Qed.

(** ** Mutations *)

(** C3: [deleteAccount d] keeps, in both collections and in one state
    transition, exactly the entries that do not refer to [d]: the accounts
    whose [id] differs from [d] and the transactions whose [accountId]
    differs from [d], each list in its original order. *)
Theorem deleteAccount_cascade (d : string) (s : App.state) :
  App.accounts (deleteAccount d s)
  = base.filter (fun account => Account.id account <> d) (App.accounts s)
  /\ App.transactions (deleteAccount d s)
     = base.filter (fun transaction => Transaction.accountId transaction <> d)
                   (App.transactions s)
  /\ (forall account,
        In account (App.accounts (deleteAccount d s))
        <-> In account (App.accounts s) /\ Account.id account <> d)
  /\ (forall transaction,
        In transaction (App.transactions (deleteAccount d s))
        <-> In transaction (App.transactions s) /\ Transaction.accountId transaction <> d)
  /\ sublist (App.accounts (deleteAccount d s)) (App.accounts s)
  /\ sublist (App.transactions (deleteAccount d s)) (App.transactions s).
Proof.
  destruct s as [accounts transactions]. unfold deleteAccount, setTransactions, setAccounts.
  simpl.
  assert (Ha : filter (fun account => negb (String.eqb (Account.id account) d)) accounts
               = base.filter (fun account => Account.id account <> d) accounts).
  { induction accounts as [|a l IH]; [reflexivity|]. simpl.
    rewrite filter_cons. destruct (String.eqb_spec (Account.id a) d) as [E|E]; simpl.
    - rewrite decide_False by (intros H; now apply H). exact IH.
    - rewrite decide_True by exact E. now rewrite IH. }
  assert (Ht : filter (fun t => negb (String.eqb (Transaction.accountId t) d)) transactions
               = base.filter (fun t => Transaction.accountId t <> d) transactions).
  { induction transactions as [|a l IH]; [reflexivity|]. simpl.
    rewrite filter_cons. destruct (String.eqb_spec (Transaction.accountId a) d) as [E|E]; simpl.
    - rewrite decide_False by (intros H; now apply H). exact IH.
    - rewrite decide_True by exact E. now rewrite IH. }
  split; [exact Ha|]. split; [exact Ht|].
  split; [|split; [|split]].
  - intros a. rewrite filter_In, negb_true_iff, String.eqb_neq. reflexivity.
  - intros t. rewrite filter_In, negb_true_iff, String.eqb_neq. reflexivity.
  - rewrite Ha. apply sublist_filter.
  - rewrite Ht. apply sublist_filter.
Qed.

(** Deleting an account leaves the balance of every other account as it
    was. *)
Lemma deleteAccount_preserves_other_balances
  (d : string) (s : App.state) (A : Account) :
  Account.id A <> d ->
  getBalance A (App.transactions (deleteAccount d s))
  = getBalance A (App.transactions s).
Proof.
  intros Hne. destruct s as [accounts transactions]. unfold getBalance. simpl. f_equal.
  induction transactions as [|t l IH]; [reflexivity|]. simpl.
  destruct (String.eqb_spec (Transaction.accountId t) d) as [Ed|Ed]; simpl.
  - destruct (String.eqb_spec (Transaction.accountId t) (Account.id A)) as [EA|EA];
      [congruence|exact IH].
  - now rewrite IH.
Qed.

(** ** The persistence adapter *)

(** What the two functions of the adapter do, case by case. *)
Lemma saveToStorage_run {T} `{JSON T} (key : StorageKey) (value : T) (w : World) :
  saveToStorage key value w
  = match localStorage w with
    | None => (Normal tt, w)
    | Some store =>
        if blocked store
        then (Throw "SecurityError", w)
        else if (quota store <? N.of_nat (String.length (JSON_stringify value)))%N
        then (Normal tt,
              {| localStorage := Some store;
                 console := (("Failed to save " ++ storageKeys key ++ " to storage")
                             ++ " " ++ "QuotaExceededError")%string :: console w |})
        else (Normal tt,
              {| localStorage :=
                   Some {| items := <[storageKeys key := JSON_stringify value]> (items store);
                           blocked := blocked store;
                           quota := quota store |};
                 console := console w |})
    end.
Proof.
  destruct w as [ls log].
  unfold saveToStorage, bind, tryCatch, typeofLocalStorageUndefined, setItem, consoleWarn, ret.
  simpl. destruct ls as [store|]; [|reflexivity]. simpl.
  destruct (blocked store) eqn:Hb; simpl; [reflexivity|]. rewrite Hb.
  destruct (quota store <? _)%N; reflexivity.
Qed.

Lemma loadFromStorage_run {T} `{JSON T} (key : StorageKey) (fallback : T) (w : World) :
  loadFromStorage key fallback w
  = match localStorage w with
    | None => (Normal fallback, w)
    | Some store =>
        if blocked store
        then (Throw "SecurityError", w)
        else match items store !! storageKeys key with
             | None => (Normal fallback, w)
             | Some text =>
                 if truthy text
                 then match JSON_parse text with
                      | Some value => (Normal value, w)
                      | None =>
                          (Normal fallback,
                           {| localStorage := Some store;
                              console :=
                                (("Failed to read " ++ storageKeys key ++ " from storage")
                                 ++ " " ++ "SyntaxError")%string :: console w |})
                      end
                 else (Normal fallback, w)
             end
    end.
Proof.
  destruct w as [ls log].
  unfold loadFromStorage, bind, tryCatch, typeofLocalStorageUndefined, getItem, parseJSON,
    consoleWarn, ret, throw.
  simpl. destruct ls as [store|]; [|reflexivity]. simpl.
  destruct (blocked store) eqn:Hb; simpl; [reflexivity|]. rewrite Hb.
  destruct (items store !! storageKeys key) as [text|]; [|reflexivity].
  destruct (truthy text); [|reflexivity].
  destruct (JSON_parse text); reflexivity.
Qed.

Lemma storageKeys_inj (k k' : StorageKey) : storageKeys k = storageKeys k' -> k = k'.
Proof. destruct k, k'; simpl; intros E; try reflexivity; discriminate. Qed.

(** C9: [loadFromStorage] throws where the browser denies access to
    storage: the [typeof] guard reads [localStorage] before the [try], and
    the SecurityError of that read reaches the caller.  Everywhere else it
    completes normally, with the caller's fallback when the storage facility
    is absent, when the key is missing and when the stored text does not
    deserialize. *)
Theorem loadFromStorage_throws_where_access_is_denied
  {T} `{JSON T} (key : StorageKey) (fallback : T) (w : World) :
  match localStorage w with
  | None => loadFromStorage key fallback w = (Normal fallback, w)
  | Some store =>
      if blocked store
      then loadFromStorage key fallback w = (Throw "SecurityError", w)
      else exists (value : T) (w' : World),
             loadFromStorage key fallback w = (Normal value, w')
             /\ (items store !! storageKeys key = None -> value = fallback)
             /\ (forall text, items store !! storageKeys key = Some text ->
                   JSON_parse text = None -> value = fallback)
  end.
Proof.
  rewrite loadFromStorage_run.
  destruct (localStorage w) as [store|]; [|reflexivity].
  destruct (blocked store); [reflexivity|].
  destruct (items store !! storageKeys key) as [text|] eqn:Hget.
  2:{ exists fallback, w. repeat split; intros; congruence. }
  destruct (truthy text) eqn:Htruthy.
  2:{ exists fallback, w. repeat split; intros; congruence. }
  destruct (JSON_parse text) as [value|] eqn:Hparse.
  - exists value, w. split; [reflexivity|]. split; [discriminate|].
    intros text' [= <-] Hfail. congruence.
  - eexists fallback, _. split; [reflexivity|]. split; intros; reflexivity.
Qed.

(** The JSON value of an entity reads back as the entity when JSON holds
    its number as it is. *)
Lemma numberToJSON_storable (x : number) : storableNumber x -> numberToJSON x = JNumber x.
Proof. intros [Hfinite Hzero]. unfold numberToJSON. now rewrite Hfinite, Hzero. Qed.

Lemma accountOfJSON_toJSON (account : Account) :
  storableNumber (Account.startingDebt account) ->
  accountOfJSON (accountToJSON account) = Some account.
Proof.
  intros Hnumber. destruct account as [id name type bankName [] startingDebt createdAt notes].
  unfold accountToJSON. cbn [Account.startingDebt] in *. rewrite (numberToJSON_storable _ Hnumber).
  destruct type; reflexivity.
Qed.

Lemma transactionOfJSON_toJSON `{Platform} (transaction : Transaction) :
  storableNumber (Transaction.amount transaction) ->
  parseDate (dateText (Transaction.date transaction)) = Transaction.date transaction ->
  transactionOfJSON (transactionToJSON transaction) = Some transaction.
Proof.
  intros Hnumber Hdate.
  destruct transaction as [id accountId date amount direction category description].
  unfold transactionToJSON. cbn [Transaction.amount Transaction.date] in *.
  rewrite (numberToJSON_storable _ Hnumber).
  destruct direction; cbn; now rewrite Hdate.
Qed.

Lemma elementsOfJSON_map {T} `{JSONShape T} (l : list T) :
  Forall (fun x => ofJSON (toJSON x) = Some x) l ->
  elementsOfJSON ofJSON (map toJSON l) = Some l.
Proof.
  induction 1 as [|x l Hx _ IH]; [reflexivity|].
  cbn [map elementsOfJSON]. now rewrite Hx, IH.
Qed.

Lemma asLoaded_accounts (accounts : list Account) :
  storableAccounts accounts -> asLoaded (toJSON accounts) = Typed accounts.
Proof.
  intros Hall. unfold asLoaded. cbn [toJSON ofJSON list_shape].
  rewrite elementsOfJSON_map; [reflexivity|].
  eapply Forall_impl; [|exact Hall]. intros account. apply accountOfJSON_toJSON.
Qed.

Lemma asLoaded_transactions `{Platform} (transactions : list Transaction) :
  storableTransactions transactions -> asLoaded (toJSON transactions) = Typed transactions.
Proof.
  intros Hall. unfold asLoaded. cbn [toJSON ofJSON list_shape].
  rewrite elementsOfJSON_map; [reflexivity|].
  eapply Forall_impl; [|exact Hall]. intros transaction [Hnumber Hdate].
  now apply transactionOfJSON_toJSON.
Qed.

(** Loading a key after a save that the store accepted yields what
    [JSON.parse] reads from the text written. *)
Lemma load_after_save {T} `{JSON T} (key : StorageKey) (Y fallback : T)
  (store : Storage) (log : list string) :
  accepts store (JSON_stringify Y) ->
  fst (loadFromStorage key fallback
         (snd (saveToStorage key Y {| localStorage := Some store; console := log |})))
  = Normal (if truthy (JSON_stringify Y)
            then default fallback (JSON_parse (JSON_stringify Y))
            else fallback).
Proof.
  intros [Hb Hq]. apply N.ltb_ge in Hq.
  rewrite saveToStorage_run. cbn [localStorage]. rewrite Hb, Hq. cbn [snd].
  rewrite loadFromStorage_run. cbn [localStorage blocked items]. rewrite ?Hb.
  rewrite lookup_insert_eq.
  destruct (truthy (JSON_stringify Y)); [|reflexivity].
  destruct (JSON_parse (JSON_stringify Y)); reflexivity.
Qed.





(** * Further properties of the code *)

(** ** The persistence adapter: failures, keys and overwriting *)

(** What [loadFromStorage] returns depends on the store only, not on what
    the console holds. *)
Lemma loadFromStorage_same_store {T} `{JSON T} (key : StorageKey) (fallback : T)
  (w1 w2 : World) :
  localStorage w1 = localStorage w2 ->
  fst (loadFromStorage key fallback w1) = fst (loadFromStorage key fallback w2).
Proof.
  intros Hsame. rewrite !loadFromStorage_run, Hsame.
  destruct (localStorage w2) as [store|]; [|reflexivity].
  destruct (blocked store); [reflexivity|].
  destruct (items store !! storageKeys key) as [text|]; [|reflexivity].
  destruct (truthy text); [|reflexivity].
  destruct (JSON_parse text); reflexivity.
Qed.

(** X1: [saveToStorage] throws where the browser denies access to storage
    (the SecurityError of the [typeof] guard, which stands before the
    [try]), and changes nothing then.  Everywhere else it completes
    normally: without a storage facility it changes nothing; when the text
    exceeds the quota the stored items stay as they were and one warning is
    logged; otherwise exactly the written key changes and nothing is
    logged. *)
Theorem saveToStorage_swallows_failures
  {T} `{JSON T} (key : StorageKey) (value : T) (w : World) :
  match localStorage w with
  | None => saveToStorage key value w = (Normal tt, w)
  | Some store =>
      if blocked store
      then saveToStorage key value w = (Throw "SecurityError", w)
      else exists w',
             saveToStorage key value w = (Normal tt, w')
             /\ ((quota store < N.of_nat (String.length (JSON_stringify value)))%N ->
                 localStorage w' = Some store
                 /\ exists line, console w' = line :: console w)
             /\ ((N.of_nat (String.length (JSON_stringify value)) <= quota store)%N ->
                 console w' = console w
                 /\ exists store',
                     localStorage w' = Some store'
                     /\ items store' !! storageKeys key = Some (JSON_stringify value)
                     /\ forall other, other <> storageKeys key ->
                          items store' !! other = items store !! other)
  end.
Proof.
  rewrite saveToStorage_run.
  destruct (localStorage w) as [store|]; [|reflexivity].
  destruct (blocked store); [reflexivity|].
  destruct (quota store <? _)%N eqn:Hq.
  - apply N.ltb_lt in Hq. eexists. split; [reflexivity|]. split.
    + intros _. cbn [localStorage console]. eauto.
    + intros Hle. lia.
  - apply N.ltb_ge in Hq. eexists. split; [reflexivity|]. split.
    + intros Hlt. lia.
    + intros _. cbn [localStorage console]. split; [reflexivity|].
      eexists. split; [reflexivity|]. cbn [items]. split.
      * apply lookup_insert_eq.
      * intros other Hne. apply lookup_insert_ne. congruence.
Qed.

(** X2: [loadFromStorage] never writes to the store, and it logs a
    warning (one line) only when the stored text does not parse; where it
    throws nothing is logged. *)
Theorem loadFromStorage_read_only
  {T} `{JSON T} (key : StorageKey) (fallback : T) (w : World) :
  localStorage (snd (loadFromStorage key fallback w)) = localStorage w
  /\ (console (snd (loadFromStorage key fallback w)) = console w
      \/ (exists line,
             console (snd (loadFromStorage key fallback w)) = line :: console w)
         /\ exists store text,
             localStorage w = Some store
             /\ blocked store = false
             /\ items store !! storageKeys key = Some text
             /\ JSON_parse text = None).
Proof.
  rewrite loadFromStorage_run.
  destruct (localStorage w) as [store|] eqn:Hls; [|split; [simpl; congruence|now left]].
  destruct (blocked store) eqn:Hb; [split; [simpl; congruence|now left]|].
  destruct (items store !! storageKeys key) as [text|] eqn:Hget;
    [|split; [simpl; congruence|now left]].
  destruct (truthy text); [|split; [simpl; congruence|now left]].
  destruct (JSON_parse text) eqn:Hparse; [split; [simpl; congruence|now left]|].
  simpl. split; [reflexivity|]. right. split; [eauto|].
  exists store, text. auto.
Qed.

(** X3: saving under one key never changes what is loaded under another
    key, whether the write goes through or not. *)
Theorem saveToStorage_other_key
  {T U} `{JSON T} `{JSON U} (k k' : StorageKey) (value : T) (fallback : U) (w : World) :
  k <> k' ->
  fst (loadFromStorage k' fallback (snd (saveToStorage k value w)))
  = fst (loadFromStorage k' fallback w).
Proof.
  intros Hne. rewrite saveToStorage_run.
  destruct (localStorage w) as [store|] eqn:Hls; [|reflexivity].
  destruct (blocked store) eqn:Hb; [reflexivity|].
  destruct (quota store <? _)%N; cbn [snd].
  - apply loadFromStorage_same_store. cbn [localStorage]. now rewrite Hls.
  - rewrite !loadFromStorage_run, Hls. cbn [localStorage blocked items]. rewrite Hb.
    rewrite lookup_insert_ne by (intros E; apply Hne; now apply storageKeys_inj).
    destruct (items store !! storageKeys k') as [text|]; [|reflexivity].
    destruct (truthy text); [|reflexivity].
    destruct (JSON_parse text); reflexivity.
Qed.

Lemma saveToStorage_other_key_witness :
  fst (@loadFromStorage _ sampleTransactionsJSON transactionsKey (Typed [groceries])
         (snd (@saveToStorage _ sampleAccountsJSON accountsKey (Typed [everydayCard])
                 {| localStorage := Some emptyStore; console := [] |})))
  = Normal (Typed [groceries]).
Proof.
  rewrite (@saveToStorage_other_key _ _ sampleAccountsJSON sampleTransactionsJSON
             accountsKey transactionsKey);
    [reflexivity|discriminate].
Defined.

(** X4: writes are fire-and-forget.  A save that the store refuses for the
    size of the text leaves what is loaded, under every key, as it was; a
    save that the store accepts replaces what the key held: what is loaded
    afterwards is the same whatever the store held before. *)
Theorem saveToStorage_overwrite
  {T} `{JSON T} (key : StorageKey) (Y fallback : T) (store : Storage) (log : list string) :
  ((quota store < N.of_nat (String.length (JSON_stringify Y)))%N ->
   forall k',
     fst (loadFromStorage k' fallback
            (snd (saveToStorage key Y {| localStorage := Some store; console := log |})))
     = fst (loadFromStorage k' fallback {| localStorage := Some store; console := log |}))
  /\ (accepts store (JSON_stringify Y) ->
      forall store' log',
        accepts store' (JSON_stringify Y) ->
        fst (loadFromStorage key fallback
               (snd (saveToStorage key Y {| localStorage := Some store; console := log |})))
        = fst (loadFromStorage key fallback
                 (snd (saveToStorage key Y
                         {| localStorage := Some store'; console := log' |})))).
Proof.
  split.
  - intros Hq k'. apply N.ltb_lt in Hq.
    rewrite saveToStorage_run. cbn [localStorage].
    destruct (blocked store); [reflexivity|]. rewrite Hq. cbn [snd].
    now apply loadFromStorage_same_store.
  - intros Haccepts store' log' Haccepts'.
    now rewrite !load_after_save.
Qed.

Lemma saveToStorage_overwrite_witness :
  fst (@loadFromStorage _ sampleAccountsJSON accountsKey (Typed [])
         (snd (@saveToStorage _ sampleAccountsJSON accountsKey (Typed [boundlessLoan; everydayCard; educationLoan])
                 {| localStorage :=
                      Some {| items :=
                                <[storageKeys accountsKey :=
                                    @JSON_stringify _ sampleAccountsJSON
                                      (Typed [everydayCard; educationLoan])]> ∅;
                              blocked := false; quota := 500 |};
                    console := [] |})))
  = Normal (Typed [everydayCard; educationLoan]).
Proof.
  rewrite (proj1 (@saveToStorage_overwrite _ sampleAccountsJSON accountsKey
                    (Typed [boundlessLoan; everydayCard; educationLoan]) (Typed [])
                    {| items :=
                         <[storageKeys accountsKey :=
                             @JSON_stringify _ sampleAccountsJSON
                               (Typed [everydayCard; educationLoan])]> ∅;
                       blocked := false; quota := 500 |} [])).
  - vm_compute. reflexivity.
  - vm_compute. reflexivity.
Defined.

(** ** Legacy import *)

Lemma pushLegacyItems_app `{Platform} (elements : list JSONValue) (saved : list string) :
  fold_left pushLegacyItem elements saved
  = saved ++ fold_left pushLegacyItem elements [].
Proof.
  revert saved. induction elements as [|item rest IH]; intros saved; simpl.
  - now rewrite app_nil_r.
  - rewrite IH. rewrite (IH (pushLegacyItem [] item)).
    unfold pushLegacyItem. destruct (textOf item) as [text|]; [|reflexivity].
    destruct (truthy (trim text)); [|reflexivity].
    simpl. now rewrite <- app_assoc.
Qed.

(** The notes taken from an array: the trimmed texts of its items, where
    an item has a text and the trimmed text is not empty. *)
Lemma pushLegacyItems_In `{Platform} (elements : list JSONValue) (note : string) :
  In note (fold_left pushLegacyItem elements [])
  <-> exists item itemText,
        In item elements
        /\ textOf item = Some itemText
        /\ truthy (trim itemText) = true
        /\ note = trim itemText.
Proof.
  induction elements as [|item rest IH]; simpl.
  - split; [intros []|intros (? & ? & [] & _)].
  - rewrite pushLegacyItems_app, in_app_iff, IH. split.
    + intros [Hhere | (item' & text' & Hin & Hrest)].
      * unfold pushLegacyItem in Hhere.
        destruct (textOf item) as [text|] eqn:Htext; [|destruct Hhere].
        destruct (truthy (trim text)) eqn:Htruthy; [|destruct Hhere].
        destruct Hhere as [<- | []]. exists item, text. auto.
      * exists item', text'. auto.
    + intros (item' & text' & [<- | Hin] & Htext & Htruthy & ->).
      * left. unfold pushLegacyItem. rewrite Htext, Htruthy. now left.
      * right. exists item', text'. auto.
Qed.

Lemma legacyTexts_In `{Platform} `{JSON JSONValue}
  (store : Storage) (key : string) (note : string) :
  In note (legacyTexts store key)
  <-> exists text elements item itemText,
        items store !! key = Some text
        /\ truthy text = true
        /\ JSON_parse text = Some (JArray elements)
        /\ In item elements
        /\ textOf item = Some itemText
        /\ truthy (trim itemText) = true
        /\ note = trim itemText.
Proof.
  unfold legacyTexts. split.
  - destruct (items store !! key) as [text|]; [|intros []].
    destruct (truthy text) eqn:Htruthy; [|intros []].
    destruct (JSON_parse text) as [[| | | |elements|]|] eqn:Hparse; try (intros []).
    intros Hin. apply pushLegacyItems_In in Hin as (item & itemText & Hitem).
    exists text, elements, item, itemText. auto.
  - intros (text & elements & item & itemText & -> & -> & -> & Hitem).
    apply pushLegacyItems_In. eauto.
Qed.

Lemma collectLegacyKey_run `{Platform} `{JSON JSONValue}
  (key : string) (saved : list string) (store : Storage) (log : list string) :
  exists log',
    collectLegacyKey key saved {| localStorage := Some store; console := log |}
    = (Normal (if blocked store then saved else saved ++ legacyTexts store key),
       {| localStorage := Some store; console := log' |}).
Proof.
  unfold collectLegacyKey, legacyTexts, bind, tryCatch, getItem, parseJSON, consoleWarn, ret,
    throw. simpl.
  destruct (blocked store); [eauto|].
  destruct (items store !! key) as [text|]; simpl; [|rewrite app_nil_r; eauto].
  destruct (truthy text); simpl; [|rewrite app_nil_r; eauto].
  destruct (JSON_parse text) as [[]|]; simpl; rewrite ?app_nil_r; eauto.
  rewrite pushLegacyItems_app. eauto.
Qed.

Lemma collectLegacyNotes_run `{Platform} `{JSON JSONValue}
  (store : Storage) (log : list string) :
  blocked store = false ->
  exists log',
    collectLegacyNotes {| localStorage := Some store; console := log |}
    = (Normal (legacyTexts store legacyKeys_todos ++ legacyTexts store legacyKeys_notes),
       {| localStorage := Some store; console := log' |}).
Proof.
  intros Hb. unfold collectLegacyNotes, bind, typeofLocalStorageUndefined.
  cbn [localStorage]. rewrite Hb.
  destruct (collectLegacyKey_run legacyKeys_todos [] store log) as [log1 Hrun1].
  rewrite Hrun1, Hb.
  destruct (collectLegacyKey_run legacyKeys_notes
              ([] ++ legacyTexts store legacyKeys_todos) store log1) as [log2 Hrun2].
  rewrite Hrun2, Hb. eauto.
Qed.

(** X5: [collectLegacyNotes] throws where the browser denies access to
    storage (its [typeof] guard stands before the [try]) and returns no
    note when there is no storage facility.  Everywhere else it completes
    normally and never writes to the store, and the notes it returns are
    exactly the trimmed texts, where not empty, of the items of the arrays
    stored under the two legacy keys. *)
Theorem collectLegacyNotes_safe `{Platform} `{JSON JSONValue} (w : World) :
  match localStorage w with
  | None => collectLegacyNotes w = (Normal [], w)
  | Some store =>
      if blocked store
      then collectLegacyNotes w = (Throw "SecurityError", w)
      else exists notes w',
             collectLegacyNotes w = (Normal notes, w')
             /\ localStorage w' = localStorage w
             /\ forall note,
                  In note notes
                  <-> exists key text elements item itemText,
                        (key = legacyKeys_todos \/ key = legacyKeys_notes)
                        /\ items store !! key = Some text
                        /\ truthy text = true
                        /\ JSON_parse text = Some (JArray elements)
                        /\ In item elements
                        /\ textOf item = Some itemText
                        /\ truthy (trim itemText) = true
                        /\ note = trim itemText
  end.
Proof.
  destruct w as [[store|] log]; cbn [localStorage]; [|reflexivity].
  destruct (blocked store) eqn:Hb.
  { unfold collectLegacyNotes, bind, typeofLocalStorageUndefined. cbn [localStorage].
    now rewrite Hb. }
  destruct (collectLegacyNotes_run store log Hb) as [log' Hrun].
  eexists. eexists. split; [exact Hrun|]. split; [reflexivity|].
  intros note. rewrite in_app_iff, !legacyTexts_In. split.
  - intros [(text & elements & item & itemText & Hitem)
           | (text & elements & item & itemText & Hitem)].
    + exists legacyKeys_todos, text, elements, item, itemText. auto.
    + exists legacyKeys_notes, text, elements, item, itemText. auto.
  - intros (key & text & elements & item & itemText & [-> | ->] & Hitem).
    + left. exists text, elements, item, itemText. exact Hitem.
    + right. exists text, elements, item, itemText. exact Hitem.
Qed.

(** X6: with a store that can be read, the legacy notes are what the todos
    key contributes followed by what the notes key contributes; a key that
    is missing, empty, not parsable or not an array contributes nothing and
    does not keep the other key from being read. *)
Theorem collectLegacyNotes_per_key
  `{Platform} `{JSON JSONValue} (store : Storage) (log : list string) :
  blocked store = false ->
  fst (collectLegacyNotes {| localStorage := Some store; console := log |})
  = Normal (legacyTexts store legacyKeys_todos ++ legacyTexts store legacyKeys_notes).
Proof.
  intros Hb. destruct (collectLegacyNotes_run store log Hb) as [log' Hrun].
  now rewrite Hrun.
Qed.

Lemma collectLegacyNotes_per_key_witness :
  fst (@collectLegacyNotes samplePlatform sampleLegacyJSON
         {| localStorage := Some legacyStore; console := [] |})
  = Normal ["buy milk"%string].
Proof.
  rewrite (@collectLegacyNotes_per_key samplePlatform sampleLegacyJSON legacyStore []);
    reflexivity.
Defined.

(** ** Seed data and the initial state *)

(** X7: the seeded transactions refer to the first two accounts of the
    collection they are created for. With at least two accounts every
    seeded transaction has its account; with fewer (and no account with an
    empty id) at least one seeded transaction refers to no account. *)
Theorem createDefaultTransactions_integrity
  (uuid1 uuid2 uuid3 : string) (now : Z) (accounts : list Account) :
  ((2 <= List.length accounts)%nat ->
   referentialIntegrity
     (App.make accounts (createDefaultTransactions uuid1 uuid2 uuid3 now accounts)))
  /\ ((List.length accounts < 2)%nat ->
      (forall account, In account accounts -> Account.id account <> ""%string) ->
      ~ referentialIntegrity
          (App.make accounts (createDefaultTransactions uuid1 uuid2 uuid3 now accounts))).
Proof.
  unfold referentialIntegrity. simpl. split.
  - intros Hlen. destruct accounts as [|first [|second rest]]; simpl in Hlen; try lia.
    intros t [<-|[<-|[<-|[]]]]; simpl.
    + exists first. split; [now left|reflexivity].
    + exists first. split; [now left|reflexivity].
    + exists second. split; [right; now left|reflexivity].
  - intros Hlen Hids Hint.
    destruct (Hint (Transaction.make uuid3 (secondaryId accounts) (Some now) 5000 POSITIVE
                                     "Scholarship" "Extra payment"))
      as (account & Hin & Hid).
    { right. right. now left. }
    simpl in Hid. destruct accounts as [|first [|second rest]]; simpl in *.
    + destruct Hin.
    + destruct Hin as [->|[]]. exact (Hids account (or_introl eq_refl) Hid).
    + lia.
Qed.

Lemma createDefaultTransactions_integrity_witness :
  referentialIntegrity
    (App.make [everydayCard; educationLoan]
              (createDefaultTransactions "t1" "t2" "t3" 1704067200000
                                         [everydayCard; educationLoan]))
  /\ ~ referentialIntegrity
         (App.make [everydayCard]
                   (createDefaultTransactions "t1" "t2" "t3" 1704067200000 [everydayCard])).
Proof.
  split.
  - apply (proj1 (createDefaultTransactions_integrity "t1" "t2" "t3" 1704067200000
                    [everydayCard; educationLoan])).
    simpl. lia.
  - apply (proj2 (createDefaultTransactions_integrity "t1" "t2" "t3" 1704067200000
                    [everydayCard])).
    + simpl. lia.
    + intros account [<-|[]]. discriminate.
Defined.




Lemma persistCollections_run `{Platform} `{JSON JSONValue}
  (s : App.state) (store : Storage) (log : list string) :
  accepts store (JSON_stringify (toJSON (App.accounts s))) ->
  accepts store (JSON_stringify (toJSON (App.transactions s))) ->
  persistCollections s {| localStorage := Some store; console := log |}
  = (Normal tt,
     {| localStorage :=
          Some {| items :=
                    <[storageKeys transactionsKey :=
                        JSON_stringify (toJSON (App.transactions s))]>
                      (<[storageKeys accountsKey :=
                           JSON_stringify (toJSON (App.accounts s))]>
                         (items store));
                  blocked := blocked store;
                  quota := quota store |};
        console := log |}).
Proof.
  intros [Hb Hqa] [_ Hqt]. unfold persistCollections, bind.
  rewrite saveToStorage_run. cbn [localStorage console JSON_stringify Loaded_JSON jsonOf].
  rewrite Hb.
  apply N.ltb_ge in Hqa, Hqt. rewrite Hqa.
  rewrite saveToStorage_run. cbn [localStorage console blocked quota items JSON_stringify
    Loaded_JSON jsonOf].
  rewrite ?Hb, Hqt. reflexivity.
Qed.

Lemma legacyTexts_same `{Platform} `{JSON JSONValue}
  (store store' : Storage) (legacyKey : string) :
  items store' !! legacyKey = items store !! legacyKey ->
  legacyTexts store' legacyKey = legacyTexts store legacyKey.
Proof. intros Hsame. unfold legacyTexts. now rewrite Hsame. Qed.

(** X9: a reload after the collections were written, both writes accepted,
    returns a collection that is not empty as it was saved, provided its
    numbers are finite and not [-0] and the platform's JSON carries its JSON
    value; an empty collection does not come back: with no transaction left
    the seeded transactions are returned, and with no account left the
    seeded accounts, with the legacy notes of the store. *)
Theorem reload_after_persist `{Platform} `{JSON JSONValue}
  (uuid1 uuid2 uuid3 created : string) (now : Z) (accounts : list Account)
  (s : App.state) (store : Storage) (log : list string) :
  storableAccounts (App.accounts s) ->
  storableTransactions (App.transactions s) ->
  roundTrips (toJSON (App.accounts s)) ->
  roundTrips (toJSON (App.transactions s)) ->
  accepts store (JSON_stringify (toJSON (App.accounts s))) ->
  accepts store (JSON_stringify (toJSON (App.transactions s))) ->
  fst (initialTransactions uuid1 uuid2 uuid3 now accounts
         (snd (persistCollections s {| localStorage := Some store; console := log |})))
  = Normal (Typed (match App.transactions s with
                   | [] => createDefaultTransactions uuid1 uuid2 uuid3 now accounts
                   | _ :: _ => App.transactions s
                   end))
  /\ fst (initialAccounts uuid1 uuid2 created
            (snd (persistCollections s {| localStorage := Some store; console := log |})))
     = Normal (Typed (match App.accounts s with
                      | [] => createDefaultAccounts uuid1 uuid2 created
                                (legacyTexts store legacyKeys_todos
                                 ++ legacyTexts store legacyKeys_notes)
                      | _ :: _ => App.accounts s
                      end)).
Proof.
  intros Hsa Hst [Hta Hpa] [Htt Hpt] Ha Ht.
  rewrite (persistCollections_run s store log Ha Ht). cbn [snd].
  destruct Ha as [Hb _]. split.
  - unfold initialTransactions, bind, ret, lift. rewrite loadFromStorage_run.
    cbn [localStorage blocked items]. rewrite Hb, lookup_insert_eq, Htt.
    cbn [JSON_parse Loaded_JSON]. rewrite Hpt. cbn [option_map].
    rewrite (asLoaded_transactions _ Hst). cbn [hasLength].
    destruct (App.transactions s); reflexivity.
  - unfold initialAccounts, bind, ret, lift.
    match goal with
    | |- context [collectLegacyNotes {| localStorage := Some ?store'; console := ?log0 |}] =>
        destruct (collectLegacyNotes_run store' log0 Hb) as [log1 ->];
        rewrite (legacyTexts_same store store' legacyKeys_todos)
          by (cbn [items]; now rewrite !lookup_insert_ne by discriminate);
        rewrite (legacyTexts_same store store' legacyKeys_notes)
          by (cbn [items]; now rewrite !lookup_insert_ne by discriminate)
    end.
    rewrite loadFromStorage_run. cbn [localStorage blocked items]. rewrite Hb.
    rewrite lookup_insert_ne by discriminate.
    rewrite lookup_insert_eq, Hta.
    cbn [JSON_parse Loaded_JSON]. rewrite Hpa. cbn [option_map].
    rewrite (asLoaded_accounts _ Hsa). cbn [hasLength].
    destruct (App.accounts s); reflexivity.
Qed.

Lemma reload_after_persist_witness :
  fst (@initialTransactions samplePlatform sampleTexts "t4" "t5" "t6" 1706745600000
         [everydayCard; educationLoan]
         (snd (@persistCollections samplePlatform sampleTexts
                 (App.make [everydayCard; educationLoan]
                           [groceries; monthlyPayment; scholarship])
                 {| localStorage := Some emptyStore; console := [] |})))
  = Normal (Typed [groceries; monthlyPayment; scholarship])
  /\ fst (@initialAccounts samplePlatform sampleTexts "a5" "a6" "2024-02-01T00:00:00.000Z"
            (snd (@persistCollections samplePlatform sampleTexts
                    (App.make [everydayCard; educationLoan]
                              [groceries; monthlyPayment; scholarship])
                    {| localStorage := Some emptyStore; console := [] |})))
     = Normal (Typed [everydayCard; educationLoan]).
Proof.
  apply (@reload_after_persist samplePlatform sampleTexts
           "t4" "t5" "t6" "2024-02-01T00:00:00.000Z" 1706745600000
           [everydayCard; educationLoan]
           (App.make [everydayCard; educationLoan] [groceries; monthlyPayment; scholarship])
           emptyStore []).
  - repeat constructor.
  - repeat constructor.
  - split; vm_compute; reflexivity.
  - split; vm_compute; reflexivity.
  - split; [reflexivity|vm_compute; discriminate].
  - split; [reflexivity|vm_compute; discriminate].
Defined.

(** ** Mutations: integrity, identifiers and round trips *)

Lemma filter_filter_implied {A} (f g : A -> bool) (l : list A) :
  (forall x, In x l -> f x = true -> g x = true) ->
  filter f (filter g l) = filter f l.
Proof.
  induction l as [|x l IH]; intros Himp; [reflexivity|]. simpl.
  assert (IH' : filter f (filter g l) = filter f l).
  { apply IH. intros y Hy. apply Himp. now right. }
  destruct (g x) eqn:Hg; simpl.
  - now rewrite IH'.
  - destruct (f x) eqn:Hf; [|exact IH'].
    rewrite (Himp x (or_introl eq_refl) Hf) in Hg. discriminate.
Qed.

Lemma filter_all {A} (f : A -> bool) (l : list A) :
  (forall x, In x l -> f x = true) -> filter f l = l.
Proof.
  induction l as [|x l IH]; intros Hall; [reflexivity|]. simpl.
  rewrite (Hall x (or_introl eq_refl)). f_equal. apply IH. intros y Hy. apply Hall. now right.
Qed.

Lemma NoDup_map_filter {Item Key} (key : Item -> Key) (keep : Item -> bool)
    (items : list Item) (Hdistinct : NoDup (map key items)) :
  NoDup (map key (filter keep items)).
Proof.
  induction items as [|x items IH]; simpl; [constructor|].
  inversion Hdistinct as [|? ? Hnotin Hrest]; subst.
  destruct (keep x); simpl; [|now apply IH].
  constructor; [|now apply IH].
  intros Hin. apply Hnotin. apply in_map_iff in Hin as (y & Hy & Hin).
  apply filter_In in Hin as [Hin _]. apply in_map_iff. now exists y.
Qed.

Lemma NoDup_map_eq {A B} (f : A -> B) (l : list A) (x y : A) :
  NoDup (map f l) -> In x l -> In y l -> f x = f y -> x = y.
Proof.
  induction l as [|z l IH]; intros Hnd Hx Hy Heq; [destruct Hx|].
  inversion Hnd as [|? ? Hnotin Hnd']; subst.
  destruct Hx as [<-|Hx], Hy as [<-|Hy]; auto.
  - exfalso. apply Hnotin. rewrite Heq. now apply in_map.
  - exfalso. apply Hnotin. rewrite <- Heq. now apply in_map.
Qed.

(** X10: every mutation keeps the transactions attached to accounts: if
    each transaction refers to an account of the collection, this is still
    so after [deleteAccount], [deleteTransaction] and [addAccount], and
    after [addTransaction] of a transaction whose account is there. *)
Theorem mutations_keep_integrity (s : App.state) :
  referentialIntegrity s ->
  (forall d, referentialIntegrity (deleteAccount d s))
  /\ (forall transactionId, referentialIntegrity (deleteTransaction transactionId s))
  /\ (forall account, referentialIntegrity (addAccount account s))
  /\ (forall transaction,
        (exists account, In account (App.accounts s)
                         /\ Account.id account = Transaction.accountId transaction) ->
        referentialIntegrity (addTransaction transaction s)).
Proof.
  intros Hint. destruct s as [accounts transactions].
  unfold referentialIntegrity in *. simpl in *.
  split; [|split; [|split]].
  - intros d t Ht. apply filter_In in Ht as [Ht Hd].
    destruct (Hint t Ht) as (a & Ha & Hid). exists a. split; [|exact Hid].
    apply filter_In. split; [exact Ha|]. now rewrite Hid.
  - intros i t Ht. apply filter_In in Ht as [Ht _]. exact (Hint t Ht).
  - intros a t Ht. destruct (Hint t Ht) as (a' & Ha' & Hid). exists a'.
    split; [now right|exact Hid].
  - intros t Hacc t' [<-|Ht']; [exact Hacc|now apply Hint].
Qed.

Lemma mutations_keep_integrity_witness :
  referentialIntegrity
    (deleteAccount "a1" (App.make [everydayCard; educationLoan]
                                  [groceries; monthlyPayment; scholarship])).
Proof.
  apply (mutations_keep_integrity
           (App.make [everydayCard; educationLoan] [groceries; monthlyPayment; scholarship])).
  intros t [<-|[<-|[<-|[]]]]; simpl.
  - exists everydayCard. split; [now left|reflexivity].
  - exists everydayCard. split; [now left|reflexivity].
  - exists educationLoan. split; [right; now left|reflexivity].
Defined.

(** X11: deleting undoes adding when the identifier is fresh. Deleting a
    transaction id that no transaction carries changes nothing, so a
    transaction added with a fresh id and deleted again leaves the state as
    it was; likewise for an account whose id no account carries and no
    transaction refers to. *)
Theorem delete_after_add (s : App.state) :
  (forall transactionId,
      (forall t, In t (App.transactions s) -> Transaction.id t <> transactionId) ->
      deleteTransaction transactionId s = s)
  /\ (forall transaction,
        (forall t, In t (App.transactions s) ->
           Transaction.id t <> Transaction.id transaction) ->
        deleteTransaction (Transaction.id transaction) (addTransaction transaction s) = s)
  /\ (forall account,
        (forall a, In a (App.accounts s) -> Account.id a <> Account.id account) ->
        (forall t, In t (App.transactions s) ->
           Transaction.accountId t <> Account.id account) ->
        deleteAccount (Account.id account) (addAccount account s) = s).
Proof.
  destruct s as [accounts transactions].
  unfold deleteTransaction, deleteAccount, addTransaction, addAccount, setTransactions,
    setAccounts. simpl.
  split; [|split].
  - intros i Hfresh. f_equal. apply filter_all. intros t Ht.
    apply negb_true_iff, String.eqb_neq. now apply Hfresh.
  - intros t Hfresh. f_equal. rewrite String.eqb_refl. simpl.
    apply filter_all. intros t' Ht'. apply negb_true_iff, String.eqb_neq. now apply Hfresh.
  - intros a Hfresh Hnone. rewrite String.eqb_refl. simpl. f_equal.
    + apply filter_all. intros a' Ha'. apply negb_true_iff, String.eqb_neq.
      now apply Hfresh.
    + apply filter_all. intros t Ht. apply negb_true_iff, String.eqb_neq.
      now apply Hnone.
Qed.

Lemma delete_after_add_witness :
  deleteTransaction "t5" (addTransaction paymentToday (App.make [educationLoan] [scholarship]))
  = App.make [educationLoan] [scholarship].
Proof.
  apply (proj1 (proj2 (delete_after_add (App.make [educationLoan] [scholarship])))
           paymentToday).
  intros t [<-|[]]. simpl. discriminate.
Defined.

(** X12: with pairwise distinct transaction ids, [deleteTransaction] of the
    id of a listed transaction removes exactly that one transaction, and
    the ids stay distinct under [deleteTransaction], [deleteAccount] and
    [addTransaction] with a fresh id. *)
Theorem transaction_ids_stay_unique (s : App.state) :
  uniqueTransactionIds s ->
  (forall t, In t (App.transactions s) ->
     (forall t', In t' (App.transactions (deleteTransaction (Transaction.id t) s))
                 <-> In t' (App.transactions s) /\ t' <> t)
     /\ S (List.length (App.transactions (deleteTransaction (Transaction.id t) s)))
        = List.length (App.transactions s))
  /\ (forall transactionId, uniqueTransactionIds (deleteTransaction transactionId s))
  /\ (forall d, uniqueTransactionIds (deleteAccount d s))
  /\ (forall t,
        (forall t', In t' (App.transactions s) -> Transaction.id t' <> Transaction.id t) ->
        uniqueTransactionIds (addTransaction t s)).
Proof.
  intros Hnd. destruct s as [accounts transactions]. unfold uniqueTransactionIds in *.
  simpl in *. split; [|split; [|split]].
  - intros t Ht. split.
    + intros t'. rewrite filter_In, negb_true_iff, String.eqb_neq.
      split; intros [Hin Hne]; (split; [exact Hin|]).
      * intros ->. now apply Hne.
      * intros E. apply Hne. now apply (NoDup_map_eq Transaction.id transactions).
    + revert Hnd Ht. induction transactions as [|x l IH]; intros Hl Hin; [destruct Hin|].
      inversion Hl as [|? ? Hnotin Hl']; subst. simpl.
      destruct Hin as [->|Hin].
      * rewrite String.eqb_refl. simpl. f_equal.
        rewrite filter_all; [reflexivity|].
        intros y Hy. apply negb_true_iff, String.eqb_neq. intros E.
        apply Hnotin. rewrite <- E. now apply in_map.
      * destruct (String.eqb_spec (Transaction.id x) (Transaction.id t)) as [E|E]; simpl.
        -- exfalso. apply Hnotin. rewrite E. now apply in_map.
        -- f_equal. now apply IH.
  - intros i. now apply NoDup_map_filter.
  - intros d. now apply NoDup_map_filter.
  - intros t Hfresh. constructor; [|exact Hnd].
    intros Hin. apply in_map_iff in Hin as (t' & E & Ht'). now apply (Hfresh t' Ht').
Qed.

Lemma transaction_ids_stay_unique_witness :
  S (List.length (App.transactions
                    (deleteTransaction "t2"
                       (App.make [everydayCard] [groceries; monthlyPayment; scholarship]))))
  = 3%nat.
Proof.
  apply (proj1 (transaction_ids_stay_unique
                  (App.make [everydayCard] [groceries; monthlyPayment; scholarship])
                  ltac:(repeat constructor; simpl; intuition discriminate))
           monthlyPayment).
  right. now left.
Defined.

(** ** Balances under the mutations *)

(** X13: the balance of an account depends on its own transactions only:
    it is unchanged by deleting another account, by adding a transaction of
    another account and, when the transaction ids are pairwise distinct, by
    deleting a transaction of another account. *)
Theorem balance_ignores_other_accounts (A : Account) (s : App.state) :
  (forall d, Account.id A <> d ->
     getBalance A (App.transactions (deleteAccount d s))
     = getBalance A (App.transactions s))
  /\ (forall t, Transaction.accountId t <> Account.id A ->
        getBalance A (App.transactions (addTransaction t s))
        = getBalance A (App.transactions s))
  /\ (forall t, uniqueTransactionIds s -> In t (App.transactions s) ->
        Transaction.accountId t <> Account.id A ->
        getBalance A (App.transactions (deleteTransaction (Transaction.id t) s))
        = getBalance A (App.transactions s)).
Proof.
  split; [|split].
  - intros d Hne. now apply deleteAccount_preserves_other_balances.
  - intros t Hne. destruct s as [accounts transactions]. unfold getBalance. simpl.
    apply String.eqb_neq in Hne. now rewrite Hne.
  - intros t Hnd Hin Hne. destruct s as [accounts transactions].
    unfold getBalance, uniqueTransactionIds in *. simpl in *. f_equal.
    apply filter_filter_implied. intros t' Ht' Hacc.
    apply negb_true_iff, String.eqb_neq. intros E.
    apply String.eqb_eq in Hacc.
    assert (t' = t) by now apply (NoDup_map_eq Transaction.id transactions).
    subst t'. contradiction.
Qed.

Lemma balance_ignores_other_accounts_witness :
  getBalance educationLoan
    (App.transactions
       (deleteAccount "a1" (App.make [everydayCard; educationLoan]
                                     [groceries; monthlyPayment; scholarship])))
  = getBalance educationLoan [groceries; monthlyPayment; scholarship].
Proof.
  apply (proj1 (balance_ignores_other_accounts educationLoan
                  (App.make [everydayCard; educationLoan]
                            [groceries; monthlyPayment; scholarship]))).
  discriminate.
Defined.

(** X14: [deleteAccount] can be repeated and reordered: deleting the same
    id twice is deleting it once, and two deletions give the same state in
    either order. *)
Theorem deleteAccount_idempotent_commutes (d d' : string) (s : App.state) :
  deleteAccount d (deleteAccount d s) = deleteAccount d s
  /\ deleteAccount d (deleteAccount d' s) = deleteAccount d' (deleteAccount d s).
Proof.
  destruct s as [accounts transactions].
  unfold deleteAccount, setTransactions, setAccounts. simpl.
  assert (Hidem : forall {X} (f : X -> bool) (l : list X),
             filter f (filter f l) = filter f l).
  { intros X f l. apply filter_filter_implied. auto. }
  assert (Hcomm : forall {X} (f g : X -> bool) (l : list X),
             filter f (filter g l) = filter g (filter f l)).
  { intros X f g l. induction l as [|x l IH]; [reflexivity|]. simpl.
    destruct (f x) eqn:Hf, (g x) eqn:Hg; simpl; rewrite ?Hf, ?Hg, IH; reflexivity. }
  split.
  - now rewrite !Hidem.
  - f_equal; apply Hcomm.
Qed.

(** Without whole amounts a transaction put in front of the collection, as
    [addTransaction] does, need not move the balance by its amount. *)
Lemma addTransaction_delta_needs_whole_amounts :
  getBalance storeCard
    (App.transactions (addTransaction refund (App.make [storeCard] [coffee])))
  <> (getBalance storeCard [coffee] - Transaction.amount refund)%float.
Proof. vm_compute. discriminate. Qed.

(** X15: with whole amounts below 2^53, [addTransaction] of a transaction
    of the account moves its balance by exactly the amount: up for a
    NEGATIVE transaction, down for a POSITIVE one, although the new
    transaction is put in front of the collection. *)
Theorem addTransaction_balance_delta (A : Account) (t : Transaction) (s : App.state) :
  Transaction.accountId t = Account.id A ->
  wholeAmounts A (App.transactions (addTransaction t s)) ->
  getBalance A (App.transactions (addTransaction t s))
  = if direction_eqb (Transaction.direction t) NEGATIVE
    then (getBalance A (App.transactions s) + Transaction.amount t)%float
    else (getBalance A (App.transactions s) - Transaction.amount t)%float.
Proof.
  intros Hid Hwhole. destruct s as [accounts transactions]. simpl in *.
  pose proof (getBalance_represents A (t :: transactions) Hwhole) as [Hnew _].
  destruct Hwhole as (Hstart & Hall & Hbound).
  inversion Hall as [|? ? Ht Hrest]; subst.
  simpl in Hbound.
  pose proof (integerPart_nonneg (Transaction.amount t)) as Ht0.
  pose proof (integerPart_nonneg (Account.startingDebt A)) as Hs0.
  pose proof (amountsTotal_nonneg transactions) as Hl0.
  assert (Hold : wholeAmounts A transactions).
  { split; [exact Hstart|]. split; [exact Hrest|]. lia. }
  pose proof (getBalance_represents A transactions Hold) as Hrep.
  pose proof (wholeNumber_represents _ Ht) as Hamount.
  set (own := filter (fun transaction =>
                        String.eqb (Transaction.accountId transaction) (Account.id A))
                     transactions) in *.
  assert (Hown : amountsTotal own <= amountsTotal transactions)
    by apply amountsTotal_filter.
  assert (Hsigned : Z.abs (signedTotal own) <= amountsTotal own).
  { clear. induction own as [|x l IH]; simpl; [lia|].
    pose proof (integerPart_nonneg (Transaction.amount x)).
    unfold signedAmount. destruct (direction_eqb _ _); lia. }
  simpl in Hnew. apply String.eqb_eq in Hid. rewrite Hid in Hnew. simpl in Hnew.
  fold own in Hnew. unfold signedAmount in Hnew.
  apply Prim2SF_inj. rewrite Hnew.
  destruct (direction_eqb (Transaction.direction t) NEGATIVE).
  - destruct (add_represents _ _ _ _ Hrep Hamount) as [-> _]; [lia|]. f_equal. lia.
  - destruct (sub_represents _ _ _ _ Hrep Hamount) as [-> _]; [lia|]. f_equal. lia.
Qed.

Lemma addTransaction_balance_delta_witness :
  getBalance everydayCard
    (App.transactions (addTransaction monthlyPayment (App.make [everydayCard] [groceries])))
  = (getBalance everydayCard [groceries] - 1500)%float.
Proof.
  apply (addTransaction_balance_delta everydayCard monthlyPayment
           (App.make [everydayCard] [groceries]) eq_refl).
  split; [split; vm_compute; reflexivity|]. split.
  - repeat constructor; vm_compute; reflexivity.
  - vm_compute. reflexivity.
Defined.

(** X16: with whole amounts below 2^53 the balance is exact: it is the
    binary64 number of the integer [startingDebt] plus the charges minus
    the payments of the account, with no rounding at any step. *)
Theorem getBalance_exact (A : Account) (transactions : list Transaction) :
  wholeAmounts A transactions ->
  Prim2SF (getBalance A transactions)
  = integerSF
      (integerPart (Account.startingDebt A)
       + signedTotal (filter (fun transaction =>
                                String.eqb (Transaction.accountId transaction)
                                           (Account.id A))
                             transactions))
  /\ Z.abs (integerPart (Account.startingDebt A)
            + signedTotal (filter (fun transaction =>
                                     String.eqb (Transaction.accountId transaction)
                                                (Account.id A))
                                  transactions)) < 2 ^ 53.
Proof.
  intros (Hstart & Hall & Hbound).
  pose proof (integerPart_nonneg (Account.startingDebt A)) as H0.
  pose proof (amountsTotal_filter
                (fun transaction =>
                   String.eqb (Transaction.accountId transaction) (Account.id A))
                transactions) as Hown.
  unfold getBalance. apply balance_fold_represents.
  - now apply wholeNumber_represents.
  - apply Forall_forall. intros t Ht. apply filter_In in Ht as [Ht _].
    revert t Ht. now apply Forall_forall.
  - lia.
Qed.

Lemma getBalance_exact_witness :
  Prim2SF (getBalance everydayCard [groceries; monthlyPayment; scholarship])
  = integerSF 13000.
Proof.
  apply (getBalance_exact everydayCard [groceries; monthlyPayment; scholarship]).
  split; [split; vm_compute; reflexivity|]. split.
  - repeat constructor; vm_compute; reflexivity.
  - vm_compute. reflexivity.
Defined.

(** ** Further aggregates *)

Lemma breakdown_fold (ty : AccountType) (transactions : list Transaction)
  (accounts : list Account) :
  forall (totals : gmap AccountType number) (v : number),
    totals !! ty = Some v ->
    fold_left
      (fun totals entry =>
         <[ Account.type (Summary.account entry) :=
              (default 0%float (totals !! Account.type (Summary.account entry))
               + mathMax (Summary.balance entry) 0)%float ]> totals)
      (accountSummaries accounts transactions) totals !! ty
    = Some (fold_left (fun sum entry => (sum + mathMax (Summary.balance entry) 0)%float)
                      (accountSummaries
                         (filter (fun account => accountType_eqb (Account.type account) ty)
                                 accounts)
                         transactions)
                      v).
Proof.
  induction accounts as [|a l IH]; intros totals v Hv; simpl; [exact Hv|].
  destruct (accountType_eqb (Account.type a) ty) eqn:Hty; simpl.
  - assert (Account.type a = ty)
      by (destruct (Account.type a), ty; try reflexivity; discriminate).
    subst ty. apply IH. rewrite lookup_insert_eq, Hv. reflexivity.
  - apply IH. rewrite lookup_insert_ne; [exact Hv|].
    intros E. rewrite E in Hty. destruct ty; discriminate.
Qed.

(** X17: the breakdown by account type holds, for each of the three types,
    the total remaining debt of the accounts of that type (added in
    collection order); a type without accounts is present with 0. *)
Theorem breakdownByType_per_type
  (accounts : list Account) (transactions : list Transaction) (ty : AccountType) :
  breakdownByType (accountSummaries accounts transactions) !! ty
  = Some (totalRemainingDebt
            (accountSummaries
               (filter (fun account => accountType_eqb (Account.type account) ty) accounts)
               transactions))
  /\ ((forall account, In account accounts -> Account.type account <> ty) ->
      breakdownByType (accountSummaries accounts transactions) !! ty = Some 0%float).
Proof.
  assert (Hmain : breakdownByType (accountSummaries accounts transactions) !! ty
                  = Some (totalRemainingDebt
                            (accountSummaries
                               (filter (fun account =>
                                          accountType_eqb (Account.type account) ty)
                                       accounts)
                               transactions))).
  { unfold breakdownByType, totalRemainingDebt. apply breakdown_fold.
    destruct ty; reflexivity. }
  split; [exact Hmain|].
  intros Hnone. rewrite Hmain. rewrite filter_none; [reflexivity|].
  intros a Ha. specialize (Hnone a Ha).
  destruct (Account.type a), ty; try reflexivity; congruence.
Qed.

Lemma breakdownByType_per_type_witness :
  breakdownByType (accountSummaries [everydayCard; educationLoan] [groceries]) !! OVERDRAFT
  = Some 0%float.
Proof.
  apply (proj2 (breakdownByType_per_type [everydayCard; educationLoan] [groceries]
                  OVERDRAFT)).
  intros account [<-|[<-|[]]]; discriminate.
Defined.

(** X18: the 30-day totals count each recent transaction on one side only.
    Adding a charge never changes the payments total, adding a payment never
    changes the charges total, and a transaction with an invalid date or a
    date before the start of the window changes neither. *)
Theorem recent_totals_sides `{TimeZone} (now : Z) (t : Transaction) (s : App.state) :
  (Transaction.direction t = NEGATIVE ->
   totalRecentPayments (recentTransactions now (App.transactions (addTransaction t s)))
   = totalRecentPayments (recentTransactions now (App.transactions s)))
  /\ (Transaction.direction t = POSITIVE ->
      totalRecentCharges (recentTransactions now (App.transactions (addTransaction t s)))
      = totalRecentCharges (recentTransactions now (App.transactions s)))
  /\ ((Transaction.date t = None
       \/ exists time start,
            Transaction.date t = Some time /\ windowStart now = Some start /\ time < start) ->
      totalRecentPayments (recentTransactions now (App.transactions (addTransaction t s)))
      = totalRecentPayments (recentTransactions now (App.transactions s))
      /\ totalRecentCharges (recentTransactions now (App.transactions (addTransaction t s)))
         = totalRecentCharges (recentTransactions now (App.transactions s))).
Proof.
  destruct s as [accounts transactions].
  unfold totalRecentPayments, totalRecentCharges, recentTransactions.
  cbn [App.transactions addTransaction setTransactions App.accounts filter].
  split; [|split].
  - intros Hdir. destruct (Transaction.date t) as [time|]; [|reflexivity].
    destruct (windowStart now) as [start|]; [|reflexivity].
    destruct (start <=? time); [|reflexivity]. cbn [filter]. now rewrite Hdir.
  - intros Hdir. destruct (Transaction.date t) as [time|]; [|reflexivity].
    destruct (windowStart now) as [start|]; [|reflexivity].
    destruct (start <=? time); [|reflexivity]. cbn [filter]. now rewrite Hdir.
  - intros [-> | (time & start & -> & -> & Hlt)]; [split; reflexivity|].
    replace (start <=? time) with false; [split; reflexivity|].
    symmetry. apply Z.leb_gt. exact Hlt.
Qed.

Lemma recent_totals_sides_witness :
  totalRecentPayments
    (@recentTransactions utc evaluationTime
       (App.transactions (addTransaction futureCharge (App.make [] [paymentToday]))))
  = 750%float
  /\ totalRecentCharges
       (@recentTransactions centralEurope springEvaluationTime
          (App.transactions (addTransaction marchCharge (App.make [] []))))
     = 0%float.
Proof.
  split.
  - rewrite (proj1 (@recent_totals_sides utc evaluationTime futureCharge
                      (App.make [] [paymentToday])) eq_refl).
    reflexivity.
  - destruct (proj2 (proj2 (@recent_totals_sides centralEurope springEvaluationTime
                              marchCharge (App.make [] []))))
      as [_ Hcharges].
    + right. exists (springEvaluationTime - 30 * msPerDay + 1800000),
        (springEvaluationTime - 30 * msPerDay + 3600000).
      split; [reflexivity|]. split; [vm_compute; reflexivity|].
      unfold springEvaluationTime, msPerDay. lia.
    + rewrite Hcharges. reflexivity.
Defined.

(** X19: the list of accounts without a recent payment is empty exactly
    when every account has a POSITIVE transaction in the recent set. *)
Theorem accountsWithoutRecentPayments_empty `{TimeZone}
  (now : Z) (accounts : list Account) (transactions : list Transaction) :
  accountsWithoutRecentPayments (accountSummaries accounts transactions)
                                (recentTransactions now transactions) = []
  <-> forall A, In A accounts ->
        exists t, In t (recentTransactions now transactions)
                  /\ Transaction.direction t = POSITIVE
                  /\ Transaction.accountId t = Account.id A.
Proof.
  split.
  - intros Hempty A HA.
    destruct (existsb
                (fun t => String.eqb (Transaction.accountId t) (Account.id A)
                          && direction_eqb (Transaction.direction t) POSITIVE)
                (recentTransactions now transactions)) eqn:Hex.
    + apply existsb_exists in Hex as (t & Ht & Hb).
      apply andb_true_iff in Hb as [Hid Hdir]. exists t. split; [exact Ht|]. split.
      * destruct (Transaction.direction t); [reflexivity|discriminate].
      * now apply String.eqb_eq.
    + exfalso.
      assert (Hin : In (Summary.make A (getBalance A transactions))
                       (accountsWithoutRecentPayments
                          (accountSummaries accounts transactions)
                          (recentTransactions now transactions))).
      { apply filter_In. split; [apply in_map_iff; now exists A|].
        simpl. now rewrite Hex. }
      rewrite Hempty in Hin. destruct Hin.
  - intros Hall.
    destruct (accountsWithoutRecentPayments _ _) as [|entry rest] eqn:Hlist; [reflexivity|].
    exfalso.
    assert (Hlacks : lacksRecentPayment now accounts transactions (Summary.account entry)).
    { exists entry. split; [|reflexivity]. rewrite Hlist. now left. }
    apply lacksRecentPayment_iff in Hlacks as [HA Hnone].
    apply Hnone. now apply Hall.
Qed.

(** X20: the highest-debt aggregate is absent exactly when there is no
    account. *)
Theorem highestDebtAccount_none_iff
  (accounts : list Account) (transactions : list Transaction) :
  highestDebtAccount (accountSummaries accounts transactions) = None <-> accounts = [].
Proof.
  split.
  - intros Hnone. destruct accounts as [|a l]; [reflexivity|].
    destruct (highestDebtAccount_some (a :: l) transactions ltac:(discriminate))
      as (A & _ & Hsome).
    congruence.
  - intros ->. reflexivity.
Qed.

(** X21: deleting an account removes its summary and leaves every other
    summary, account and balance, as it was. *)
Theorem deleteAccount_summaries (d : string) (s : App.state) :
  accountSummaries (App.accounts (deleteAccount d s)) (App.transactions (deleteAccount d s))
  = filter (fun entry => negb (String.eqb (Account.id (Summary.account entry)) d))
           (accountSummaries (App.accounts s) (App.transactions s)).
Proof.
  pose proof (deleteAccount_preserves_other_balances d s) as Hbal.
  destruct s as [accounts transactions]. simpl in *.
  induction accounts as [|a l IH]; [reflexivity|]. simpl.
  destruct (String.eqb_spec (Account.id a) d) as [E|E]; simpl; [exact IH|].
  rewrite IH. f_equal. f_equal. now apply Hbal.
Qed.

(** ** Theme *)

(** X22: toggling the theme always flips the class shown; it is an
    involution on the two themes, and a stored theme that is neither of
    them becomes ["dark"] and is never restored by toggling again. *)
Theorem toggleTheme_flips (theme : string) :
  themeClass (toggleTheme theme) <> themeClass theme
  /\ (toggleTheme theme = "dark"%string \/ toggleTheme theme = "light"%string)
  /\ (theme = "dark"%string \/ theme = "light"%string ->
      toggleTheme (toggleTheme theme) = theme)
  /\ (theme <> "dark"%string -> theme <> "light"%string ->
      toggleTheme theme = "dark"%string /\ toggleTheme (toggleTheme theme) <> theme).
Proof.
  unfold toggleTheme, themeClass.
  destruct (String.eqb_spec theme "dark") as [->|Hd]; simpl.
  - split; [discriminate|]. split; [now right|]. split; [reflexivity|].
    intros Hne. now contradiction Hne.
  - split; [discriminate|]. split; [now left|]. split.
    + intros [-> | ->]; [contradiction|reflexivity].
    + intros _ Hl. split; [reflexivity|]. intros E. now apply Hl.
Qed.

Lemma toggleTheme_flips_witness : toggleTheme (toggleTheme "light") = "light"%string.
Proof.
  apply (proj1 (proj2 (proj2 (toggleTheme_flips "light")))). now right.
Defined.

(** ** The forms: what a submitted entity looks like *)

Lemma gt_zero_positive (x : number) :
  gt x 0%float = true -> nonneg x /\ truthyNumber x = true.
Proof.
  unfold gt, nonneg, truthyNumber, isNaN, isPositiveZero, isNegativeZero.
  rewrite ltb_spec. change (Prim2SF 0%float) with (S754_zero false).
  pose proof (classify_spec x) as Hc. unfold SF64classify in Hc.
  pose proof (SFclassify_cases (Prim2SF x)) as Hcc.
  destruct (Prim2SF x) as [[]|[]| |[] m e] eqn:Hs; simpl; try discriminate; intros _;
    rewrite Hc; try destruct Hcc as [Hcc|Hcc]; rewrite Hcc;
    (split; [constructor|reflexivity]).
Qed.

Lemma not_le_zero_gt (x : number) :
  isNaN x = false -> PrimFloat.leb x 0%float = false -> gt x 0%float = true.
Proof.
  rewrite isNaN_false. unfold nonNaN, gt. rewrite leb_spec, ltb_spec.
  change (Prim2SF 0%float) with (S754_zero false).
  destruct (Prim2SF x) as [[]|[]| |[] m e]; unfold SFleb, SFltb; simpl;
    intros Hn Hle; try reflexivity; congruence.
Qed.

Lemma orNumber_nonneg (x : number) : isNaN x = true \/ nonneg x -> nonneg (orNumber x 0).
Proof.
  unfold orNumber, truthyNumber. intros [Hnan|Hnn].
  - rewrite Hnan. simpl. apply zero_nonneg.
  - destruct (negb _); [exact Hnn|apply zero_nonneg].
Qed.

Lemma abs_nonneg (x : number) : isNaN (PrimFloat.abs x) = true \/ nonneg (PrimFloat.abs x).
Proof.
  destruct (isNaN (PrimFloat.abs x)) eqn:Hnan; [now left|right].
  apply isNaN_false in Hnan. unfold nonNaN, nonneg in *. rewrite abs_spec in *.
  destruct (Prim2SF x); simpl in *; try constructor. congruence.
Qed.

Lemma mathMax_zero_l_nonneg (x : number) :
  isNaN (mathMax 0 x) = true \/ nonneg (mathMax 0 x).
Proof.
  unfold mathMax. change (isNaN 0%float) with false. simpl.
  destruct (isNaN x) eqn:Hnan; [now left|right].
  change (mathMaxStep neg_infinity 0%float) with 0%float.
  unfold mathMaxStep. change (isNegativeZero 0%float) with false.
  rewrite andb_false_r.
  destruct (gt x 0%float) eqn:Hgt; [apply (gt_zero_positive x Hgt)|apply zero_nonneg].
Qed.

(** X23: [handleSubmit] of the account form either rejects the form,
    leaving the collections and the form as they are and setting a message
    (blank name, a starting debt that is not a number, or a negative one),
    or adds one account in front: its id is the fresh one, its name the
    trimmed name, its bank name and notes are not empty, and its starting
    debt is neither NaN nor negative; the form is then reset. *)
Theorem AccountsSection_handleSubmit_outcome `{Platform}
  (uuid now : string) (ui : AccountsSection.state) (s : App.state) :
  let form := AccountsSection.form ui in
  let startingDebtValue := toNumber (AccountForm.startingDebt form) in
  let result := AccountsSection_handleSubmit uuid now ui s in
  ((truthy (trim (AccountForm.name form)) = false
    \/ isNaN startingDebtValue = true
    \/ PrimFloat.ltb startingDebtValue 0 = true)
   /\ snd result = s
   /\ AccountsSection.form (fst result) = form
   /\ truthy (AccountsSection.error (fst result)) = true)
  \/ (truthy (trim (AccountForm.name form)) = true
      /\ isNaN startingDebtValue = false
      /\ PrimFloat.ltb startingDebtValue 0 = false
      /\ fst result = AccountsSection.make emptyAccountForm ""
      /\ exists account,
          snd result = addAccount account s
          /\ Account.id account = uuid
          /\ Account.name account = trim (AccountForm.name form)
          /\ nonneg (Account.startingDebt account)
          /\ truthy (Account.bankName account) = true
          /\ truthy (Account.notes account) = true).
Proof.
  intros form startingDebtValue result. subst result.
  unfold AccountsSection_handleSubmit. fold form. fold startingDebtValue.
  destruct (truthy (trim (AccountForm.name form))) eqn:Hname; simpl.
  2:{ left. repeat split; auto. }
  destruct (isNaN startingDebtValue) eqn:Hnan.
  { left. repeat split; auto. }
  destruct (PrimFloat.ltb startingDebtValue 0) eqn:Hneg.
  { left. repeat split; auto. }
  right. repeat split. eexists. split; [reflexivity|]. simpl.
  split; [reflexivity|]. split; [reflexivity|]. split.
  - apply orNumber_nonneg, mathMax_zero_l_nonneg.
  - unfold orString. split.
    + destruct (truthy (trim (AccountForm.bankName form))) eqn:E; [exact E|reflexivity].
    + destruct (truthy (trim (AccountForm.notes form))) eqn:E; [exact E|reflexivity].
Qed.

(** X24: [handleSubmit] of the transaction form throws only for a date
    that cannot be parsed (after the account and the amount were found
    valid); otherwise it either rejects the form with a message and no
    change, or adds one transaction in front whose account id is not empty,
    whose amount is strictly positive and whose date is valid. *)
Theorem TransactionsSection_handleSubmit_outcome `{Platform}
  (uuid : string) (ui : TransactionsSection.state) (s : App.state) :
  let form := TransactionsSection.form ui in
  match TransactionsSection_handleSubmit uuid ui s with
  | Throw _ =>
      parseDate (TransactionForm.date form) = None
      /\ truthy (TransactionForm.accountId form) = true
      /\ gt (PrimFloat.abs (toNumber (TransactionForm.amount form))) 0 = true
  | Normal (ui', s') =>
      (s' = s
       /\ TransactionsSection.form ui' = form
       /\ truthy (TransactionsSection.error ui') = true)
      \/ exists t time,
          s' = addTransaction t s
          /\ TransactionsSection.error ui' = ""%string
          /\ Transaction.id t = uuid
          /\ Transaction.accountId t = TransactionForm.accountId form
          /\ truthy (Transaction.accountId t) = true
          /\ gt (Transaction.amount t) 0 = true
          /\ Transaction.date t = Some time
          /\ parseDate (TransactionForm.date form) = Some time
          /\ Transaction.direction t = TransactionForm.direction form
  end.
Proof.
  intros form. unfold TransactionsSection_handleSubmit. fold form.
  destruct (truthy (TransactionForm.accountId form)) eqn:Hacc; simpl.
  2:{ left. repeat split; auto. }
  destruct (isNaN (PrimFloat.abs (toNumber (TransactionForm.amount form)))) eqn:Hnan.
  { left. repeat split; auto. }
  destruct (PrimFloat.leb (PrimFloat.abs (toNumber (TransactionForm.amount form))) 0)
    eqn:Hle.
  { left. repeat split; auto. }
  pose proof (not_le_zero_gt _ Hnan Hle) as Hgt.
  unfold toISOString.
  destruct (parseDate (TransactionForm.date form)) as [time|] eqn:Hdate.
  - right. eexists. exists time. split; [reflexivity|]. simpl.
    repeat split; auto.
    unfold orNumber. now rewrite (proj2 (gt_zero_positive _ Hgt)).
  - repeat split; auto.
Qed.

(** X25: the two variants differ on an amount of zero. When the amount
    field reads as 0, with an account selected and a valid date, the
    current [handleSubmit] rejects the form and adds nothing, while the
    earlier one adds a transaction of amount 0; and whatever the field
    reads, the amount the earlier variant stores is neither NaN nor
    negative. *)
Theorem zero_amount_policy `{Platform}
  (uuid : string) (form : TransactionForm) (message : string) (s : App.state) :
  (forall form' s',
      TransactionsSection_handleSubmit_earlier uuid form s = Normal (form', s') ->
      s' = s
      \/ exists t, s' = addTransaction t s /\ nonneg (Transaction.amount t))
  /\ (truthy (TransactionForm.accountId form) = true ->
      toNumber (TransactionForm.amount form) = 0%float ->
      (exists ui',
          TransactionsSection_handleSubmit uuid (TransactionsSection.make form message) s
          = Normal (ui', s))
      /\ forall time, parseDate (TransactionForm.date form) = Some time ->
           exists t,
             TransactionsSection_handleSubmit_earlier uuid form s
             = Normal (resetTransactionForm form, addTransaction t s)
             /\ Transaction.amount t = 0%float).
Proof.
  split.
  - intros form' s'. unfold TransactionsSection_handleSubmit_earlier, toISOString.
    destruct (truthy (TransactionForm.accountId form)); simpl; [|intros [= <- <-]; now left].
    destruct (parseDate (TransactionForm.date form)); [|discriminate].
    intros [= <- <-]. right. eexists. split; [reflexivity|]. simpl.
    apply orNumber_nonneg, abs_nonneg.
  - intros Hacc Hzero. split.
    + unfold TransactionsSection_handleSubmit. simpl. rewrite Hacc, Hzero.
      change (isNaN (PrimFloat.abs 0)) with false.
      change (PrimFloat.leb (PrimFloat.abs 0) 0) with true. simpl. eauto.
    + intros time Hdate. unfold TransactionsSection_handleSubmit_earlier, toISOString.
      rewrite Hacc, Hdate, Hzero. simpl. eexists. split; [reflexivity|]. reflexivity.
Qed.

Lemma zero_amount_policy_witness :
  exists t,
    @TransactionsSection_handleSubmit_earlier samplePlatform "t10"
      (TransactionForm.make "a1" "2024-02-01" "0" NEGATIVE "General" "")
      (App.make [everydayCard] [])
    = Normal (resetTransactionForm
                (TransactionForm.make "a1" "2024-02-01" "0" NEGATIVE "General" ""),
              addTransaction t (App.make [everydayCard] []))
    /\ Transaction.amount t = 0%float.
Proof.
  apply (proj2 (proj2 (@zero_amount_policy samplePlatform "t10"
                         (TransactionForm.make "a1" "2024-02-01" "0" NEGATIVE "General" "")
                         "" (App.make [everydayCard] []))
                  eq_refl eq_refl)
           1706745600000).
  reflexivity.
Defined.

(** ** The transaction list: filters and account names *)

(** X26: filtering the list by an account (any direction) shows exactly
    the transactions that enter the balance of that account, in order, so
    the balance computed from the filtered list is the balance; this needs
    the id of the account to differ from the word that stands for no
    filter, under which every transaction is shown. *)
Theorem filteredTransactions_account (A : Account) (transactions : list Transaction) :
  filteredTransactions (Filters.make "ALL" ALL_DIRECTIONS) transactions = transactions
  /\ (Account.id A <> "ALL"%string ->
      filteredTransactions (Filters.make (Account.id A) ALL_DIRECTIONS) transactions
      = filter (fun transaction =>
                  String.eqb (Transaction.accountId transaction) (Account.id A))
               transactions
      /\ getBalance A (filteredTransactions (Filters.make (Account.id A) ALL_DIRECTIONS)
                                            transactions)
         = getBalance A transactions).
Proof.
  unfold filteredTransactions. simpl. split.
  - apply filter_all. reflexivity.
  - intros Hne. apply String.eqb_neq in Hne. rewrite Hne. simpl.
    assert (Heq : filter (fun transaction =>
                            String.eqb (Transaction.accountId transaction) (Account.id A)
                            && true) transactions
                  = filter (fun transaction =>
                              String.eqb (Transaction.accountId transaction) (Account.id A))
                           transactions).
    { apply filter_ext. intros t. apply andb_true_r. }
    rewrite Heq. split; [reflexivity|].
    unfold getBalance. f_equal. apply filter_filter_implied. auto.
Qed.

Lemma filteredTransactions_account_witness :
  getBalance everydayCard
    (filteredTransactions (Filters.make "a1" ALL_DIRECTIONS)
                          [groceries; monthlyPayment; scholarship])
  = getBalance everydayCard [groceries; monthlyPayment; scholarship].
Proof.
  apply (proj2 (filteredTransactions_account everydayCard
                  [groceries; monthlyPayment; scholarship])).
  discriminate.
Defined.

(** X27: once the account the list is filtered by has been deleted, the
    effect resets the account filter to the word that stands for no filter
    and keeps the direction filter; a filter on a surviving account is left
    alone. *)
Theorem resetStaleFilter_after_delete (d : string) (filters : Filters) (s : App.state) :
  Filters.accountId filters <> "ALL"%string ->
  (Filters.accountId filters = d ->
   resetStaleFilter (App.accounts (deleteAccount d s)) filters
   = Filters.make "ALL" (Filters.direction filters))
  /\ ((exists account, In account (App.accounts s)
                       /\ Account.id account = Filters.accountId filters
                       /\ Account.id account <> d) ->
      resetStaleFilter (App.accounts (deleteAccount d s)) filters = filters).
Proof.
  intros Hall. apply String.eqb_neq in Hall.
  destruct s as [accounts transactions]. unfold resetStaleFilter. simpl. rewrite Hall. simpl.
  split.
  - intros <-.
    destruct (existsb _ _) eqn:Hex; [|reflexivity].
    apply existsb_exists in Hex as (a & Ha & Hid).
    apply filter_In in Ha as [_ Hne]. rewrite Hid in Hne. discriminate.
  - intros (a & Ha & Hid & Hne).
    destruct (existsb _ _) eqn:Hex; [reflexivity|].
    assert (Hex' : existsb
                     (fun account => String.eqb (Account.id account)
                                                (Filters.accountId filters))
                     (filter (fun account => negb (String.eqb (Account.id account) d))
                             accounts) = true).
    { apply existsb_exists. exists a. split; [|now apply String.eqb_eq].
      apply filter_In. split; [exact Ha|]. now apply negb_true_iff, String.eqb_neq. }
    congruence.
Qed.

Lemma resetStaleFilter_after_delete_witness :
  resetStaleFilter
    (App.accounts (deleteAccount "a1" (App.make [everydayCard; educationLoan] [groceries])))
    (Filters.make "a1" (ONLY NEGATIVE))
  = Filters.make "ALL" (ONLY NEGATIVE).
Proof.
  apply (proj1 (resetStaleFilter_after_delete "a1" (Filters.make "a1" (ONLY NEGATIVE))
                  (App.make [everydayCard; educationLoan] [groceries])
                  ltac:(discriminate))).
  reflexivity.
Defined.

(** X28: a transaction row shows the name of an account that carries the
    transaction's account id; with the transactions attached to accounts
    and no account name empty, no row reads "Unknown account" for lack of
    an account, while a transaction whose account is gone always does. *)
Theorem accountNameOf_known (s : App.state) :
  (forall t, (forall account, In account (App.accounts s) ->
                Account.id account <> Transaction.accountId t) ->
     accountNameOf (App.accounts s) t = "Unknown account"%string)
  /\ (referentialIntegrity s ->
      (forall account, In account (App.accounts s) -> truthy (Account.name account) = true) ->
      forall t, In t (App.transactions s) ->
        exists account,
          In account (App.accounts s)
          /\ Account.id account = Transaction.accountId t
          /\ accountNameOf (App.accounts s) t = Account.name account).
Proof.
  unfold accountNameOf. split.
  - intros t Hnone.
    destruct (find _ _) as [a|] eqn:Hfind; [|reflexivity].
    apply find_some in Hfind as [Ha Hid]. apply String.eqb_eq in Hid.
    now destruct (Hnone a Ha).
  - intros Hint Hnames t Ht.
    destruct (Hint t Ht) as (a & Ha & Hid).
    destruct (find _ _) as [a'|] eqn:Hfind.
    + apply find_some in Hfind as [Ha' Hid']. apply String.eqb_eq in Hid'.
      exists a'. split; [exact Ha'|]. split; [exact Hid'|].
      unfold orString. now rewrite (Hnames a' Ha').
    + exfalso. pose proof (find_none _ _ Hfind a Ha) as Hno. simpl in Hno.
      apply String.eqb_neq in Hno. contradiction.
Qed.

Lemma accountNameOf_known_witness :
  accountNameOf [educationLoan] groceries = "Unknown account"%string.
Proof.
  apply (proj1 (accountNameOf_known (App.make [educationLoan] [groceries])) groceries).
  intros account [<-|[]]. discriminate.
Defined.

(** ** Legacy notes in the seeded accounts, and the earlier account form *)

(** X29: with a readable store that holds no account collection, the
    initial accounts are the seeded ones built from the legacy notes of the
    two legacy keys, todos first. *)
Theorem initialAccounts_imports_legacy
  `{Platform} `{JSON JSONValue}
  (uuid1 uuid2 created : string) (store : Storage) (log : list string) :
  blocked store = false ->
  items store !! storageKeys accountsKey = None ->
  fst (initialAccounts uuid1 uuid2 created {| localStorage := Some store; console := log |})
  = Normal (Typed (createDefaultAccounts uuid1 uuid2 created
                     (legacyTexts store legacyKeys_todos
                      ++ legacyTexts store legacyKeys_notes))).
Proof.
  intros Hb Hnone. unfold initialAccounts, bind, ret, lift.
  destruct (collectLegacyNotes_run store log Hb) as [log1 ->].
  rewrite loadFromStorage_run. cbn [localStorage]. rewrite Hb, Hnone. reflexivity.
Qed.

Lemma initialAccounts_imports_legacy_witness :
  fst (@initialAccounts samplePlatform sampleLegacyJSON
         "a1" "a2" "2024-01-01T00:00:00.000Z"
         {| localStorage := Some legacyStore; console := [] |})
  = Normal (Typed (createDefaultAccounts "a1" "a2" "2024-01-01T00:00:00.000Z"
                     ["buy milk"%string])).
Proof.
  rewrite (@initialAccounts_imports_legacy samplePlatform sampleLegacyJSON
             "a1" "a2" "2024-01-01T00:00:00.000Z" legacyStore []);
    reflexivity.
Defined.

Lemma lt_zero_truthy (x : number) : PrimFloat.ltb x 0%float = true -> truthyNumber x = true.
Proof.
  unfold truthyNumber, isNaN, isPositiveZero, isNegativeZero.
  rewrite ltb_spec. change (Prim2SF 0%float) with (S754_zero false).
  pose proof (classify_spec x) as Hc. unfold SF64classify in Hc.
  pose proof (SFclassify_cases (Prim2SF x)) as Hcc.
  destruct (Prim2SF x) as [[]|[]| |[] m e] eqn:Hs; unfold SFltb; simpl;
    try discriminate; intros _;
    rewrite Hc; try destruct Hcc as [Hcc|Hcc]; rewrite Hcc; reflexivity.
Qed.

(** X30: the two variants differ on a negative starting debt. With a
    name that is not blank and a starting debt that reads as a negative
    number, the current [handleSubmit] rejects the form and adds nothing,
    while the earlier one adds an account with that negative starting
    debt. *)
Theorem negative_starting_debt_policy `{Platform}
  (uuid now : string) (ui : AccountsSection.state) (s : App.state) :
  truthy (trim (AccountForm.name (AccountsSection.form ui))) = true ->
  PrimFloat.ltb (toNumber (AccountForm.startingDebt (AccountsSection.form ui))) 0 = true ->
  snd (AccountsSection_handleSubmit uuid now ui s) = s
  /\ exists account,
      snd (AccountsSection_handleSubmit_earlier uuid now (AccountsSection.form ui) s)
      = addAccount account s
      /\ Account.startingDebt account
         = toNumber (AccountForm.startingDebt (AccountsSection.form ui)).
Proof.
  intros Hname Hneg. split.
  - unfold AccountsSection_handleSubmit. rewrite Hname. simpl.
    destruct (isNaN _); [reflexivity|]. now rewrite Hneg.
  - unfold AccountsSection_handleSubmit_earlier. rewrite Hname. simpl.
    eexists. split; [reflexivity|]. simpl. unfold orNumber.
    now rewrite (lt_zero_truthy _ Hneg).
Qed.

Lemma negative_starting_debt_policy_witness :
  exists account,
    snd (@AccountsSection_handleSubmit_earlier samplePlatform "a4" "2024-02-01T00:00:00.000Z"
           (AccountForm.make " Travel Card " CREDIT_CARD "" "-500" "")
           (App.make [] []))
    = addAccount account (App.make [] [])
    /\ Account.startingDebt account = (-500)%float.
Proof.
  apply (proj2 (@negative_starting_debt_policy samplePlatform "a4"
                  "2024-02-01T00:00:00.000Z"
                  (AccountsSection.make
                     (AccountForm.make " Travel Card " CREDIT_CARD "" "-500" "") "")
                  (App.make [] []) eq_refl eq_refl)).
Defined.
